(** * dexscreener_monitor: discovery, dedup and performance sampling

    A shallow embedding of [dexscanner_monitor.py] and the properties of
    its discovery loop, performance loop, record builder, safety evaluator,
    store and display helpers.

    Conventions of the embedding.
    - Python [float] is the kernel's binary64 [float]; Python [int] is [Z].
      Conversions between texts, ints and floats round as Python does
      (to nearest, ties to even).
    - A JSON document returned by the remote source is a value of [json];
      a Python [dict] with string keys is an association list.
    - Python [str] is [string]; every marker and key the program looks for
      is ASCII, so case folding and substring search act on ASCII letters
      and leave every other byte alone.
    - Time is a number of microseconds, the resolution of [datetime];
      every [datetime.now()] is a reading of the environment's clock.
    - Effects (store, processed set, network, sleeps, alerts, log records)
      are threaded through a state-and-exception monad over [World]. The
      two loops of the program run in two threads; a cycle of either is
      followed here running alone. *)

From Stdlib Require Import ZArith String Ascii List Lia Bool DecimalString.
From Stdlib Require Import Sorted.
From Corelib Require Import PrimFloat FloatOps SpecFloat.
From stdpp Require Import base option gmap strings.

Local Open Scope string_scope.
Local Open Scope Z_scope.
Set Warnings "-register-all,-inexact-float".

(** ** Python numbers *)

Module PyNum.

(** [str(n)] for an [int]. *)
Definition dec (n : Z) : string := NilZero.string_of_int (Z.to_int n).

Fixpoint zeros (n : nat) : string :=
  match n with
  | O => ""
  | S k => String "0" (zeros k)
  end.

Definition pad_left (w : nat) (s : string) : string :=
  zeros (w - String.length s) +:+ s.

Definition sign_text (s : bool) : string := if s then "-" else "".

(** Nearest binary64 of [a / d] (for [0 <= a], [0 < d]), ties to even:
    the quotient is taken with at least 55 significant bits and one
    sticky bit below them, then rounded once. *)
Definition round_ratio (s : bool) (a d : Z) : spec_float :=
  if a =? 0 then S754_zero s
  else
    let k := Z.max 0 (Z.log2 d + 56 - Z.log2 a) in
    let n := a * 2 ^ k in
    let m := 2 * (n / d) + (if n mod d =? 0 then 0 else 1) in
    binary_normalize prec emax (if s then - m else m) (- k - 1) s.

(** [a * 10^e10] as a spec float; exponents far outside the binary64
    range are settled without computing the power. *)
Definition round_decimal (s : bool) (a e10 : Z) : spec_float :=
  if a =? 0 then S754_zero s
  else
    let order := Z.of_nat (String.length (dec a)) + e10 in
    if 320 <? order then S754_infinity s
    else if order <? -340 then S754_zero s
    else if 0 <=? e10 then round_ratio s (a * 10 ^ e10) 1
    else round_ratio s a (10 ^ (- e10)).

(** [float(n)] for an [int]: [None] stands for [OverflowError]. *)
Definition float_of_Z (n : Z) : option float :=
  match round_ratio (n <? 0) (Z.abs n) 1 with
  | S754_infinity _ => None
  | sf => Some (SF2Prim sf)
  end.

(** [a / b] for two [int]s, [b <> 0]: correctly rounded, and
    [OverflowError] ([None]) when the quotient exceeds the floats. *)
Definition int_truediv (a b : Z) : option float :=
  match round_ratio (xorb (a <? 0) (b <? 0)) (Z.abs a) (Z.abs b) with
  | S754_infinity _ => None
  | sf => Some (SF2Prim sf)
  end.

(** Nearest integer of [n / d] ([0 <= n], [0 < d]), ties to even. *)
Definition half_even (n d : Z) : Z :=
  let q := n / d in
  match (2 * (n mod d)) ?= d with
  | Lt => q
  | Eq => if Z.even q then q else q + 1
  | Gt => q + 1
  end.

(** Nearest integer of [m * 2^e * 10^d]. *)
Definition scaled (m : positive) (e : Z) (d : nat) : Z :=
  let n := Z.pos m * 10 ^ Z.of_nat d in
  if 0 <=? e then n * 2 ^ e else half_even n (2 ^ (- e)).

Definition fixed (n : Z) (d : nat) : string :=
  let p := 10 ^ Z.of_nat d in
  match d with
  | O => dec n
  | _ => dec (n / p) +:+ "." +:+ pad_left d (dec (n mod p))
  end.

(** [f"{x:.{d}f}"]. *)
Definition format_f (x : float) (d : nat) : string :=
  match Prim2SF x with
  | S754_nan => "nan"
  | S754_infinity s => sign_text s +:+ "inf"
  | S754_zero s => sign_text s +:+ fixed 0 d
  | S754_finite s m e => sign_text s +:+ fixed (scaled m e d) d
  end.

Inductive round_error := RoundNaN | RoundInf.

(** [round(x)] for a [float]: [ValueError] on nan, [OverflowError] on an
    infinity. *)
Definition py_round (x : float) : round_error + Z :=
  match Prim2SF x with
  | S754_nan => inl RoundNaN
  | S754_infinity _ => inl RoundInf
  | S754_zero _ => inr 0
  | S754_finite s m e =>
      let n := scaled m e 0 in inr (if s then - n else n)
  end.

(** *** [repr] of a float: the shortest decimal that reads back *)

(** [floor (log10 (n / d))] for positive [n] and [d]. *)
Definition log10_floor (n d : Z) : Z :=
  if d <=? n then Z.of_nat (String.length (dec (n / d))) - 1
  else
    let j := Z.of_nat (String.length (dec d))
             - Z.of_nat (String.length (dec n)) in
    if d <=? n * 10 ^ j then - j else - j - 1.

(** A positive rational as a numerator and a denominator. *)
Definition pow_ratio (b e : Z) : Z * Z :=
  if 0 <=? e then (b ^ e, 1) else (1, b ^ (- e)).

(** The digits [c] and the exponent [k] of the [p]-digit decimal
    [c * 10^k] nearest to [m * 2^e], when it rounds back to [m * 2^e];
    the rounding interval is measured in quarters of [2^e]. *)
Definition shortest_at (m : positive) (e : Z) (p : Z) : option (Z * Z) :=
  let '(un, ud) := pow_ratio 2 (e - 2) in
  let v := 4 * Z.pos m in
  let hi := v + 2 in
  let lo := if (Z.pos m =? 2 ^ 52) && (-1074 <? e) then v - 1 else v - 2 in
  let closed := Z.even (Z.pos m) in
  let k := log10_floor (v * un) ud - p + 1 in
  let '(tn, td) := pow_ratio 10 k in
  let c1 := (v * un * td) / (ud * tn) in
  let c2 := c1 + 1 in
  let at_unit x := x * un * td in
  let of_cand c := c * tn * ud in
  let inside c :=
    if closed
    then (at_unit lo <=? of_cand c) && (of_cand c <=? at_unit hi)
    else (at_unit lo <? of_cand c) && (of_cand c <? at_unit hi) in
  let d1 := at_unit v - of_cand c1 in
  let d2 := of_cand c2 - at_unit v in
  match inside c1, inside c2 with
  | true, true =>
      Some (if d1 <? d2 then c1
            else if d2 <? d1 then c2
            else if Z.even c1 then c1 else c2, k)
  | true, false => Some (c1, k)
  | false, true => Some (c2, k)
  | false, false => None
  end.

Fixpoint shortest_from (fuel : nat) (m : positive) (e : Z) (p : Z)
  : Z * Z :=
  match fuel with
  | O => (Z.pos m, 0)
  | S fuel' =>
      match shortest_at m e p with
      | Some ck => ck
      | None => shortest_from fuel' m e (p + 1)
      end
  end.

Fixpoint strip_zeros_rev (l : list ascii) : list ascii :=
  match l with
  | "0"%char :: r => strip_zeros_rev r
  | _ => l
  end.

Definition strip_trailing_zeros (s : string) : string :=
  string_of_list_ascii
    (rev (strip_zeros_rev (rev (list_ascii_of_string s)))).

Definition repr_digits (digits : string) (decpt : Z) : string :=
  let n := Z.of_nat (String.length digits) in
  if (decpt <=? -4) || (16 <? decpt) then
    let ex := decpt - 1 in
    let mant :=
      match digits with
      | String c EmptyString => String c EmptyString
      | String c r => String c ("." +:+ r)
      | EmptyString => ""
      end in
    mant +:+ "e" +:+ (if ex <? 0 then "-" else "+")
         +:+ pad_left 2 (dec (Z.abs ex))
  else if decpt <=? 0 then
    "0." +:+ zeros (Z.to_nat (- decpt)) +:+ digits
  else if n <=? decpt then
    digits +:+ zeros (Z.to_nat (decpt - n)) +:+ ".0"
  else
    substring 0 (Z.to_nat decpt) digits +:+ "."
      +:+ substring (Z.to_nat decpt) (Z.to_nat (n - decpt)) digits.

(** [repr(x)], which is also [str(x)], for a [float]. *)
Definition float_repr (x : float) : string :=
  match Prim2SF x with
  | S754_nan => "nan"
  | S754_infinity s => sign_text s +:+ "inf"
  | S754_zero s => sign_text s +:+ "0.0"
  | S754_finite s m e =>
      let '(c, k) := shortest_from 17 m e 1 in
      let all := dec c in
      sign_text s
        +:+ repr_digits (strip_trailing_zeros all)
              (Z.of_nat (String.length all) + k)
  end.

(** *** [float(s)] for a [str] *)

Definition is_digit (c : ascii) : bool :=
  let n := nat_of_ascii c in (48 <=? n)%nat && (n <=? 57)%nat.

Definition digit_val (c : ascii) : Z := Z.of_nat (nat_of_ascii c) - 48.

Definition is_space (c : ascii) : bool :=
  let n := nat_of_ascii c in
  ((9 <=? n)%nat && (n <=? 13)%nat) || (n =? 32)%nat
  || ((28 <=? n)%nat && (n <=? 31)%nat).

(** A run of digits, single underscores allowed between two digits:
    the value read, the number of digits, and what is left. *)
Fixpoint digit_run (acc : Z) (n : nat) (l : list ascii)
  : Z * nat * list ascii :=
  match l with
  | c :: r =>
      if is_digit c then digit_run (10 * acc + digit_val c) (S n) r
      else if Ascii.eqb c "_" then
        match n, r with
        | S _, c2 :: _ => if is_digit c2 then digit_run acc n r
                          else (acc, n, l)
        | _, _ => (acc, n, l)
        end
      else (acc, n, l)
  | [] => (acc, n, l)
  end.

Fixpoint lstrip (l : list ascii) : list ascii :=
  match l with
  | c :: r => if is_space c then lstrip r else l
  | [] => []
  end.

Definition strip (l : list ascii) : list ascii :=
  rev (lstrip (rev (lstrip l))).

Definition lower_ascii (c : ascii) : ascii :=
  let n := nat_of_ascii c in
  if (65 <=? n)%nat && (n <=? 90)%nat then ascii_of_nat (n + 32) else c.

Definition take_sign (l : list ascii) : bool * list ascii :=
  match l with
  | "-"%char :: r => (true, r)
  | "+"%char :: r => (false, r)
  | _ => (false, l)
  end.

(** The exponent part, when there is one: [None] for a malformed one. *)
Definition exponent_part (l : list ascii) : option Z :=
  match l with
  | [] => Some 0
  | c :: r =>
      if Ascii.eqb (lower_ascii c) "e" then
        let '(s, r1) := take_sign r in
        match digit_run 0 0 r1 with
        | (_, O, _) => None
        | (v, S _, []) => Some (if s then - v else v)
        | (_, S _, _ :: _) => None
        end
      else None
  end.

(** [float(s)]: [None] stands for [ValueError]. *)
Definition float_of_string (s : string) : option float :=
  let '(neg, body) := take_sign (strip (list_ascii_of_string s)) in
  let word := string_of_list_ascii (map lower_ascii body) in
  if String.eqb word "inf" || String.eqb word "infinity" then
    Some (if neg then neg_infinity else infinity)
  else if String.eqb word "nan" then Some nan
  else
    let '(ip, ni, r1) := digit_run 0 0 body in
    let '(fp, nf, r2) :=
      match r1 with
      | "."%char :: r => digit_run ip 0 r
      | _ => (ip, O, r1)
      end in
    let dotted_ok :=
      match r1 with
      | "."%char :: "_"%char :: _ => false
      | _ => true
      end in
    match (ni + nf)%nat, dotted_ok, exponent_part r2 with
    | S _, true, Some ex =>
        Some (SF2Prim (round_decimal neg fp (ex - Z.of_nat nf)))
    | _, _, _ => None
    end.

End PyNum.

(** ** Python text *)

Module PyStr.

(** [s.lower()]. *)
Fixpoint lower (s : string) : string :=
  match s with
  | EmptyString => EmptyString
  | String c r => String (PyNum.lower_ascii c) (lower r)
  end.

(** [w in s] for two [str]s. *)
Fixpoint contains (w s : string) : bool :=
  match s with
  | EmptyString => String.prefix w s
  | String _ r => String.prefix w s || contains w r
  end.

(** [s.replace(c, "")] for a one-character [c]. *)
Fixpoint remove_char (c : ascii) (s : string) : string :=
  match s with
  | EmptyString => EmptyString
  | String a r =>
      if Ascii.eqb a c then remove_char c r else String a (remove_char c r)
  end.

Fixpoint join (sep : string) (l : list string) : string :=
  match l with
  | [] => ""
  | [x] => x
  | x :: r => x +:+ sep +:+ join sep r
  end.

Definition hex_digit (n : nat) : ascii :=
  if (n <? 10)%nat then ascii_of_nat (48 + n) else ascii_of_nat (87 + n).

(** One character of [repr(s)], inside the quote [q]. Bytes above 127
    are kept: they spell printable text. *)
Definition escape_char (q c : ascii) : string :=
  let n := nat_of_ascii c in
  if Ascii.eqb c "\" then "\\"
  else if Ascii.eqb c q then String "\" (String c "")
  else if (n =? 9)%nat then "\t"
  else if (n =? 10)%nat then "\n"
  else if (n =? 13)%nat then "\r"
  else if (n <? 32)%nat || (n =? 127)%nat then
    "\x" +:+ String (hex_digit (n / 16)) (String (hex_digit (n mod 16)) "")
  else String c "".

Fixpoint escape (q : ascii) (s : string) : string :=
  match s with
  | EmptyString => EmptyString
  | String c r => escape_char q c +:+ escape q r
  end.

(** The double quote. *)
Definition dquote : ascii := ascii_of_nat 34.

Fixpoint has_char (c : ascii) (s : string) : bool :=
  match s with
  | EmptyString => false
  | String a r => Ascii.eqb a c || has_char c r
  end.

(** [repr(s)]: single quotes, unless the text has one and no double
    quote. *)
Definition repr (s : string) : string :=
  let q := if has_char "'" s && negb (has_char dquote s)
           then dquote else "'"%char in
  String q (escape q s) +:+ String q "".

End PyStr.

(** ** Python values and exceptions *)

Inductive exn :=
| TypeError
| ValueError
| AttributeError
| OverflowError
| ZeroDivisionError
| KeyError
| IntegrityError
| InterfaceError
| IndexError.

Inductive result (A : Type) :=
| Ok (a : A)
| Raise (e : exn).
Arguments Ok {A} a.
Arguments Raise {A} e.

Definition rbind {A B} (r : result A) (k : A -> result B) : result B :=
match r with
| Ok a => k a
| Raise e => Raise e
end.

(** [try: r  except: d]. *)
Definition or_else {A} (r : result A) (d : A) : A :=
match r with
| Ok a => a
| Raise _ => d
end.

(** What [response.json()] gives: [None], [bool], [int], [float], [str],
  [list] and [dict] with string keys. *)
Inductive json :=
| JNull
| JBool (b : bool)
| JInt (n : Z)
| JFloat (x : float)
| JStr (s : string)
| JArr (l : list json)
| JObj (m : list (string * json)).

Module Py.

(** [repr(v)]. *)
Fixpoint repr (v : json) : string :=
  match v with
  | JNull => "None"
  | JBool true => "True"
  | JBool false => "False"
  | JInt n => PyNum.dec n
  | JFloat x => PyNum.float_repr x
  | JStr s => PyStr.repr s
  | JArr l =>
      "[" +:+ PyStr.join ", "
                ((fix items (l : list json) : list string :=
                    match l with
                    | [] => []
                    | x :: r => repr x :: items r
                    end) l) +:+ "]"
  | JObj m =>
      "{" +:+ PyStr.join ", "
                ((fix items (m : list (string * json)) : list string :=
                    match m with
                    | [] => []
                    | (k, x) :: r =>
                        (PyStr.repr k +:+ ": " +:+ repr x) :: items r
                    end) m) +:+ "}"
  end.

(** [str(v)]. *)
Definition str (v : json) : string :=
  match v with
  | JStr s => s
  | _ => repr v
  end.

(** [bool(v)]: what [not v] negates. *)
Definition truthy (v : json) : bool :=
  match v with
  | JNull => false
  | JBool b => b
  | JInt n => negb (n =? 0)
  | JFloat x => negb (PrimFloat.eqb x 0)
  | JStr s => negb (String.eqb s "")
  | JArr l => match l with [] => false | _ => true end
  | JObj m => match m with [] => false | _ => true end
  end.

(** [v == 0]. *)
Definition eq_zero (v : json) : bool :=
  match v with
  | JBool b => negb b
  | JInt n => n =? 0
  | JFloat x => PrimFloat.eqb x 0
  | _ => false
  end.

Fixpoint lookup (k : string) (m : list (string * json)) : option json :=
  match m with
  | [] => None
  | (k', v) :: r => if String.eqb k k' then Some v else lookup k r
  end.

(** [d.get(k, dflt)] on a [dict]. *)
Definition get (k : string) (dflt : json) (m : list (string * json))
  : json :=
  match lookup k m with
  | Some v => v
  | None => dflt
  end.

Definition is_str (k : string) (v : json) : bool :=
  match v with
  | JStr s => String.eqb s k
  | _ => false
  end.

(** [k in c] for a [str] [k]. *)
Definition contains (k : string) (c : json) : result bool :=
  match c with
  | JObj m => Ok (match lookup k m with Some _ => true | None => false end)
  | JArr l => Ok (existsb (is_str k) l)
  | JStr s => Ok (PyStr.contains k s)
  | _ => Raise TypeError
  end.

(** [c[k]] for a [str] [k]. *)
Definition getitem (c : json) (k : string) : result json :=
  match c with
  | JObj m => match lookup k m with Some v => Ok v | None => Raise KeyError end
  | _ => Raise TypeError
  end.

(** [v.replace("%", "")]. *)
Definition replace_percent (v : json) : result string :=
  match v with
  | JStr s => Ok (PyStr.remove_char "%" s)
  | _ => Raise AttributeError
  end.

(** [float(v)]. *)
Definition to_float (v : json) : result float :=
  match v with
  | JBool b => Ok (if b then 1%float else 0%float)
  | JInt n =>
      match PyNum.float_of_Z n with
      | Some x => Ok x
      | None => Raise OverflowError
      end
  | JFloat x => Ok x
  | JStr s =>
      match PyNum.float_of_string s with
      | Some x => Ok x
      | None => Raise ValueError
      end
  | _ => Raise TypeError
  end.

(** The [int] behind a [bool] or an [int]. *)
Definition as_int (v : json) : option Z :=
  match v with
  | JBool b => Some (if b then 1 else 0)
  | JInt n => Some n
  | _ => None
  end.

(** [a / b]: between two [int]s the quotient is rounded once; otherwise
    both operands become [float]s first. The divisor is zero exactly when
    [b == 0] holds, which for an [int] is read off the [int] itself. *)
Definition truediv (a b : json) : result float :=
  match as_int a, as_int b with
  | Some x, Some y =>
      if eq_zero b then Raise ZeroDivisionError
      else match PyNum.int_truediv x y with
           | Some q => Ok q
           | None => Raise OverflowError
           end
  | _, _ =>
      match a, b with
      | (JBool _ | JInt _ | JFloat _), (JBool _ | JInt _ | JFloat _) =>
          rbind (to_float a) (fun x =>
          rbind (to_float b) (fun y =>
          if eq_zero b then Raise ZeroDivisionError
          else Ok (x / y)%float))
      | _, _ => Raise TypeError
      end
  end.

(** [round(x)]. *)
Definition round (x : float) : result Z :=
  match PyNum.py_round x with
  | inr n => Ok n
  | inl PyNum.RoundNaN => Raise ValueError
  | inl PyNum.RoundInf => Raise OverflowError
  end.

End Py.

(** ** Payloads and records *)

(** A number of a listing: [int] or [float]. *)
Inductive pynum :=
| PNull
| PInt (n : Z)
| PFloat (x : float).

Definition num_json (v : pynum) : json :=
  match v with
  | PNull => JNull
  | PInt n => JInt n
  | PFloat x => JFloat x
  end.

(** One entry of the new-listings response. Each field is read with
    [token_raw.get]; [None] is an absent key. [id] and [createdAt] are
    texts. [name] is any value: the source filter calls [lower] on it, and
    only a text has one. A market figure is a number or [null] ([PNull]),
    and the decoder of the response reads [NaN] and [Infinity] as floats,
    so a figure may be one. The details payload of a pair stays a [json]
    document, because the safety heuristic reads its whole text. *)
Record Listing := {
  l_id : option string;
  l_name : option json;
  l_createdAt : option string;
  l_marketCap : option pynum;
  l_liquidity : option pynum;
  l_price : option pynum;
  l_priceChange24h : option pynum;
  l_volume24h : option pynum
}.

(** [token_raw.get(k, dflt)] for a number. *)
Definition num_or (v : option pynum) (dflt : Z) : pynum :=
  match v with
  | Some n => n
  | None => PInt dflt
  end.

(** [security_data] of [validate_token]. *)
Record SecurityData := {
  has_honey_pot : bool;
  has_mint_function : bool;
  has_proxy : bool;
  has_suspicious_holders : bool
}.

(** [performance_data] of [parse_token_details]. *)
Record PerformanceData := {
  p_price : pynum;
  p_market_cap : pynum;
  p_volume_24h : pynum;
  p_holders : json
}.

(** [token_data] of [parse_token_details], key by key. *)
Record TokenData := {
  id : string;
  pair_name : string;
  deployer : json;
  owner_renounced : json;
  chain : string;
  age : string;
  launch_time : option string;
  mint_enabled : string;
  liq_burned : json;
  market_cap : string;
  liquidity : string;
  liq_percentage : Z;
  price : string;
  price_change_24h : pynum;
  volume_24h : string;
  buys : json;
  sells : json;
  launch_mc : string;
  launch_mc_multiplier : string;
  ath : string;
  ath_multiplier : string;
  source : string;
  source_link : string;
  transaction_count : json;
  holders_count : json;
  top10_percentage : json;
  airdrops : json;
  airdrops_percentage : json;
  block0_snipes_percentage : json;
  block0_snipes_amount : json;
  fresh_wallets : json;
  fresh_wallets_percentage : json;
  team_wallets_percentage : json;
  team_wallets_amount : json;
  deployer_amount : json;
  deployer_percentage : json;
  website : json;
  initial_mc : pynum;
  initial_liq : pynum;
  security_warnings : option (list string)
}.

(** The two renderings of the mint field. *)
Definition mint_no : string := "No ✅".
Definition mint_yes : string := "Yes ⚠️".

(** ** SecurityValidator *)

Module SecurityValidator.

(** Lines 318-322: the holder concentration test. *)
Definition suspicious_holders (token_details : json) : result bool :=
  rbind (Py.contains "holders" token_details) (fun has_holders =>
  if negb has_holders then Ok false
  else
    rbind (Py.getitem token_details "holders") (fun holders =>
    rbind (Py.contains "top10" holders) (fun has_top10 =>
    if negb has_top10 then Ok false
    else
      rbind (Py.getitem token_details "holders") (fun holders' =>
      rbind (Py.getitem holders' "top10") (fun top10 =>
      rbind (Py.replace_percent top10) (fun text =>
      rbind (Py.to_float (JStr text)) (fun top10_percentage =>
      Ok (PrimFloat.ltb 80 top10_percentage)))))))).

(** Line 315: both words occur in the lowered text of the payload. *)
Definition mint_words (token_details : json) : bool :=
  PyStr.contains "mint" (PyStr.lower (Py.str token_details))
  && PyStr.contains "enabled" (PyStr.lower (Py.str token_details)).

Definition validate_token (token_details : json) : result SecurityData :=
  let mint := mint_words token_details in
  rbind (suspicious_holders token_details) (fun susp =>
  Ok {| has_honey_pot := false;
        has_mint_function := mint;
        has_proxy := false;
        has_suspicious_holders := susp |}).

End SecurityValidator.

(** ** MetricsFormatter: the display helpers of [DexscannerMonitor] *)

(** [_format_age]: the text is [Unknown] for a missing or empty timestamp
    and whenever the date arithmetic fails; [age_text] is the environment's
    rendering of a creation time against the wall clock (lines 618-627),
    [None] when that raises. *)
Definition _format_age (age_text : string -> option string)
    (timestamp : option string) : string :=
  match timestamp with
  | None => "Unknown"
  | Some s =>
      if String.eqb s "" then "Unknown"
      else match age_text s with
           | Some a => a
           | None => "Unknown"
           end
  end.

Definition _format_number (number : json) (decimals : nat) : string :=
  match number with
  | JNull => "0"
  | _ =>
      or_else
        (rbind (Py.to_float number) (fun number =>
         Ok (if (number <? 1000)%float then
               PyNum.format_f number decimals
             else if (number <? 1000000)%float then
               PyNum.format_f (number / 1000)%float decimals +:+ "K"
             else if (number <? 1000000000)%float then
               PyNum.format_f (number / 1000000)%float decimals +:+ "M"
             else
               PyNum.format_f (number / 1000000000)%float decimals +:+ "B")))
        "0"
  end.

(** The body of the [try] of [_calculate_percentage] (lines 652-654). *)
Definition _calculate_percentage_try (part whole : json) : result Z :=
  if Py.eq_zero whole then Ok 0
  else rbind (Py.truediv part whole) (fun q => Py.round (q * 100)%float).

Definition _calculate_percentage (part whole : json) : Z :=
  or_else (_calculate_percentage_try part whole) 0.

(** The body of the [try] of [_calculate_multiplier] (lines 661-664). *)
Definition _calculate_multiplier_try (current reference : json)
  : result string :=
  if Py.eq_zero reference then Ok "1x"
  else rbind (Py.truediv current reference) (fun multiplier =>
       Ok (PyNum.format_f multiplier 1 +:+ "x")).

Definition _calculate_multiplier (current reference : json) : string :=
  or_else (_calculate_multiplier_try current reference) "1x".

(** ** TokenRecordBuilder: [DexscannerMonitor.parse_token_details] *)

(** Lines 420-426: the platform the listing names, if any. A name that
    is present and is no text has no [lower]: [AttributeError]. *)
Definition detect_source (name : option json) : result (option string) :=
  match name with
  | Some (JStr name) =>
      let name_lower := PyStr.lower name in
      Ok (if PyStr.contains "pump.fun" name_lower then Some "pump.fun"
          else if PyStr.contains "pump.swap" name_lower then Some "pump.swap"
          else None)
  | Some _ => Raise AttributeError
  | None => Ok None
  end.

(** [token_raw.get("name", "Unknown")], read behind the source filter,
    which lets a text through and nothing else. *)
Definition name_or (name : option json) (dflt : string) : string :=
  match name with
  | Some (JStr name) => name
  | _ => dflt
  end.

Definition str_or (v : option string) (dflt : string) : string :=
  match v with
  | Some s => s
  | None => dflt
  end.

(** Lines 487-496. *)
Definition warnings_of (s : SecurityData) : option (list string) :=
  if has_honey_pot s || has_mint_function s || has_proxy s
     || has_suspicious_holders s
  then
    Some (((if has_honey_pot s then ["Potential honeypot detected"] else [])
          ++ (if has_mint_function s
              then ["Token has mint function enabled"] else [])
          ++ (if has_proxy s
              then ["Contract may have proxy capabilities"] else [])
          ++ (if has_suspicious_holders s
              then ["Suspicious holder concentration detected"] else []))%list)
  else None.

(** Lines 433-473, for a details payload that is a [dict]. *)
Definition build_token_data (age_text : string -> option string)
    (token_raw : Listing) (details_raw : list (string * json))
    (source : string) : TokenData :=
  let marketCap := num_json (num_or (l_marketCap token_raw) 0) in
  let liquidity := num_json (num_or (l_liquidity token_raw) 0) in
  {| id := str_or (l_id token_raw) "";
     pair_name := name_or (l_name token_raw) "Unknown";
     deployer := Py.get "deployer" (JStr "Unknown") details_raw;
     owner_renounced := Py.get "ownerRenounced" (JBool false) details_raw;
     chain := "SOL";
     age := _format_age age_text (l_createdAt token_raw);
     launch_time := l_createdAt token_raw;
     mint_enabled :=
       if negb (Py.truthy (Py.get "mintEnabled" (JBool true) details_raw))
       then mint_no else mint_yes;
     liq_burned := Py.get "liquidityBurned" (JInt 0) details_raw;
     market_cap := _format_number marketCap 1;
     liquidity := _format_number liquidity 1;
     liq_percentage := _calculate_percentage liquidity marketCap;
     price := _format_number (num_json (num_or (l_price token_raw) 0)) 8;
     price_change_24h := num_or (l_priceChange24h token_raw) 0;
     volume_24h :=
       _format_number (num_json (num_or (l_volume24h token_raw) 0)) 1;
     buys := Py.get "buys24h" (JInt 0) details_raw;
     sells := Py.get "sells24h" (JInt 0) details_raw;
     launch_mc :=
       _format_number (Py.get "launchMarketCap" (JInt 0) details_raw) 1;
     launch_mc_multiplier :=
       _calculate_multiplier marketCap
         (Py.get "launchMarketCap" (JInt 0) details_raw);
     ath := _format_number (Py.get "athMarketCap" (JInt 0) details_raw) 1;
     ath_multiplier :=
       _calculate_multiplier (Py.get "athMarketCap" (JInt 0) details_raw)
         marketCap;
     source := source;
     source_link := "https://" +:+ source;
     transaction_count := Py.get "transactionCount" (JInt 0) details_raw;
     holders_count := Py.get "holdersCount" (JInt 0) details_raw;
     top10_percentage := Py.get "top10HoldersPercentage" (JInt 0) details_raw;
     airdrops := Py.get "airdropsCount" (JInt 0) details_raw;
     airdrops_percentage := Py.get "airdropsPercentage" (JInt 0) details_raw;
     block0_snipes_percentage :=
       Py.get "block0SnipesPercentage" (JInt 0) details_raw;
     block0_snipes_amount := Py.get "block0SnipesAmount" (JInt 0) details_raw;
     fresh_wallets := Py.get "freshWalletsCount" (JInt 0) details_raw;
     fresh_wallets_percentage :=
       Py.get "freshWalletsPercentage" (JInt 0) details_raw;
     team_wallets_percentage :=
       Py.get "teamWalletsPercentage" (JInt 0) details_raw;
     team_wallets_amount := Py.get "teamWalletsAmount" (JInt 0) details_raw;
     deployer_amount := Py.get "deployerAmount" (JInt 0) details_raw;
     deployer_percentage := Py.get "deployerPercentage" (JInt 0) details_raw;
     website := Py.get "website" (JStr ("https://" +:+ source)) details_raw;
     initial_mc := num_or (l_marketCap token_raw) 0;
     initial_liq := num_or (l_liquidity token_raw) 0;
     security_warnings := None |}.

Definition with_warnings (t : TokenData) (w : option (list string))
  : TokenData :=
  {| id := id t; pair_name := pair_name t; deployer := deployer t;
     owner_renounced := owner_renounced t; chain := chain t; age := age t;
     launch_time := launch_time t; mint_enabled := mint_enabled t;
     liq_burned := liq_burned t; market_cap := market_cap t;
     liquidity := liquidity t; liq_percentage := liq_percentage t;
     price := price t; price_change_24h := price_change_24h t;
     volume_24h := volume_24h t; buys := buys t; sells := sells t;
     launch_mc := launch_mc t;
     launch_mc_multiplier := launch_mc_multiplier t; ath := ath t;
     ath_multiplier := ath_multiplier t; source := source t;
     source_link := source_link t;
     transaction_count := transaction_count t;
     holders_count := holders_count t;
     top10_percentage := top10_percentage t; airdrops := airdrops t;
     airdrops_percentage := airdrops_percentage t;
     block0_snipes_percentage := block0_snipes_percentage t;
     block0_snipes_amount := block0_snipes_amount t;
     fresh_wallets := fresh_wallets t;
     fresh_wallets_percentage := fresh_wallets_percentage t;
     team_wallets_percentage := team_wallets_percentage t;
     team_wallets_amount := team_wallets_amount t;
     deployer_amount := deployer_amount t;
     deployer_percentage := deployer_percentage t; website := website t;
     initial_mc := initial_mc t; initial_liq := initial_liq t;
     security_warnings := w |}.

(** [parse_token_details(token_raw, details_raw)]: [Ok None] is the
    [return None] of the source filter; a truthy details payload that is
    not a [dict] has no [get] and raises [AttributeError] at line 436. *)
Definition parse_token_details (age_text : string -> option string)
    (token_raw : Listing) (details_raw : json)
  : result (option (TokenData * PerformanceData * SecurityData)) :=
  let details_raw := if Py.truthy details_raw then details_raw else JObj [] in
  rbind (detect_source (l_name token_raw)) (fun source =>
  match source with
  | None => Ok None
  | Some source =>
      match details_raw with
      | JObj d =>
          let token_data := build_token_data age_text token_raw d source in
          let performance_data :=
            {| p_price := num_or (l_price token_raw) 0;
               p_market_cap := num_or (l_marketCap token_raw) 0;
               p_volume_24h := num_or (l_volume24h token_raw) 0;
               p_holders := Py.get "holdersCount" (JInt 0) d |} in
          rbind (SecurityValidator.validate_token details_raw)
            (fun security_data =>
             Ok (Some (with_warnings token_data (warnings_of security_data),
                       performance_data, security_data)))
      | _ => Raise AttributeError
      end
  end).

(** ** TrackedTokenStore: [Database]

    The three tables, rows in insertion order. A timestamp column holds
    the ISO text of a [datetime]; ISO texts of one format order as the
    instants do, so a timestamp is its instant in microseconds. The
    methods take [now], the reading of [datetime.now()] they make.

    Of a token row the program reads back [id], [pair_name] and
    [detected_at] only; the other cells are kept as the values that were
    bound. Of a sample it reads back every cell: the three REAL cells are
    what the column makes of the number bound ([Database.real_cell]),
    [None] being NULL; the [holders] cell is only printed, and is kept as
    the value bound (how an INTEGER column keeps a float or a text
    depends on the version of the engine). *)

Record TokenRow := {
  t_id : string;
  t_pair_name : string;
  t_deployer : json;
  t_owner_renounced : Z;
  t_launch_time : option string;
  t_mint_enabled : Z;
  t_liq_burned : json;
  t_chain : string;
  t_initial_mc : pynum;
  t_initial_liq : pynum;
  t_website : json;
  t_source : string;
  t_detected_at : Z;
  t_is_safe : Z
}.

Record PerfRow := {
  r_id : option string;
  r_timestamp : Z;
  r_price : option float;
  r_market_cap : option float;
  r_volume_24h : option float;
  r_holders : json
}.

Record SecRow := {
  s_id : option string;
  s_flags : SecurityData;
  s_check_time : Z
}.

Record Store := {
  tokens : list TokenRow;
  token_performance : list PerfRow;
  security_checks : list SecRow
}.

(** What [get_tokens_for_performance_check] returns for a row. *)
Record Tracked := {
  k_id : string;
  k_pair_name : string;
  k_detected_at : Z
}.

Definition hour_us : Z := 3600 * 1000000.

Module Database.

Definition empty : Store :=
  {| tokens := []; token_performance := []; security_checks := [] |}.

(** Binding a Python value to a statement: a [list] or a [dict] is not
    supported ([InterfaceError], [ProgrammingError] in later versions of
    the driver), and an [int] has to fit 64 bits. *)
Definition bind_param (v : json) : result unit :=
  match v with
  | JArr _ | JObj _ => Raise InterfaceError
  | JInt n =>
      if (- 2 ^ 63 <=? n) && (n <? 2 ^ 63) then Ok tt
      else Raise OverflowError
  | _ => Ok tt
  end.

(** [WHERE id = ?]: a NULL parameter equals no row. *)
Definition id_is (token_id : option string) (row_id : string) : bool :=
  match token_id with
  | Some i => String.eqb row_id i
  | None => false
  end.

Definition token_exists (token_id : option string) (db : Store) : bool :=
  existsb (fun r => id_is token_id (t_id r)) (tokens db).

(** [INSERT INTO tokens]: [id] is the primary key. *)
Definition add_token (now : Z) (token_data : TokenData) (db : Store)
  : result Store :=
  rbind (bind_param (deployer token_data)) (fun _ =>
  rbind (bind_param (liq_burned token_data)) (fun _ =>
  rbind (bind_param (num_json (initial_mc token_data))) (fun _ =>
  rbind (bind_param (num_json (initial_liq token_data))) (fun _ =>
  rbind (bind_param (website token_data)) (fun _ =>
  if token_exists (Some (id token_data)) db then Raise IntegrityError
  else
    Ok {| tokens :=
            tokens db ++
            [{| t_id := id token_data;
                t_pair_name := pair_name token_data;
                t_deployer := deployer token_data;
                t_owner_renounced :=
                  if Py.truthy (owner_renounced token_data) then 1 else 0;
                t_launch_time := launch_time token_data;
                t_mint_enabled :=
                  if String.eqb (mint_enabled token_data) mint_no
                  then 0 else 1;
                t_liq_burned := liq_burned token_data;
                t_chain := chain token_data;
                t_initial_mc := initial_mc token_data;
                t_initial_liq := initial_liq token_data;
                t_website := website token_data;
                t_source := source token_data;
                t_detected_at := now;
                t_is_safe := 0 |}];
          token_performance := token_performance db;
          security_checks := security_checks db |}))))).

Definition same_id (a b : option string) : bool :=
  match a, b with
  | Some x, Some y => String.eqb x y
  | _, _ => false
  end.

(** A number in a REAL column: an [int] becomes the nearest float, a NaN
    is kept as NULL and a negative zero as zero; read back, the cell is a
    [float] or [None]. The [int]s that reach the column fit 64 bits
    ([bind_param]), so [float_of_Z] gives their float. *)
Definition real_cell (v : pynum) : option float :=
  match v with
  | PNull => None
  | PInt n => PyNum.float_of_Z n
  | PFloat x =>
      match Prim2SF x with
      | S754_nan => None
      | S754_zero _ => Some 0%float
      | _ => Some x
      end
  end.

(** [INSERT INTO token_performance]: [(id, timestamp)] is the primary
    key, and a NULL id collides with nothing. *)
Definition update_token_performance (now : Z) (token_id : option string)
    (performance_data : PerformanceData) (db : Store) : result Store :=
  rbind (bind_param (num_json (p_price performance_data))) (fun _ =>
  rbind (bind_param (num_json (p_market_cap performance_data))) (fun _ =>
  rbind (bind_param (num_json (p_volume_24h performance_data))) (fun _ =>
  rbind (bind_param (p_holders performance_data)) (fun _ =>
  if existsb (fun r => same_id (r_id r) token_id && (r_timestamp r =? now))
       (token_performance db)
  then Raise IntegrityError
  else
    Ok {| tokens := tokens db;
          token_performance :=
            token_performance db ++
            [{| r_id := token_id;
                r_timestamp := now;
                r_price := real_cell (p_price performance_data);
                r_market_cap := real_cell (p_market_cap performance_data);
                r_volume_24h := real_cell (p_volume_24h performance_data);
                r_holders := p_holders performance_data |}];
          security_checks := security_checks db |})))).

Definition set_is_safe (v : Z) (r : TokenRow) : TokenRow :=
  {| t_id := t_id r; t_pair_name := t_pair_name r;
     t_deployer := t_deployer r; t_owner_renounced := t_owner_renounced r;
     t_launch_time := t_launch_time r; t_mint_enabled := t_mint_enabled r;
     t_liq_burned := t_liq_burned r; t_chain := t_chain r;
     t_initial_mc := t_initial_mc r; t_initial_liq := t_initial_liq r;
     t_website := t_website r; t_source := t_source r;
     t_detected_at := t_detected_at r; t_is_safe := v |}.

(** Lines 177-182. *)
Definition is_safe (security_data : SecurityData) : bool :=
  negb (has_honey_pot security_data || has_mint_function security_data
        || has_proxy security_data || has_suspicious_holders security_data).

(** [INSERT OR REPLACE INTO security_checks], then
    [UPDATE tokens SET is_safe = ? WHERE id = ?]. *)
Definition update_security_check (now : Z) (token_id : option string)
    (security_data : SecurityData) (db : Store) : Store :=
  {| tokens :=
       map (fun r =>
              if id_is token_id (t_id r)
              then set_is_safe (if is_safe security_data then 1 else 0) r
              else r)
           (tokens db);
     token_performance := token_performance db;
     security_checks :=
       List.filter (fun r => negb (same_id (s_id r) token_id))
              (security_checks db)
       ++ [{| s_id := token_id; s_flags := security_data;
              s_check_time := now |}] |}.

(** [ORDER BY timestamp ASC]. *)
Fixpoint insert_by_time (r : PerfRow) (l : list PerfRow) : list PerfRow :=
  match l with
  | [] => [r]
  | x :: l' =>
      if r_timestamp r <? r_timestamp x then r :: l
      else x :: insert_by_time r l'
  end.

Definition order_by_time (l : list PerfRow) : list PerfRow :=
  fold_left (fun acc r => insert_by_time r acc) l [].

(** [None] when no row is in the window. *)
Definition get_token_performance_history (now : Z)
    (token_id : option string) (hours : Z) (db : Store)
  : option (list PerfRow) :=
  let time_threshold := now - hours * hour_us in
  let results :=
    order_by_time
      (List.filter (fun r => same_id (r_id r) token_id
                        && (time_threshold <=? r_timestamp r))
              (token_performance db)) in
  match results with
  | [] => None
  | _ => Some results
  end.

(** Tokens detected in the past week. *)
Definition get_tokens_for_performance_check (now : Z) (db : Store)
  : list Tracked :=
  let time_threshold := now - 7 * 24 * hour_us in
  map (fun r => {| k_id := t_id r; k_pair_name := t_pair_name r;
                   k_detected_at := t_detected_at r |})
      (List.filter (fun r => time_threshold <=? t_detected_at r) (tokens db)).

End Database.

(** ** The world of the two loops *)

Inductive Endpoint :=
| NewListings
| PairDetails (token_id : option string).

(** How one [requests.get] ends: a decoded body, [requests.Timeout], or
    any other [requests.RequestException]. *)
Inductive Outcome (A : Type) :=
| Response (body : A)
| Timeout
| RequestError.
Arguments Response {A} body.
Arguments Timeout {A}.
Arguments RequestError {A}.

(** The collaborators of the core. The [n]-th HTTP request of the process
    and the [n]-th Telegram post end as the environment says. A listings
    body is its [data], a list of listings; [None] is a body that is
    falsy ([null], an empty [dict]) or a [dict] without [data]. Bodies of
    another shape (a number, a [data] that is [null] or no list of
    [dict]s), on which the cycle raises [TypeError] or [AttributeError]
    at lines 506-512, are not among the answers of an environment. *)
Record Env := {
  clock : nat -> Z;
  age_text : string -> option string;
  listings_net : nat -> Outcome (option (list Listing));
  details_net : nat -> option string -> Outcome json;
  telegram_net : nat -> bool
}.

Inductive Alert :=
| NewToken (token_data : TokenData)
| PerformanceUpdate (token : Tracked) (interval : Z)
    (history : list PerfRow).

Inductive Level := Warning | Error.

(** What a cycle does to the outside, in order. Every event of the
    handling of one candidate carries the candidate's [token_id]. Records
    of [logger.info] are left out. *)
Inductive Event :=
| Get (ep : Endpoint)
| Sleep (seconds : Z)
| AddToken (token_id : option string) (id : string)
| AppendPerformance (token_id : option string)
| UpsertSecurity (token_id : option string)
| Send (token_id : option string) (a : Alert)
| Log (l : Level) (message : string).

Record World := {
  db : Store;
  processed_tokens : gset (option string);
  ticks : nat;
  requests : nat;
  posts : nat
}.

Definition set_db (s : Store) (w : World) : World :=
  {| db := s; processed_tokens := processed_tokens w; ticks := ticks w;
     requests := requests w; posts := posts w |}.

(** A computation: its result or exception, the world it leaves, and the
    events it produced. *)
Record Out (A : Type) := {
  res : result A;
  world : World;
  events : list Event
}.
Arguments res {A} o.
Arguments world {A} o.
Arguments events {A} o.

Definition M (A : Type) : Type := World -> Out A.

Definition ret {A} (a : A) : M A :=
  fun w => {| res := Ok a; world := w; events := [] |}.

Definition raise {A} (e : exn) : M A :=
  fun w => {| res := Raise e; world := w; events := [] |}.

Definition bind {A B} (m : M A) (k : A -> M B) : M B :=
  fun w =>
    let o := m w in
    match res o with
    | Ok a =>
        let o' := k a (world o) in
        {| res := res o'; world := world o';
           events := (events o ++ events o')%list |}
    | Raise e => {| res := Raise e; world := world o; events := events o |}
    end.

Notation "x <- m ;; k" := (bind m (fun x => k))
  (at level 100, m at level 99, right associativity).
Notation "m ;;; k" := (bind m (fun _ => k))
  (at level 100, right associativity).

Definition lift {A} (r : result A) : M A :=
  fun w => {| res := r; world := w; events := [] |}.

Definition emit (e : Event) : M unit :=
  fun w => {| res := Ok tt; world := w; events := [e] |}.

Definition get_world : M World :=
  fun w => {| res := Ok w; world := w; events := [] |}.

(** [datetime.now()]. *)
Definition datetime_now (E : Env) : M Z :=
  fun w =>
    {| res := Ok (clock E (ticks w));
       world := {| db := db w; processed_tokens := processed_tokens w;
                   ticks := S (ticks w); requests := requests w;
                   posts := posts w |};
       events := [] |}.

(** [time.sleep(seconds)]. *)
Definition sleep (seconds : Z) : M unit := emit (Sleep seconds).

(** A [for] loop whose body may [continue] (return) or raise. *)
Fixpoint for_each {A} (l : list A) (body : A -> M unit) : M unit :=
  match l with
  | [] => ret tt
  | x :: r => body x ;;; for_each r body
  end.

(** ** DexscannerAPI *)

Module DexscannerAPI.

(** One [requests.get] with [raise_for_status] and [json()]. *)
Definition request {A} (ep : Endpoint) (net : nat -> Outcome A)
  : M (Outcome A) :=
  fun w =>
    {| res := Ok (net (requests w));
       world := {| db := db w; processed_tokens := processed_tokens w;
                   ticks := ticks w; requests := S (requests w);
                   posts := posts w |};
       events := [Get ep] |}.

(** The [while retries < max_retries] loop of both methods, which differ
    in the endpoint, the wait after a timeout and the log texts;
    [remaining] is [max_retries - retries]. *)
Fixpoint retry_loop {A} (ep : Endpoint) (net : nat -> Outcome A)
    (wait_time : Z -> Z) (timeout_text error_text failed_text : string)
    (max_retries remaining : nat) : M (option A) :=
  match remaining with
  | O => emit (Log Error failed_text) ;;; ret None
  | S remaining' =>
      o <- request ep net ;;
      match o with
      | Response body => ret (Some body)
      | Timeout =>
          let retries := Z.of_nat (max_retries - remaining') in
          emit (Log Warning timeout_text) ;;;
          sleep (wait_time retries) ;;;
          retry_loop ep net wait_time timeout_text error_text failed_text
            max_retries remaining'
      | RequestError => emit (Log Error error_text) ;;; ret None
      end
  end.

Definition get_new_listings (E : Env) (max_retries : nat)
  : M (option (option (list Listing))) :=
  retry_loop NewListings (listings_net E)
    (fun retries => 3 + retries * 3)
    "Timeout fetching new listings" "Error fetching new listings"
    "Failed to fetch new listings" max_retries max_retries.

Definition get_token_details (E : Env) (token_id : option string)
    (max_retries : nat) : M (option json) :=
  retry_loop (PairDetails token_id) (fun n => details_net E n token_id)
    (fun retries => 2 ^ retries)
    "Timeout fetching token details" "Error fetching token details"
    "Failed to fetch token details" max_retries max_retries.

End DexscannerAPI.

(** ** TelegramNotifier *)

Module TelegramNotifier.

(** The numbers [format_performance_update] renders in its message. *)
Record PerformanceText := {
  current_price_text : string;
  price_change_text : string
}.

(** A price read back from the store, in arithmetic, in a comparison with
    a number, or under a float format: [None] raises [TypeError]. *)
Definition number (price : option float) : result float :=
  match price with
  | Some x => Ok x
  | None => Raise TypeError
  end.

(** [format_performance_update(token_data, performance_data)], lines
    384-402. The prices are those of the first and of the last sample, 0
    for an empty history, where the int 0 compares and formats as the
    float 0 does; the message then reads the last sample, so an empty
    history raises [IndexError]. The other values of the message are
    printed as they are. *)
Definition format_performance_update (token_data : Tracked)
    (performance_data : list PerfRow) : result PerformanceText :=
  let first_price :=
    match performance_data with
    | [] => Some 0%float
    | r :: _ => r_price r
    end in
  let current_price :=
    match performance_data with
    | [] => Some 0%float
    | r :: _ => r_price (List.last performance_data r)
    end in
  rbind (number first_price) (fun first =>
  rbind (if (0 <? first)%float
         then rbind (number current_price) (fun current =>
              Ok ((current - first) / first * 100)%float)
         else Ok 0%float) (fun price_change =>
  rbind (number current_price) (fun current =>
  match performance_data with
  | [] => Raise IndexError
  | _ =>
      Ok {| current_price_text := PyNum.format_f current 8;
            price_change_text := PyNum.format_f price_change 2 |}
  end))).

(** [send_message] of the text of [a], which [format_token_message] or
    [format_performance_update] made of the values [a] carries: a failed
    post is logged and gives [False]. *)
Definition send_message (E : Env) (token_id : option string) (a : Alert)
  : M bool :=
  fun w =>
    let ok := telegram_net E (posts w) in
    {| res := Ok ok;
       world := {| db := db w; processed_tokens := processed_tokens w;
                   ticks := ticks w; requests := requests w;
                   posts := S (posts w) |};
       events :=
         Send token_id a ::
         (if ok then [] else [Log Error "Error sending Telegram message"]) |}.

End TelegramNotifier.

(** ** DexscannerMonitor: the two loops *)

Definition CHECK_INTERVAL : Z := 15.
Definition PERFORMANCE_INTERVALS : list Z := [1; 6; 24].

Module DexscannerMonitor.

Definition set_store (s : Store) : M unit :=
  fun w => {| res := Ok tt; world := set_db s w; events := [] |}.

(** [self.processed_tokens.add(token_id)]. *)
Definition add_processed (token_id : option string) : M unit :=
  fun w =>
    {| res := Ok tt;
       world := {| db := db w;
                   processed_tokens := processed_tokens w ∪ {[ token_id ]};
                   ticks := ticks w; requests := requests w;
                   posts := posts w |};
       events := [] |}.

Definition db_add_token (E : Env) (token_id : option string)
    (token_data : TokenData) : M unit :=
  now <- datetime_now E ;;
  w <- get_world ;;
  s <- lift (Database.add_token now token_data (db w)) ;;
  set_store s ;;;
  emit (AddToken token_id (id token_data)).

Definition db_update_token_performance (E : Env)
    (token_id : option string) (performance_data : PerformanceData)
  : M unit :=
  now <- datetime_now E ;;
  w <- get_world ;;
  s <- lift (Database.update_token_performance now token_id
               performance_data (db w)) ;;
  set_store s ;;;
  emit (AppendPerformance token_id).

Definition db_update_security_check (E : Env) (token_id : option string)
    (security_data : SecurityData) : M unit :=
  now <- datetime_now E ;;
  w <- get_world ;;
  set_store (Database.update_security_check now token_id security_data
               (db w)) ;;;
  emit (UpsertSecurity token_id).

(** The guard [not token_details or "data" not in token_details] and
    then [token_details.get("data")]: [Ok None] is the [continue]. *)
Definition details_data (token_details : option json)
  : result (option json) :=
  match token_details with
  | None => Ok None
  | Some token_details =>
      if negb (Py.truthy token_details) then Ok None
      else
        rbind (Py.contains "data" token_details) (fun has_data =>
        if negb has_data then Ok None
        else match token_details with
             | JObj m => Ok (Some (Py.get "data" JNull m))
             | _ => Raise AttributeError
             end)
  end.

(** Lines 512-542: the body of the discovery loop for one candidate. *)
Definition process_listing (E : Env) (token : Listing) : M unit :=
  let token_id := l_id token in
  w <- get_world ;;
  if bool_decide (token_id ∈ processed_tokens w)
     || Database.token_exists token_id (db w)
  then ret tt
  else
    token_details <- DexscannerAPI.get_token_details E token_id 3 ;;
    data <- lift (details_data token_details) ;;
    match data with
    | None => ret tt
    | Some data =>
        parsed_data <- lift (parse_token_details (age_text E) token data) ;;
        match parsed_data with
        | None => ret tt
        | Some (token_data, performance_data, security_data) =>
            add_processed token_id ;;;
            db_add_token E token_id token_data ;;;
            db_update_token_performance E token_id performance_data ;;;
            db_update_security_check E token_id security_data ;;;
            TelegramNotifier.send_message E token_id (NewToken token_data) ;;;
            ret tt
        end
    end.

Definition check_new_listings (E : Env) : M unit :=
  listings <- DexscannerAPI.get_new_listings E 5 ;;
  match listings with
  | Some (Some data) => for_each data (process_listing E)
  | _ => emit (Log Warning "No data received from API or invalid response")
  end.

(** [(now - detected_time).total_seconds() / 3600]. The seconds are the
    microseconds over 10^6, rounded once; a [timedelta] is far too short
    for that quotient to overflow. *)
Definition hours_since (now detected_at : Z) : result float :=
  match PyNum.int_truediv (now - detected_at) 1000000 with
  | Some total_seconds => Ok (total_seconds / 3600)%float
  | None => Raise OverflowError
  end.

Definition float_of_interval (interval : Z) : float :=
  match PyNum.float_of_Z interval with
  | Some x => x
  | None => infinity
  end.

(** [abs(hours_since_detection - interval) < 0.17]. *)
Definition in_window (hours_since_detection : float) (interval : Z) : bool :=
  (abs (hours_since_detection - float_of_interval interval) <? 0.17)%float.

(** Lines 574-582: the first interval in the window decides, then
    [break]. *)
Fixpoint check_intervals (E : Env) (token : Tracked)
    (hours_since_detection : float) (intervals : list Z) : M unit :=
  match intervals with
  | [] => ret tt
  | interval :: rest =>
      if in_window hours_since_detection interval then
        now <- datetime_now E ;;
        w <- get_world ;;
        match Database.get_token_performance_history now
                (Some (k_id token)) interval (db w) with
        | Some history =>
            if (2 <=? length history)%nat then
              lift (TelegramNotifier.format_performance_update token
                      history) ;;;
              TelegramNotifier.send_message E (Some (k_id token))
                (PerformanceUpdate token interval history) ;;;
              ret tt
            else ret tt
        | None => ret tt
        end
      else check_intervals E token hours_since_detection rest
  end.

(** Lines 554-571: refetch, rebuild and append the sample; [false] is a
    [continue]. *)
Definition sample_token (E : Env) (token : Tracked) : M bool :=
  let token_id := Some (k_id token) in
  token_details <- DexscannerAPI.get_token_details E token_id 3 ;;
  data <- lift (details_data token_details) ;;
  match data with
  | None => ret false
  | Some data =>
      parsed_data <-
        lift (parse_token_details (age_text E)
                {| l_id := token_id;
                   l_name := Some (JStr (k_pair_name token));
                   l_createdAt := None; l_marketCap := None;
                   l_liquidity := None; l_price := None;
                   l_priceChange24h := None; l_volume24h := None |}
                data) ;;
      match parsed_data with
      | None => ret false
      | Some (_, performance_data, _) =>
          db_update_token_performance E token_id performance_data ;;;
          ret true
      end
  end.

(** Lines 550-582: the body of the performance loop for one token. *)
Definition monitor_token (E : Env) (now : Z) (token : Tracked) : M unit :=
  hours_since_detection <- lift (hours_since now (k_detected_at token)) ;;
  sampled <- sample_token E token ;;
  if sampled
  then check_intervals E token hours_since_detection PERFORMANCE_INTERVALS
  else ret tt.

Definition monitor_performance (E : Env) : M unit :=
  read <- datetime_now E ;;
  w <- get_world ;;
  let tokens := Database.get_tokens_for_performance_check read (db w) in
  now <- datetime_now E ;;
  for_each tokens (monitor_token E now).

(** [try: m  except Exception: handler]. *)
Definition try_except {A} (m : M A) (handler : exn -> M A) : M A :=
  fun w =>
    let o := m w in
    match res o with
    | Ok _ => o
    | Raise e =>
        let o' := handler e (world o) in
        {| res := res o'; world := world o';
           events := (events o ++ events o')%list |}
    end.

(** One turn of the [while True] of [run]. *)
Definition run_turn (E : Env) : M unit :=
  try_except
    (check_new_listings E ;;; sleep CHECK_INTERVAL)
    (fun _ => emit (Log Error "Error in monitoring loop") ;;;
              sleep (CHECK_INTERVAL * 2)).

(** The first [turns] turns of the main loop. *)
Fixpoint run (E : Env) (turns : nat) : M unit :=
  match turns with
  | O => ret tt
  | S turns' => run_turn E ;;; run E turns'
  end.

Definition _performance_monitor_turn (E : Env) : M unit :=
  try_except
    (monitor_performance E ;;; sleep (60 * 15))
    (fun _ => emit (Log Error "Error in performance monitoring loop") ;;;
              sleep (60 * 30)).

Fixpoint _performance_monitor_loop (E : Env) (turns : nat) : M unit :=
  match turns with
  | O => ret tt
  | S turns' =>
      _performance_monitor_turn E ;;; _performance_monitor_loop E turns'
  end.

End DexscannerMonitor.


(** ** Entry point *)

Module EntryPoint.

(** [DexscannerMonitor()]: a monitor of its own, whose processed set is
    empty; the tables of the store are kept ([CREATE TABLE IF NOT
    EXISTS]) and the constructor reads the clock once
    ([last_check_time]). *)
Definition new_monitor (E : Env) : M unit :=
  fun w =>
    {| res := Ok tt;
       world := {| db := db w; processed_tokens := ∅;
                   ticks := S (ticks w); requests := requests w;
                   posts := posts w |};
       events := [] |}.

(** [not os.getenv(name)]: the variable is unset or empty. *)
Definition unset (v : option string) : bool :=
  match v with
  | None => true
  | Some s => String.eqb s ""
  end.

(** Lines 670-681, the main thread: [Some 1] is [exit(1)], and the loop
    is followed for [turns] turns. The hint printed before the exit is
    left out. *)
Definition main (E : Env) (TELEGRAM_BOT_TOKEN TELEGRAM_CHAT_ID : option string)
    (turns : nat) : M (option Z) :=
  new_monitor E ;;;
  DexscannerMonitor.check_new_listings E ;;;
  if unset TELEGRAM_BOT_TOKEN || unset TELEGRAM_CHAT_ID then
    emit (Log Error
            "TELEGRAM_BOT_TOKEN or TELEGRAM_CHAT_ID not set in environment variables") ;;;
    ret (Some 1)
  else
    new_monitor E ;;;
    DexscannerMonitor.run E turns ;;;
    ret None.

End EntryPoint.
(** * Vocabulary of the properties *)

(** ** Events and worlds *)

(** The requests, the waits and the alerts among the events of a
    computation. *)
Definition gets (evs : list Event) : list Endpoint :=
  flat_map (fun e => match e with Get ep => [ep] | _ => [] end) evs.

Definition sleeps (evs : list Event) : list Z :=
  flat_map (fun e => match e with Sleep s => [s] | _ => [] end) evs.

Definition sends (evs : list Event) : list Alert :=
  flat_map (fun e => match e with Send _ a => [a] | _ => [] end) evs.

(** The listing requests among the events: one opens every cycle. *)
Definition listing_requests (evs : list Event) : nat :=
  length (List.filter (fun ep => match ep with
                                 | NewListings => true
                                 | PairDetails _ => false
                                 end) (gets evs)).

(** The event is a detail request, a store write or an alert for the
    candidate [token_id]. *)
Definition about (token_id : option string) (e : Event) : bool :=
  match e with
  | Get (PairDetails t) | AddToken t _ | AppendPerformance t
  | UpsertSecurity t | Send t _ => bool_decide (t = token_id)
  | Get NewListings | Sleep _ | Log _ _ => false
  end.

(** Every event of the handling of the candidate [t] carries [t]. *)
Definition owned_by (t : option string) (e : Event) : Prop :=
  match e with
  | Get (PairDetails t') | AddToken t' _ | AppendPerformance t'
  | UpsertSecurity t' | Send t' _ => t' = t
  | Get NewListings => False
  | Sleep _ | Log _ _ => True
  end.

(** The event is no alert. *)
Definition silent (e : Event) : Prop :=
  match e with
  | Send _ _ => False
  | _ => True
  end.

(** The id is in the processed set or in the store. *)
Definition known (token_id : option string) (w : World) : Prop :=
  token_id ∈ processed_tokens w
  \/ Database.token_exists token_id (db w) = true.

(** All the events of a computation satisfy [P], from any world. *)
Definition emits {A} (P : Event -> Prop) (m : M A) : Prop :=
  forall w, Forall P (events (m w)).

(** A computation keeps a property of the world, also when it raises. *)
Definition keeps {A} (I : World -> Prop) (m : M A) : Prop :=
  forall w, I w -> I (world (m w)).

(** ** Fetches *)

(** How many of the next [remaining] requests, from the [start]-th on,
    time out before one does not. *)
Fixpoint timeouts {A} (net : nat -> Outcome A) (start remaining : nat)
  : nat :=
  match remaining with
  | O => O
  | S remaining' =>
      match net start with
      | Timeout => S (timeouts net (S start) remaining')
      | _ => O
      end
  end.

(** What the fetch gives once the timeouts are over. *)
Definition settled {A} (o : Outcome A) : option A :=
  match o with
  | Response body => Some body
  | _ => None
  end.

(** The wait after the [j]-th timeout of a loop entered with [remaining]
    turns left. *)
Definition wait_of (wait_time : Z -> Z) (max_retries remaining j : nat)
  : Z :=
  wait_time (Z.of_nat (max_retries - (remaining - S j))).

(** The policy of one fetch that admits [n] attempts and waits as
    [waits] says. *)
Definition retry_policy {A} (net : nat -> Outcome A) (start n : nat)
    (waits : list Z) (o : Out (option A)) : Prop :=
  (length (gets (events o)) <= n)%nat
  /\ (exists k, (k <= n)%nat /\ sleeps (events o) = firstn k waits)
  /\ StronglySorted Z.lt (sleeps (events o))
  /\ ((forall j, (j < n)%nat -> net (start + j)%nat = Timeout) ->
      res o = Ok None
      /\ length (gets (events o)) = n
      /\ sleeps (events o) = waits)
  /\ (forall k,
         (k < n)%nat ->
         (forall j, (j < k)%nat -> net (start + j)%nat = Timeout) ->
         net (start + k)%nat = RequestError ->
         res o = Ok None
         /\ length (gets (events o)) = S k
         /\ sleeps (events o) = firstn k waits).

(** ** Checkpoints *)

(** The first interval whose window holds the elapsed time. *)
Definition first_match (hours_since_detection : float)
    (intervals : list Z) : option Z :=
  find (DexscannerMonitor.in_window hours_since_detection) intervals.

Definition history_length (h : option (list PerfRow)) : nat :=
  match h with
  | Some l => length l
  | None => O
  end.

(** The rows of a history, none when there is no history. *)
Definition rows (h : option (list PerfRow)) : list PerfRow :=
  match h with
  | Some l => l
  | None => []
  end.

(** ** Texts and flags *)

(** A text that ends with a point and one digit. *)
Definition one_decimal (s : string) : Prop :=
  exists body c, s = body +:+ "." +:+ String c "" /\ PyNum.is_digit c = true.

(** The items of [repr] of a [dict], one text per key. *)
Definition repr_items (m : list (string * json)) : list string :=
  map (fun kv => PyStr.repr (fst kv) +:+ ": " +:+ Py.repr (snd kv)) m.

(** What [validate_token] returns on a payload that names a mint and whose
    holder test gives [susp]. *)
Definition minting (susp : bool) : SecurityData :=
  {| has_honey_pot := false; has_mint_function := true;
     has_proxy := false; has_suspicious_holders := susp |}.

(** ** Concrete payloads, environments and worlds *)

(** A listing with an id and a name and nothing else. *)
Definition bare_listing (token_id name : option string) : Listing :=
  {| l_id := token_id; l_name := option_map JStr name; l_createdAt := None;
     l_marketCap := None; l_liquidity := None; l_price := None;
     l_priceChange24h := None; l_volume24h := None |}.


Definition no_age : string -> option string := fun _ => None.

Definition fresh_world : World :=
  {| db := Database.empty; processed_tokens := ∅; ticks := 0;
     requests := 0; posts := 0 |}.

Definition moon : Listing := bare_listing (Some "moon") (Some "Moon pump.fun").
Definition star : Listing := bare_listing (Some "star") (Some "Star pump.swap").

(** Listings with an empty id and with no id, that the builder both
    records under the empty id. *)
Definition blank_id : Listing := bare_listing (Some "") (Some "Void pump.fun").
Definition no_id : Listing := bare_listing None (Some "Null pump.fun").

Definition comet : Listing :=
  bare_listing (Some "comet") (Some "Comet pump.fun").

Definition plain_details : json := JObj [("mintEnabled", JBool false)].

(** A details payload whose holder share is a number, not a text. *)
Definition numeric_top10 : json :=
  JObj [("mintEnabled", JBool false);
        ("holders", JObj [("top10", JInt 85)])].

(** Details whose holder count is a list, which no statement can bind. *)
Definition listed_holders : json := JObj [("holdersCount", JArr [JInt 1])].

(** Details by token: [moon] has a numeric holder share, [comet] a holder
    count that is a list, the others are plain. *)
Definition odd_details (t : option string) : json :=
  match t with
  | Some "moon" => numeric_top10
  | Some "comet" => listed_holders
  | _ => plain_details
  end.

(** Every listing request times out and every details request fails. *)
Definition silent_env : Env :=
  {| clock := fun n => Z.of_nat n; age_text := no_age;
     listings_net := fun _ => Timeout;
     details_net := fun _ _ => RequestError;
     telegram_net := fun _ => true |}.

(** An environment whose listings are [data] and whose details for a
    token are [details], with no timeout and no failure. *)
Definition market_env (data : list Listing)
    (details : option string -> json) : Env :=
  {| clock := fun n => Z.of_nat n; age_text := no_age;
     listings_net := fun _ => Response (Some data);
     details_net := fun _ t => Response (JObj [("data", details t)]);
     telegram_net := fun _ => true |}.

Definition ids_in_store (w : World) : list string := map t_id (tokens (db w)).

(** Worlds whose store tracks [moon], detected at instant 0, with given
    samples; [moon_world] has two, ten and twenty minutes later. *)
Definition moon_row : TokenRow :=
  {| t_id := "moon"; t_pair_name := "Moon pump.fun";
     t_deployer := JStr "Unknown"; t_owner_renounced := 0;
     t_launch_time := None; t_mint_enabled := 0; t_liq_burned := JInt 0;
     t_chain := "SOL"; t_initial_mc := PInt 0; t_initial_liq := PInt 0;
     t_website := JStr "https://pump.fun"; t_source := "pump.fun";
     t_detected_at := 0; t_is_safe := 0 |}.

Definition moon_sample (at_us : Z) : PerfRow :=
  {| r_id := Some "moon"; r_timestamp := at_us; r_price := Some 0%float;
     r_market_cap := Some 0%float; r_volume_24h := Some 0%float;
     r_holders := JInt 0 |}.

(** A sample of [moon] whose price the store kept as NULL. *)
Definition unpriced_sample (at_us : Z) : PerfRow :=
  {| r_id := Some "moon"; r_timestamp := at_us; r_price := None;
     r_market_cap := Some 0%float; r_volume_24h := Some 0%float;
     r_holders := JInt 0 |}.

Definition moon_world_of (samples : list PerfRow) : World :=
  {| db := {| tokens := [moon_row]; token_performance := samples;
              security_checks := [] |};
     processed_tokens := ∅; ticks := 0; requests := 0; posts := 0 |}.

Definition moon_world : World :=
  moon_world_of [moon_sample 600000000; moon_sample 1200000000].

Definition moon_tracked : Tracked :=
  {| k_id := "moon"; k_pair_name := "Moon pump.fun"; k_detected_at := 0 |}.

(** One hour after instant 0, the clock standing still; the details
    requests fail, or answer with plain details. *)
Definition hour_later_offline : Env :=
  {| clock := fun _ => hour_us; age_text := no_age;
     listings_net := fun _ => Timeout;
     details_net := fun _ _ => RequestError;
     telegram_net := fun _ => true |}.

Definition hour_later_online : Env :=
  {| clock := fun _ => hour_us; age_text := no_age;
     listings_net := fun _ => Timeout;
     details_net := fun _ _ => Response (JObj [("data", plain_details)]);
     telegram_net := fun _ => true |}.


(** ** Store vocabulary *)

Definition ids (s : Store) : list string := map t_id (tokens s).

(** The samples come oldest first. *)
Definition oldest_first (l : list PerfRow) : Prop :=
  StronglySorted (fun a b => r_timestamp a <= r_timestamp b) l.

(** The row is a sample of [token_id] no older than [since]. *)
Definition in_lookback (token_id : option string) (since : Z)
    (r : PerfRow) : bool :=
  Database.same_id (r_id r) token_id && (since <=? r_timestamp r).

(** The row a sample is stored as. *)
Definition sample_row (token_id : option string) (at_us : Z)
    (pd : PerformanceData) : PerfRow :=
  {| r_id := token_id; r_timestamp := at_us;
     r_price := Database.real_cell (p_price pd);
     r_market_cap := Database.real_cell (p_market_cap pd);
     r_volume_24h := Database.real_cell (p_volume_24h pd);
     r_holders := p_holders pd |}.

(** The security rows of [token_id], and the other ones. *)
Definition checks_of (token_id : option string) (s : Store) : list SecRow :=
  List.filter (fun r => Database.same_id (s_id r) token_id)
    (security_checks s).

Definition checks_but (token_id : option string) (s : Store) : list SecRow :=
  List.filter (fun r => negb (Database.same_id (s_id r) token_id))
    (security_checks s).

Definition week_us : Z := 7 * 24 * hour_us.

(** The record the builder makes of [star] with no details. *)
Definition star_data : TokenData :=
  build_token_data no_age star [] "pump.swap".

(** A sample whose price is an int that no float holds, whose market cap
    is NaN and whose volume is null. *)
Definition rough_sample : PerformanceData :=
  {| p_price := PInt 9007199254740993; p_market_cap := PFloat nan;
     p_volume_24h := PNull; p_holders := JInt 0 |}.

Definition no_sample : PerformanceData :=
  {| p_price := PInt 0; p_market_cap := PInt 0; p_volume_24h := PInt 0;
     p_holders := JInt 0 |}.

(** ** Event vocabulary *)

(** The inserts and the discovery alerts among the events, by the id of
    the record. *)
Definition inserts (evs : list Event) : list string :=
  flat_map (fun e => match e with AddToken _ i => [i] | _ => [] end) evs.

Definition discovery_alerts (evs : list Event) : list string :=
  flat_map (fun e => match e with
                     | Send _ (NewToken td) => [id td]
                     | _ => []
                     end) evs.

Definition appends_of (evs : list Event) : nat :=
  length (List.filter (fun e => match e with
                                | AppendPerformance _ => true
                                | _ => false
                                end) evs).

(** A request, a wait or a log record. *)
Definition quiet (e : Event) : Prop :=
  match e with
  | Get _ | Sleep _ | Log _ _ => True
  | _ => False
  end.

(** What the performance loop may do: requests, waits, log records,
    appended samples and performance alerts. *)
Definition sampling (e : Event) : Prop :=
  match e with
  | AddToken _ _ | UpsertSecurity _ | Send _ (NewToken _) => False
  | _ => True
  end.

(** ** Worlds *)

Definition is_ok {A} (r : result A) : bool :=
  match r with
  | Ok _ => true
  | Raise _ => false
  end.

(** The store and the processed set are what they were. *)
Definition same_state (w w' : World) : Prop :=
  db w' = db w /\ processed_tokens w' = processed_tokens w.

(** A computation relates the world it starts from, the world it leaves
    and its events by [R], which is told whether it returned. *)
Definition traces {A} (R : bool -> World -> World -> list Event -> Prop)
    (m : M A) : Prop :=
  forall w, R (is_ok (res (m w))) w (world (m w)) (events (m w)).

(** The outcome of a continuation, behind the events that came before
    it. *)
Definition behind {A} (evs : list Event) (o : Out A) : Out A :=
  {| res := res o; world := world o; events := (evs ++ events o)%list |}.

(** A sample with no price, market cap or volume. *)
Definition priceless (r : PerfRow) : Prop :=
  r_price r = Some 0%float /\ r_market_cap r = Some 0%float
  /\ r_volume_24h r = Some 0%float.

(** Details with a holder share and nothing else, and details that set
    the two flags the validator can set. *)
Definition top10_details (share : string) : json :=
  JObj [("holders", JObj [("top10", JStr share)])].

Definition flagged_details : json :=
  JObj [("mintEnabled", JBool true);
        ("holders", JObj [("top10", JStr "85%")])].

(** ** What the loops do to the store *)

(** Discovery only adds: the token rows that were there are kept as they
    are and the new rows, one per insert among the events and in their
    order, come behind them; samples come behind the samples; the
    processed set loses no id. *)
Definition grows (w w' : World) (evs : list Event) : Prop :=
  (exists l : list TokenRow,
      tokens (db w') = (tokens (db w) ++ l)%list
      /\ map t_id l = inserts evs)
  /\ (exists l : list PerfRow,
         token_performance (db w')
         = (token_performance (db w) ++ l)%list)
  /\ processed_tokens w ⊆ processed_tokens w'.

(** Ids that were unique are unique. *)
Definition stays_unique (w w' : World) : Prop :=
  NoDup (ids (db w)) -> NoDup (ids (db w')).

(** The alerts of a cycle against its inserts: the same ids in the same
    order when the cycle returned, and at most the last insert without
    its alert when it raised. *)
Definition alerted (returned : bool) (evs : list Event) : Prop :=
  if returned then discovery_alerts evs = inserts evs
  else exists l : list string,
         inserts evs = (discovery_alerts evs ++ l)%list
         /\ (length l <= 1)%nat.

(** The performance loop only samples: it leaves the token rows, the
    security rows and the processed set alone, appends one sample per
    append among its events, each with no price, market cap or volume,
    and makes no insert, no security write and no discovery alert. *)
Definition samples (w w' : World) (evs : list Event) : Prop :=
  tokens (db w') = tokens (db w)
  /\ security_checks (db w') = security_checks (db w)
  /\ processed_tokens w' = processed_tokens w
  /\ (exists l : list PerfRow,
         token_performance (db w')
         = (token_performance (db w) ++ l)%list
         /\ Forall priceless l
         /\ length l = appends_of evs)
  /\ Forall sampling evs.

(** ** Fetches that are answered *)

(** Of a fetch that admits [n] attempts: when the [k]-th request, with
    [k < n], is the first that does not time out and is answered with
    [body], the fetch returns [body] after [k + 1] requests and the first
    [k] waits, and leaves the store and the processed set alone. *)
Definition answers {A} (ep : Endpoint) (net : nat -> Outcome A) (n : nat)
    (waits : list Z) (w : World) (o : Out (option A)) : Prop :=
  forall (k : nat) (body : A),
    (k < n)%nat ->
    (forall j, (j < k)%nat -> net (requests w + j)%nat = Timeout) ->
    net (requests w + k)%nat = Response body ->
    res o = Ok (Some body)
    /\ gets (events o) = repeat ep (S k)
    /\ sleeps (events o) = firstn k waits
    /\ same_state w (world o).

(** The second listing request is answered with [data], the first one
    times out. *)
Definition slow_market (data : list Listing) : Env :=
  {| clock := fun n => Z.of_nat n; age_text := no_age;
     listings_net := fun n => match n with
                              | O => Timeout
                              | _ => Response (Some data)
                              end;
     details_net := fun _ _ => RequestError;
     telegram_net := fun _ => true |}.

(** The ids the performance loop handles at instant [now]. *)
Definition tracked_ids (now : Z) (s : Store) : list (option string) :=
  map (fun k => Some (k_id k))
    (Database.get_tokens_for_performance_check now s).

(** A week and a second after instant 0, the clock standing still, with
    plain details for every token. *)
Definition week_later_online : Env :=
  {| clock := fun _ => week_us + 1000000; age_text := no_age;
     listings_net := fun _ => Timeout;
     details_net := fun _ _ => Response (JObj [("data", plain_details)]);
     telegram_net := fun _ => true |}.
(** * Properties *)

(** ** Display helpers *)

Lemma format_number_unfold (v : json) (x : float) (decimals : nat) :
  Py.to_float v = Ok x ->
  _format_number v decimals =
  if (x <? 1000)%float then PyNum.format_f x decimals
  else if (x <? 1000000)%float then
    PyNum.format_f (x / 1000)%float decimals +:+ "K"
  else if (x <? 1000000000)%float then
    PyNum.format_f (x / 1000000)%float decimals +:+ "M"
  else PyNum.format_f (x / 1000000000)%float decimals +:+ "B".
Proof.
  intros H. unfold _format_number.
  destruct v; try discriminate H; rewrite H; reflexivity.
Qed.

Lemma dec_small (k : nat) :
  (k < 10)%nat ->
  exists c, PyNum.dec (Z.of_nat k) = String c "" /\ PyNum.is_digit c = true.
Proof.
  intros H.
  do 10 (destruct k as [| k]; [eexists; split; reflexivity |]). lia.
Qed.

Lemma dec_digit (n : Z) :
  0 <= n < 10 ->
  exists c, PyNum.dec n = String c "" /\ PyNum.is_digit c = true.
Proof.
  intros H. rewrite <- (Z2Nat.id n) by lia. apply dec_small. lia.
Qed.

Lemma append_cons (x : ascii) (a b : string) :
  String x a +:+ b = String x (a +:+ b).
Proof. reflexivity. Qed.

Lemma append_nil (b : string) : "" +:+ b = b.
Proof. reflexivity. Qed.

Lemma string_app_assoc (a b c : string) :
  (a +:+ b) +:+ c = a +:+ (b +:+ c).
Proof.
  induction a as [| x a IH]; [reflexivity |].
  now rewrite !append_cons, IH.
Qed.

Lemma fixed_one_decimal (n : Z) : one_decimal (PyNum.fixed n 1).
Proof.
  unfold PyNum.fixed. change (10 ^ Z.of_nat 1) with 10.
  destruct (dec_digit (n mod 10)) as (c & Hc & Hd).
  { apply Z.mod_pos_bound. lia. }
  exists (PyNum.dec (n / 10)), c. split; [| exact Hd].
  rewrite Hc. reflexivity.
Qed.

Lemma format_f_one_decimal (x : float) :
  is_nan x = false -> is_infinity x = false ->
  one_decimal (PyNum.format_f x 1).
Proof.
  intros Hn Hi. unfold PyNum.format_f, Prim2SF. rewrite Hn, Hi.
  assert (forall (s : bool) (n : Z),
             one_decimal (PyNum.sign_text s +:+ PyNum.fixed n 1)) as Hs.
  { intros s n. destruct (fixed_one_decimal n) as (b & c & -> & Hd).
    exists (PyNum.sign_text s +:+ b), c. split; [| exact Hd].
    now rewrite string_app_assoc. }
  destruct (is_zero x); [apply Hs |].
  destruct (Z.frexp x) as [r e].
  destruct (shr_fexp prec emax _ _ _) as [shr e'].
  destruct (shr_m shr); apply Hs.
Qed.

(** C9, as the code has it: the display formatter renders a numeric input
    that [float()] converts unscaled below 1000, divided by 1e3 with
    suffix K below 1e6, divided by 1e6 with suffix M below 1e9, and
    divided by 1e9 with suffix B otherwise, each time with one decimal
    place; so 950 gives 950.0, 1500 gives 1.5K, 2500000 gives 2.5M and
    3200000000 gives 3.2B. [float()] converts every float, and an int
    unless it is too large for a float: 2^1024 - 2^970 - 1 is converted,
    to the largest float. An input that [float()] refuses is rendered as
    0. *)
Theorem format_number_suffixes :
  (forall (v : json) (x : float),
      Py.to_float v = Ok x ->
      ((x <? 1000)%float = true ->
       _format_number v 1 = PyNum.format_f x 1)
      /\ ((x <? 1000)%float = false -> (x <? 1000000)%float = true ->
          _format_number v 1 = PyNum.format_f (x / 1000)%float 1 +:+ "K")
      /\ ((x <? 1000)%float = false -> (x <? 1000000)%float = false ->
          (x <? 1000000000)%float = true ->
          _format_number v 1
          = PyNum.format_f (x / 1000000)%float 1 +:+ "M")
      /\ ((x <? 1000)%float = false -> (x <? 1000000)%float = false ->
          (x <? 1000000000)%float = false ->
          _format_number v 1
          = PyNum.format_f (x / 1000000000)%float 1 +:+ "B"))
  /\ (forall x : float,
         is_nan x = false -> is_infinity x = false ->
         one_decimal (PyNum.format_f x 1))
  /\ (forall (v : json) (e : exn),
         Py.to_float v = Raise e -> _format_number v 1 = "0")
  /\ (forall x : float, Py.to_float (JFloat x) = Ok x)
  /\ Py.to_float (JInt (2 ^ 1024 - 2 ^ 970 - 1))
     = Ok 0x1.fffffffffffffp+1023%float
  /\ _format_number (JInt 950) 1 = "950.0"
  /\ _format_number (JInt 1500) 1 = "1.5K"
  /\ _format_number (JInt 2500000) 1 = "2.5M"
  /\ _format_number (JInt 3200000000) 1 = "3.2B".
Proof.
  split; [| split; [exact format_f_one_decimal | split]].
  - intros v x H. rewrite (format_number_unfold v x 1 H).
    repeat split; intros.
    + now rewrite H0.
    + now rewrite H0, H1.
    + now rewrite H0, H1, H2.
    + now rewrite H0, H1, H2.
  - intros v e H. unfold _format_number.
    destruct v; try reflexivity; now rewrite H.
  - split; [reflexivity |].
    repeat split; vm_compute; reflexivity.
Qed.

(** An [int] too large for a float is a number the formatter renders as
    0, with no suffix and no decimal: 10^400 is one, and so is
    2^1024 - 2^970, which is below 2^1024. *)
Lemma huge_int_formats_as_zero :
  PyNum.float_of_Z (10 ^ 400) = None
  /\ _format_number (JInt (10 ^ 400)) 1 = "0"
  /\ PyNum.float_of_Z (2 ^ 1024 - 2 ^ 970) = None
  /\ _format_number (JInt (2 ^ 1024 - 2 ^ 970)) 1 = "0".
Proof. repeat split; vm_compute; reflexivity. Qed.

Lemma format_number_suffixes_witness :
  (1234.5 <? 1000)%float = false /\ (1234.5 <? 1000000)%float = true
  /\ _format_number (JFloat 1234.5) 1 = "1.2K".
Proof.
  split; [reflexivity | split; [reflexivity |]].
  exact (eq_trans
           (proj1 (proj2 (proj1 format_number_suffixes
                            (JFloat 1234.5) 1234.5%float eq_refl))
              eq_refl eq_refl)
           eq_refl).
Defined.

(** With a zero divisor the guard returns before any division. *)
Lemma calculate_percentage_zero (part whole : json) :
  Py.eq_zero whole = true -> _calculate_percentage part whole = 0.
Proof.
  intros H. unfold _calculate_percentage, _calculate_percentage_try.
  now rewrite H.
Qed.

Lemma calculate_multiplier_zero (current reference : json) :
  Py.eq_zero reference = true -> _calculate_multiplier current reference = "1x".
Proof.
  intros H. unfold _calculate_multiplier, _calculate_multiplier_try.
  now rewrite H.
Qed.

(** Once the guard [whole == 0] has failed, the division raises no
    [ZeroDivisionError]. *)
Lemma truediv_guarded (a b : json) :
  Py.eq_zero b = false -> Py.truediv a b <> Raise ZeroDivisionError.
Proof.
  intros Hz. unfold Py.truediv.
  destruct a, b;
    cbn -[PyNum.int_truediv PyNum.float_of_Z Py.eq_zero];
    try discriminate; rewrite ?Hz;
    repeat match goal with
           | |- context [match ?t with _ => _ end] =>
               destruct t; cbn -[PyNum.int_truediv PyNum.float_of_Z
                                 Py.eq_zero]; rewrite ?Hz
           end;
    discriminate.
Qed.

(** The bodies of the two [try]s raise no [ZeroDivisionError]: the guard
    answers for a zero divisor, and behind it neither the division nor
    the rounding or the formatting raises one. *)
Lemma calculate_percentage_try_guarded (part whole : json) :
  _calculate_percentage_try part whole <> Raise ZeroDivisionError.
Proof.
  unfold _calculate_percentage_try.
  destruct (Py.eq_zero whole) eqn:Hz; [discriminate |].
  pose proof (truediv_guarded part whole Hz) as Hd.
  destruct (Py.truediv part whole) as [q | e]; cbn [rbind].
  - unfold Py.round. destruct (PyNum.py_round _) as [[|] | n]; discriminate.
  - intros H. apply Hd. injection H as ->. reflexivity.
Qed.

Lemma calculate_multiplier_try_guarded (current reference : json) :
  _calculate_multiplier_try current reference <> Raise ZeroDivisionError.
Proof.
  unfold _calculate_multiplier_try.
  destruct (Py.eq_zero reference) eqn:Hz; [discriminate |].
  pose proof (truediv_guarded current reference Hz) as Hd.
  destruct (Py.truediv current reference) as [q | e]; cbn [rbind].
  - discriminate.
  - intros H. apply Hd. injection H as ->. reflexivity.
Qed.

(** C8: the percentage and multiplier computations are total, and the
    division by zero is unreachable: for all operands the body of either
    [try] raises no [ZeroDivisionError], because a zero denominator never
    reaches the division; the percentage of any part in a whole of 0 is 0
    and the multiplier of any value over a reference of 0 is 1x; the
    percentage of 50 in 200 is 25 and the multiplier of 250 over 100 is
    2.5x. *)
Theorem percentage_multiplier_total :
  (forall part whole : json,
      _calculate_percentage_try part whole <> Raise ZeroDivisionError)
  /\ (forall current reference : json,
         _calculate_multiplier_try current reference
         <> Raise ZeroDivisionError)
  /\ (forall part whole : json,
         _calculate_percentage part whole
         = or_else (_calculate_percentage_try part whole) 0)
  /\ (forall current reference : json,
         _calculate_multiplier current reference
         = or_else (_calculate_multiplier_try current reference) "1x")
  /\ (forall part : json,
      _calculate_percentage part (JInt 0) = 0
      /\ _calculate_percentage part (JFloat 0) = 0)
  /\ (forall current : json,
         _calculate_multiplier current (JInt 0) = "1x"
         /\ _calculate_multiplier current (JFloat 0) = "1x")
  /\ (forall part whole : json,
         Py.eq_zero whole = true -> _calculate_percentage part whole = 0)
  /\ (forall current reference : json,
         Py.eq_zero reference = true ->
         _calculate_multiplier current reference = "1x")
  /\ (forall a b : json,
         Py.eq_zero b = false -> Py.truediv a b <> Raise ZeroDivisionError)
  /\ _calculate_percentage (JInt 50) (JInt 200) = 25
  /\ _calculate_multiplier (JInt 250) (JInt 100) = "2.5x".
Proof.
  split; [exact calculate_percentage_try_guarded |].
  split; [exact calculate_multiplier_try_guarded |].
  split; [reflexivity |]. split; [reflexivity |].
  split; [| split; [| split; [| split; [| split; [| split]]]]].
  - intros part. split; now apply calculate_percentage_zero.
  - intros current. split; now apply calculate_multiplier_zero.
  - exact calculate_percentage_zero.
  - exact calculate_multiplier_zero.
  - exact truediv_guarded.
  - vm_compute. reflexivity.
  - vm_compute. reflexivity.
Qed.

Lemma percentage_multiplier_total_witness :
  _calculate_percentage (JStr "n/a") (JBool false) = 0
  /\ _calculate_multiplier (JInt 7) (JFloat (-0)) = "1x".
Proof.
  split.
  - exact (proj1 (proj2 (proj2 (proj2 (proj2 (proj2 (proj2
                    percentage_multiplier_total))))))
             (JStr "n/a") (JBool false) eq_refl).
  - exact (proj1 (proj2 (proj2 (proj2 (proj2 (proj2 (proj2 (proj2
                    percentage_multiplier_total)))))))
             (JInt 7) (JFloat (-0)) eq_refl).
Defined.

(** ** Store *)

Lemma token_exists_update_security (now : Z) (t t' : option string)
    (check : SecurityData) (s : Store) :
  Database.token_exists t (Database.update_security_check now t' check s)
  = Database.token_exists t s.
Proof.
  unfold Database.token_exists, Database.update_security_check. simpl.
  induction (tokens s) as [| r l IH]; [reflexivity |].
  simpl. rewrite IH. f_equal.
  destruct (Database.id_is t' (t_id r)); reflexivity.
Qed.

(** C4: after [update_security_check token_id check] the row of the token
    has [is_safe] equal to the negation of the disjunction of the four
    flags of the check, a tracked token stays tracked and no other row
    changes; four false flags give safe, any single true flag gives
    unsafe. *)
Theorem is_safe_after_security_check :
  forall (now : Z) (token_id : string) (check : SecurityData) (db : Store),
    let db' := Database.update_security_check now (Some token_id) check db in
    Database.token_exists (Some token_id) db'
    = Database.token_exists (Some token_id) db
    /\ (forall row : TokenRow,
           In row (tokens db') -> t_id row = token_id ->
           t_is_safe row
           = if negb (has_honey_pot check || has_mint_function check
                      || has_proxy check || has_suspicious_holders check)
             then 1 else 0)
    /\ (forall row : TokenRow,
           In row (tokens db') -> t_id row <> token_id ->
           In row (tokens db))
    /\ Database.is_safe
         {| has_honey_pot := false; has_mint_function := false;
            has_proxy := false; has_suspicious_holders := false |} = true
    /\ (forall b c d : bool,
           Database.is_safe
             {| has_honey_pot := true; has_mint_function := b;
                has_proxy := c; has_suspicious_holders := d |} = false)
    /\ (forall a c d : bool,
           Database.is_safe
             {| has_honey_pot := a; has_mint_function := true;
                has_proxy := c; has_suspicious_holders := d |} = false)
    /\ (forall a b d : bool,
           Database.is_safe
             {| has_honey_pot := a; has_mint_function := b;
                has_proxy := true; has_suspicious_holders := d |} = false)
    /\ (forall a b c : bool,
           Database.is_safe
             {| has_honey_pot := a; has_mint_function := b;
                has_proxy := c; has_suspicious_holders := true |} = false).
Proof.
  intros now token_id check db db'.
  split; [| split; [| split; [| split; [| split; [| split; [| split]]]]]].
  - apply token_exists_update_security.
  - intros row Hin Hid. unfold db' in Hin. simpl in Hin.
    apply in_map_iff in Hin as (r & <- & _).
    simpl in Hid |- *.
    destruct (String.eqb (t_id r) token_id) eqn:E; simpl.
    + reflexivity.
    + apply String.eqb_neq in E. simpl in Hid.
      destruct (String.eqb (t_id r) token_id) eqn:E'; contradiction.
  - intros row Hin Hid. unfold db' in Hin. simpl in Hin.
    apply in_map_iff in Hin as (r & <- & Hr).
    destruct (String.eqb (t_id r) token_id) eqn:E.
    + apply String.eqb_eq in E. simpl in Hid. contradiction.
    + exact Hr.
  - reflexivity.
  - reflexivity.
  - intros [] c d; reflexivity.
  - intros [] [] d; reflexivity.
  - intros [] [] []; reflexivity.
Qed.

Lemma is_safe_after_security_check_witness :
  exists row : TokenRow,
    In row (tokens (Database.update_security_check 7 (Some "moon")
                      (minting false) (db moon_world)))
    /\ t_id row = "moon" /\ t_is_safe row = 0.
Proof.
  exists (Database.set_is_safe 0 moon_row).
  split; [left; reflexivity | split; [reflexivity |]].
  exact (proj1 (proj2 (is_safe_after_security_check 7 "moon"
                         (minting false) (db moon_world)))
           (Database.set_is_safe 0 moon_row) (or_introl eq_refl) eq_refl).
Defined.

(** ** Text *)

Lemma prefix_app (w a b : string) :
  String.prefix w a = true -> String.prefix w (a +:+ b) = true.
Proof.
  revert a. induction w as [| c w IH]; intros a H.
  { destruct (a +:+ b); reflexivity. }
  destruct a as [| x a]; [discriminate H |].
  rewrite append_cons. simpl in *.
  destruct (Ascii.ascii_dec c x); [now apply IH | discriminate H].
Qed.

Lemma contains_app_l (w a b : string) :
  PyStr.contains w a = true -> PyStr.contains w (a +:+ b) = true.
Proof.
  induction a as [| x a IH]; intros H.
  - simpl in H. destruct w; [| discriminate H].
    destruct b; reflexivity.
  - rewrite append_cons. simpl in *.
    apply orb_true_iff in H as [H | H]; apply orb_true_iff.
    + left. exact (prefix_app w (String x a) b H).
    + right. now apply IH.
Qed.

Lemma contains_app_r (w a b : string) :
  PyStr.contains w b = true -> PyStr.contains w (a +:+ b) = true.
Proof.
  intros H. induction a as [| x a IH]; [exact H |].
  rewrite append_cons. simpl. apply orb_true_iff. now right.
Qed.

Lemma lower_app (a b : string) :
  PyStr.lower (a +:+ b) = PyStr.lower a +:+ PyStr.lower b.
Proof.
  induction a as [| x a IH]; [reflexivity |].
  rewrite append_cons. simpl. now rewrite IH, append_cons.
Qed.

(** ** Source filter *)




(** ** Safety evaluator *)

Lemma repr_obj (m : list (string * json)) :
  Py.repr (JObj m) = "{" +:+ PyStr.join ", " (repr_items m) +:+ "}".
Proof.
  simpl. do 3 f_equal.
  induction m as [| [k x] m IH]; [reflexivity |].
  simpl. now rewrite IH.
Qed.

Lemma join_holds_key (m : list (string * json)) (k : string) (v : json) :
  Py.lookup k m = Some v ->
  exists pre post,
    PyStr.join ", " (repr_items m) = pre +:+ PyStr.repr k +:+ post.
Proof.
  induction m as [| [k' x] m IH]; intros H; [discriminate H |].
  simpl in H. destruct (String.eqb k k') eqn:E.
  - apply String.eqb_eq in E as <-.
    exists "". simpl. destruct (repr_items m) as [| y l].
    + exists (": " +:+ Py.repr x). reflexivity.
    + exists (": " +:+ Py.repr x +:+ ", " +:+ PyStr.join ", " (y :: l)).
      rewrite append_nil. now rewrite !string_app_assoc.
  - destruct (IH H) as (pre & post & Hj).
    destruct m as [| kv m']; [discriminate H |].
    exists (PyStr.repr k' +:+ ": " +:+ Py.repr x +:+ ", " +:+ pre), post.
    change (repr_items ((k', x) :: kv :: m'))
      with ((PyStr.repr k' +:+ ": " +:+ Py.repr x)
              :: repr_items (kv :: m')).
    change (repr_items (kv :: m'))
      with ((PyStr.repr (fst kv) +:+ ": " +:+ Py.repr (snd kv))
              :: repr_items m') in *.
    cbn [PyStr.join] in *. rewrite Hj.
    now rewrite !string_app_assoc.
Qed.

(** The text of a [dict] with the key [mintEnabled] holds both words. *)
Lemma mint_words_of_key (d : list (string * json)) (v : json) :
  Py.lookup "mintEnabled" d = Some v ->
  SecurityValidator.mint_words (JObj d) = true.
Proof.
  intros H. unfold SecurityValidator.mint_words.
  change (Py.str (JObj d)) with (Py.repr (JObj d)).
  rewrite repr_obj.
  destruct (join_holds_key d "mintEnabled" v H) as (pre & post & ->).
  rewrite !lower_app.
  apply andb_true_iff. split.
  - apply contains_app_r, contains_app_l, contains_app_r, contains_app_l.
    reflexivity.
  - apply contains_app_r, contains_app_l, contains_app_r, contains_app_l.
    reflexivity.
Qed.

Lemma no_holders_not_suspicious (d : list (string * json)) :
  Py.lookup "holders" d = None ->
  SecurityValidator.suspicious_holders (JObj d) = Ok false.
Proof.
  intros H. unfold SecurityValidator.suspicious_holders. simpl.
  now rewrite H.
Qed.

(** C10, as the code has it: for every details payload that has the key
    [mintEnabled], whatever its value, and whose holder test does not
    raise (every payload without a [holders] entry, in particular), the
    evaluator returns [has_mint_function = true], because the text of the
    key itself holds both words once lowered. *)
Theorem mint_flag_from_key_name :
  forall (d : list (string * json)) (v : json),
    Py.lookup "mintEnabled" d = Some v ->
    SecurityValidator.mint_words (JObj d) = true
    /\ (forall susp : bool,
           SecurityValidator.suspicious_holders (JObj d) = Ok susp ->
           SecurityValidator.validate_token (JObj d) = Ok (minting susp))
    /\ (Py.lookup "holders" d = None ->
        SecurityValidator.validate_token (JObj d) = Ok (minting false)).
Proof.
  intros d v H.
  pose proof (mint_words_of_key d v H) as Hm.
  split; [exact Hm | split].
  - intros susp Hs. unfold SecurityValidator.validate_token.
    now rewrite Hm, Hs.
  - intros Hh. unfold SecurityValidator.validate_token.
    now rewrite Hm, (no_holders_not_suspicious d Hh).
Qed.

Lemma mint_flag_from_key_name_witness :
  SecurityValidator.validate_token (JObj [("mintEnabled", JBool false)])
  = Ok (minting false).
Proof.
  exact (proj2 (proj2 (mint_flag_from_key_name
                         [("mintEnabled", JBool false)] (JBool false)
                         eq_refl))
           eq_refl).
Defined.

(** The evaluator raises, and returns no flag, on payloads with the key
    whose holder share is the number 85 (an [int] has no [replace]) or a
    text that is no number. *)
Lemma mint_flag_lost_to_exception :
  Py.lookup "mintEnabled"
    [("mintEnabled", JBool false); ("holders", JObj [("top10", JInt 85)])]
  = Some (JBool false)
  /\ SecurityValidator.validate_token numeric_top10 = Raise AttributeError
  /\ SecurityValidator.validate_token
       (JObj [("mintEnabled", JBool false);
              ("holders", JObj [("top10", JStr "N/A")])])
     = Raise ValueError.
Proof. repeat split; reflexivity. Qed.

(** ** Record builder *)

Lemma get_absent (k : string) (dflt : json) (d : list (string * json)) :
  Py.lookup k d = None -> Py.get k dflt d = dflt.
Proof. intros H. unfold Py.get. now rewrite H. Qed.

Lemma falsy_details_are_empty (age_text : string -> option string)
    (token : Listing) (details : json) :
  Py.truthy details = false ->
  parse_token_details age_text token details
  = parse_token_details age_text token (JObj []).
Proof. intros H. unfold parse_token_details. now rewrite H. Qed.

Lemma parse_with_holders (age_text : string -> option string)
    (token : Listing) (d : list (string * json)) (source : string)
    (susp : bool) :
  detect_source (l_name token) = Ok (Some source) ->
  SecurityValidator.suspicious_holders (JObj d) = Ok susp ->
  parse_token_details age_text token (JObj d)
  = let security_data :=
      {| has_honey_pot := false;
         has_mint_function := SecurityValidator.mint_words (JObj d);
         has_proxy := false; has_suspicious_holders := susp |} in
    Ok (Some (with_warnings (build_token_data age_text token d source)
                (warnings_of security_data),
              {| p_price := num_or (l_price token) 0;
                 p_market_cap := num_or (l_marketCap token) 0;
                 p_volume_24h := num_or (l_volume24h token) 0;
                 p_holders := Py.get "holdersCount" (JInt 0) d |},
              security_data)).
Proof.
  intros Hs Hh. unfold parse_token_details.
  assert ((if Py.truthy (JObj d) then JObj d else JObj []) = JObj d) as ->.
  { destruct d; reflexivity. }
  rewrite Hs. cbn [rbind]. unfold SecurityValidator.validate_token.
  now rewrite Hh.
Qed.

Lemma parse_with_no_dict (age_text : string -> option string)
    (token : Listing) (details : json) (source : string) :
  detect_source (l_name token) = Ok (Some source) ->
  Py.truthy details = true ->
  (forall m : list (string * json), details <> JObj m) ->
  parse_token_details age_text token details = Raise AttributeError.
Proof.
  intros Hs Ht Hno. unfold parse_token_details. rewrite Ht, Hs.
  cbn [rbind]. destruct details as [| | | | | | m]; try reflexivity.
  now destruct (Hno m).
Qed.

(** C6, as the code has it: for every listing that passes the source
    filter and every details payload that is a [dict] on which the holder
    test does not raise (every [dict] without a [holders] entry, the
    empty one included; an absent or falsy payload is read as the empty
    [dict]) the builder succeeds, and a field that is absent takes the
    default the code names: 0 for the numbers, [False] for
    [ownerRenounced], the empty text for [id], [Unknown] for [deployer],
    the platform link for [website], no launch time, and an absent
    [mintEnabled] reads as an enabled mint. On a truthy payload that is
    no [dict] the builder raises [AttributeError]. *)
Theorem builder_defaults :
  forall (age_text : string -> option string) (token : Listing)
         (d : list (string * json)) (source : string) (susp : bool),
    detect_source (l_name token) = Ok (Some source) ->
    SecurityValidator.suspicious_holders (JObj d) = Ok susp ->
    exists (td : TokenData) (pd : PerformanceData) (sd : SecurityData),
      parse_token_details age_text token (JObj d) = Ok (Some (td, pd, sd))
      /\ (Py.lookup "holders" d = None -> susp = false)
      /\ (forall details : json,
             Py.truthy details = false ->
             parse_token_details age_text token details
             = parse_token_details age_text token (JObj []))
      /\ (forall details : json,
             Py.truthy details = true ->
             (forall m : list (string * json), details <> JObj m) ->
             parse_token_details age_text token details
             = Raise AttributeError)
      /\ (l_id token = None -> id td = "")
      /\ (l_createdAt token = None ->
          launch_time td = None /\ age td = "Unknown")
      /\ (l_marketCap token = None ->
          initial_mc td = PInt 0 /\ market_cap td = "0.0"
          /\ p_market_cap pd = PInt 0)
      /\ (l_liquidity token = None ->
          initial_liq td = PInt 0 /\ liquidity td = "0.0")
      /\ (l_price token = None ->
          price td = "0.00000000" /\ p_price pd = PInt 0)
      /\ (l_priceChange24h token = None -> price_change_24h td = PInt 0)
      /\ (l_volume24h token = None ->
          volume_24h td = "0.0" /\ p_volume_24h pd = PInt 0)
      /\ (Py.lookup "deployer" d = None -> deployer td = JStr "Unknown")
      /\ (Py.lookup "ownerRenounced" d = None ->
          owner_renounced td = JBool false)
      /\ (Py.lookup "mintEnabled" d = None -> mint_enabled td = mint_yes)
      /\ (Py.lookup "liquidityBurned" d = None -> liq_burned td = JInt 0)
      /\ (Py.lookup "buys24h" d = None -> buys td = JInt 0)
      /\ (Py.lookup "sells24h" d = None -> sells td = JInt 0)
      /\ (Py.lookup "launchMarketCap" d = None ->
          launch_mc td = "0.0" /\ launch_mc_multiplier td = "1x")
      /\ (Py.lookup "athMarketCap" d = None -> ath td = "0.0")
      /\ (Py.lookup "transactionCount" d = None ->
          transaction_count td = JInt 0)
      /\ (Py.lookup "holdersCount" d = None ->
          holders_count td = JInt 0 /\ p_holders pd = JInt 0)
      /\ (Py.lookup "top10HoldersPercentage" d = None ->
          top10_percentage td = JInt 0)
      /\ (Py.lookup "airdropsCount" d = None -> airdrops td = JInt 0)
      /\ (Py.lookup "airdropsPercentage" d = None ->
          airdrops_percentage td = JInt 0)
      /\ (Py.lookup "block0SnipesPercentage" d = None ->
          block0_snipes_percentage td = JInt 0)
      /\ (Py.lookup "block0SnipesAmount" d = None ->
          block0_snipes_amount td = JInt 0)
      /\ (Py.lookup "freshWalletsCount" d = None -> fresh_wallets td = JInt 0)
      /\ (Py.lookup "freshWalletsPercentage" d = None ->
          fresh_wallets_percentage td = JInt 0)
      /\ (Py.lookup "teamWalletsPercentage" d = None ->
          team_wallets_percentage td = JInt 0)
      /\ (Py.lookup "teamWalletsAmount" d = None ->
          team_wallets_amount td = JInt 0)
      /\ (Py.lookup "deployerAmount" d = None -> deployer_amount td = JInt 0)
      /\ (Py.lookup "deployerPercentage" d = None ->
          deployer_percentage td = JInt 0)
      /\ (Py.lookup "website" d = None ->
          website td = JStr ("https://" +:+ source)).
Proof.
  intros age_text token d source susp Hs Hh.
  rewrite (parse_with_holders age_text token d source susp Hs Hh).
  cbv zeta. do 3 eexists. split; [reflexivity |].
  split.
  { intros Hn. rewrite (no_holders_not_suspicious d Hn) in Hh.
    now injection Hh. }
  split; [intros details; apply falsy_details_are_empty |].
  split; [intros details; now apply parse_with_no_dict with source |].
  cbn [id launch_time age initial_mc market_cap p_market_cap initial_liq
       liquidity price p_price price_change_24h volume_24h p_volume_24h
       deployer owner_renounced mint_enabled liq_burned buys sells launch_mc
       launch_mc_multiplier ath transaction_count holders_count p_holders
       top10_percentage airdrops airdrops_percentage
       block0_snipes_percentage block0_snipes_amount fresh_wallets
       fresh_wallets_percentage team_wallets_percentage team_wallets_amount
       deployer_amount deployer_percentage website with_warnings
       build_token_data].
  repeat match goal with
         | |- _ /\ _ => split
         | |- _ -> _ => let H := fresh "H" in intros H; try rewrite H;
                        try rewrite (get_absent _ _ _ H)
         end; try reflexivity.
Qed.

Lemma builder_defaults_witness :
  exists (td : TokenData) (pd : PerformanceData) (sd : SecurityData),
    parse_token_details no_age
      (bare_listing (Some "x") (Some "Moon pump.fun")) (JObj [])
    = Ok (Some (td, pd, sd))
    /\ mint_enabled td = mint_yes /\ initial_mc td = PInt 0.
Proof.
  destruct (builder_defaults no_age
              (bare_listing (Some "x") (Some "Moon pump.fun")) []
              "pump.fun" false eq_refl eq_refl)
    as (td & pd & sd & Hp & _ & _ & _ & _ & _ & Hmc & _ & _ & _ & _ & _ & _
        & Hm & _).
  exists td, pd, sd.
  exact (conj Hp (conj (Hm eq_refl) (proj1 (Hmc eq_refl)))).
Defined.

(** On the empty payload of a listing that passes the filter the builder
    succeeds, but the absent [mintEnabled] reads as an enabled mint, which
    the store keeps as 1, and the absent [deployer] and [website] take
    [Unknown] and the platform link: none of 0, the empty text or
    [False]. On a payload that is a list, on which the holder test
    returns, the builder raises. *)
Lemma absent_mint_reads_enabled :
  exists (td : TokenData) (pd : PerformanceData) (sd : SecurityData)
         (db' : Store),
    parse_token_details no_age
      (bare_listing (Some "x") (Some "Moon pump.fun")) (JObj [])
    = Ok (Some (td, pd, sd))
    /\ mint_enabled td = mint_yes
    /\ String.eqb (mint_enabled td) mint_no = false
    /\ deployer td = JStr "Unknown"
    /\ website td = JStr "https://pump.fun"
    /\ Database.add_token 0 td Database.empty = Ok db'
    /\ map t_mint_enabled (tokens db') = [1]
    /\ SecurityValidator.suspicious_holders (JArr [JStr "x"]) = Ok false
    /\ parse_token_details no_age
         (bare_listing (Some "x") (Some "Moon pump.fun")) (JArr [JStr "x"])
       = Raise AttributeError.
Proof. do 4 eexists. repeat split; vm_compute; reflexivity. Qed.

(** ** The monad *)

Lemma bind_eq {A B} (m : M A) (k : A -> M B) (w : World) :
  bind m k w
  = match res (m w) with
    | Ok a =>
        {| res := res (k a (world (m w)));
           world := world (k a (world (m w)));
           events := (events (m w) ++ events (k a (world (m w))))%list |}
    | Raise e =>
        {| res := Raise e; world := world (m w); events := events (m w) |}
    end.
Proof. reflexivity. Qed.

Lemma gets_app (a b : list Event) : gets (a ++ b) = (gets a ++ gets b)%list.
Proof. apply flat_map_app. Qed.

Lemma sleeps_app (a b : list Event) :
  sleeps (a ++ b) = (sleeps a ++ sleeps b)%list.
Proof. apply flat_map_app. Qed.

Lemma sends_app (a b : list Event) :
  sends (a ++ b) = (sends a ++ sends b)%list.
Proof. apply flat_map_app. Qed.

(** ** Retry loop *)

Section RetryLoop.

Context {A : Type}.
Variables (ep : Endpoint) (net : nat -> Outcome A) (wait_time : Z -> Z).
Variables (timeout_text error_text failed_text : string).
Variable max_retries : nat.

Let loop := DexscannerAPI.retry_loop ep net wait_time timeout_text
              error_text failed_text max_retries.

Lemma retry_loop_trace (remaining : nat) (w : World) :
  let o := loop remaining w in
  let k := timeouts net (requests w) remaining in
  gets (events o) = repeat ep (Nat.min (S k) remaining)
  /\ sleeps (events o) = map (wait_of wait_time max_retries remaining) (seq 0 k)
  /\ res o = Ok (if (k =? remaining)%nat then None
                 else settled (net (requests w + k)%nat))
  /\ db (world o) = db w
  /\ processed_tokens (world o) = processed_tokens w.
Proof.
  unfold loop. revert w. induction remaining as [| r IH]; intros w.
  - repeat split; reflexivity.
  - cbn zeta. cbn [DexscannerAPI.retry_loop timeouts].
    rewrite bind_eq. cbn [DexscannerAPI.request res world events].
    destruct (net (requests w)) as [body | |] eqn:En.
    + cbn. rewrite Nat.add_0_r, En. repeat split; reflexivity.
    + set (w1 := {| db := db w; processed_tokens := processed_tokens w;
                    ticks := ticks w; requests := S (requests w);
                    posts := posts w |}).
      specialize (IH w1). cbn zeta in IH.
      change (requests w1) with (S (requests w)) in IH.
      change (db w1) with (db w) in IH.
      change (processed_tokens w1) with (processed_tokens w) in IH.
      destruct IH as (Hg & Hs & Hr & Hd & Hp).
      set (k := timeouts net (S (requests w)) r) in *.
      rewrite !bind_eq. unfold sleep.
      cbn [emit res world events].
      rewrite !gets_app, !sleeps_app, Hg, Hs, Hr, Hd, Hp.
      split; [| split; [| split; [| split]]]; try reflexivity.
      * cbn [sleeps flat_map app seq map]. f_equal.
        -- unfold wait_of. do 2 f_equal. lia.
        -- rewrite <- seq_shift, map_map. reflexivity.
      * replace (requests w + S k)%nat with (S (requests w) + k)%nat
          by lia.
        reflexivity.
    + cbn. rewrite Nat.add_0_r, En. repeat split; reflexivity.
Qed.

End RetryLoop.

Lemma timeouts_le {A} (net : nat -> Outcome A) (start remaining : nat) :
  (timeouts net start remaining <= remaining)%nat.
Proof.
  revert start. induction remaining as [| r IH]; intros start; simpl.
  - lia.
  - destruct (net start); try lia. specialize (IH (S start)). lia.
Qed.

Lemma timeouts_all {A} (net : nat -> Outcome A) (start remaining : nat) :
  (forall j, (j < remaining)%nat -> net (start + j)%nat = Timeout) ->
  timeouts net start remaining = remaining.
Proof.
  revert start. induction remaining as [| r IH]; intros start H; simpl.
  - reflexivity.
  - rewrite <- (Nat.add_0_r start) at 1. rewrite (H 0%nat) by lia.
    f_equal. apply IH. intros j Hj.
    replace (S start + j)%nat with (start + S j)%nat by lia.
    apply H. lia.
Qed.

Lemma timeouts_until_error {A} (net : nat -> Outcome A)
    (start remaining k : nat) :
  (k < remaining)%nat ->
  (forall j, (j < k)%nat -> net (start + j)%nat = Timeout) ->
  net (start + k)%nat = RequestError ->
  timeouts net start remaining = k.
Proof.
  revert start k. induction remaining as [| r IH]; intros start k Hk H He.
  - lia.
  - simpl. destruct k as [| k].
    + rewrite Nat.add_0_r in He. now rewrite He.
    + rewrite <- (Nat.add_0_r start) at 1. rewrite (H 0%nat) by lia.
      f_equal. apply IH.
      * lia.
      * intros j Hj. replace (S start + j)%nat with (start + S j)%nat by lia.
        apply H. lia.
      * replace (S start + k)%nat with (start + S k)%nat by lia. exact He.
Qed.

Lemma in_firstn {T} (y : T) (k : nat) (l : list T) :
  In y (firstn k l) -> In y l.
Proof.
  revert k. induction l as [| x l IH]; intros k H.
  - destruct k; exact H.
  - destruct k; [contradiction |]. simpl in H.
    destruct H as [H | H]; [now left | right; eauto].
Qed.

Lemma prefix_sorted (l : list Z) (k : nat) :
  StronglySorted Z.lt l -> StronglySorted Z.lt (firstn k l).
Proof.
  revert k. induction l as [| x l IH]; intros k H.
  - destruct k; constructor.
  - destruct k; [constructor |]. simpl.
    apply StronglySorted_inv in H as [Hl Hx].
    constructor; [now apply IH |].
    rewrite List.Forall_forall in *. intros y Hy. apply Hx.
    eapply in_firstn. exact Hy.
Qed.

(** The waits of [get_new_listings] and of [get_token_details] after
    [k] timeouts. *)
Lemma listing_waits (k : nat) :
  (k <= 5)%nat ->
  map (wait_of (fun retries => 3 + retries * 3) 5 5) (seq 0 k)
  = firstn k [6; 9; 12; 15; 18].
Proof.
  intros H.
  do 6 (destruct k as [| k]; [reflexivity |]). lia.
Qed.

Lemma detail_waits (k : nat) :
  (k <= 3)%nat ->
  map (wait_of (fun retries => 2 ^ retries) 3 3) (seq 0 k)
  = firstn k [2; 4; 8].
Proof.
  intros H.
  do 4 (destruct k as [| k]; [reflexivity |]). lia.
Qed.


Lemma retry_loop_policy {A} (ep : Endpoint) (net : nat -> Outcome A)
    (wait_time : Z -> Z) (timeout_text error_text failed_text : string)
    (n : nat) (waits : list Z) (w : World) :
  StronglySorted Z.lt waits ->
  length waits = n ->
  (forall k, (k <= n)%nat ->
             map (wait_of wait_time n n) (seq 0 k) = firstn k waits) ->
  retry_policy net (requests w) n waits
    (DexscannerAPI.retry_loop ep net wait_time timeout_text error_text
       failed_text n n w).
Proof.
  intros Hsorted Hlen Hwaits.
  destruct (retry_loop_trace ep net wait_time timeout_text error_text
              failed_text n n w) as (Hg & Hs & Hr & _ & _).
  cbn zeta in Hg, Hs, Hr.
  pose proof (timeouts_le net (requests w) n) as Hk.
  set (k := timeouts net (requests w) n) in *.
  rewrite (Hwaits k Hk) in Hs.
  unfold retry_policy. rewrite Hg, Hs, repeat_length.
  split; [lia |].
  split; [exists k; auto |].
  split; [now apply prefix_sorted |].
  split.
  - intros Hall.
    assert (k = n) as -> by (apply timeouts_all; exact Hall).
    rewrite Hr, Nat.eqb_refl, <- Hlen, firstn_all.
    repeat split. lia.
  - intros j Hj Hbefore Herr.
    assert (k = j) as -> by (now apply timeouts_until_error).
    rewrite Hr, Herr.
    replace (j =? n)%nat with false by (symmetry; apply Nat.eqb_neq; lia).
    repeat split. lia.
Qed.

(** C7: a fetch of the listings makes at most 5 requests and a fetch of
    the details of a token at most 3; the waits between them form a
    strictly increasing run (6, 9, 12, 15, 18 seconds and 2, 4, 8
    seconds); when every attempt times out the fetch returns [None] after
    the last wait; a request failure that is not a timeout makes the fetch
    return [None] at once, with no further request and no further wait. *)
Theorem fetch_retry_policy :
  forall (E : Env) (w : World) (token_id : option string),
    retry_policy (listings_net E) (requests w) 5 [6; 9; 12; 15; 18]
      (DexscannerAPI.get_new_listings E 5 w)
    /\ retry_policy (fun n => details_net E n token_id) (requests w) 3
         [2; 4; 8]
         (DexscannerAPI.get_token_details E token_id 3 w).
Proof.
  intros E w token_id. split.
  - apply retry_loop_policy.
    + repeat constructor.
    + reflexivity.
    + exact listing_waits.
  - apply retry_loop_policy.
    + repeat constructor.
    + reflexivity.
    + exact detail_waits.
Qed.

Lemma fetch_retry_policy_witness :
  (res (DexscannerAPI.get_new_listings silent_env 5 fresh_world) = Ok None
   /\ sleeps (events (DexscannerAPI.get_new_listings silent_env 5
                        fresh_world))
      = [6; 9; 12; 15; 18])
  /\ (res (DexscannerAPI.get_token_details silent_env (Some "a") 3
             fresh_world) = Ok None
      /\ length (gets (events (DexscannerAPI.get_token_details silent_env
                                 (Some "a") 3 fresh_world))) = 1%nat).
Proof.
  destruct (fetch_retry_policy silent_env fresh_world (Some "a"))
    as [(_ & _ & _ & Hall & _) (_ & _ & _ & _ & Herr)].
  split.
  - destruct (Hall (fun j _ => eq_refl)) as (Hr & _ & Hs). now split.
  - destruct (Herr 0%nat ltac:(lia) (fun j Hj => ltac:(lia)) eq_refl)
      as (Hr & Hg & _).
    now split.
Defined.

(** ** Discovery loop *)

Lemma emits_ret {A} (P : Event -> Prop) (a : A) : emits P (ret a).
Proof. intros w. constructor. Qed.

Lemma emits_lift {A} (P : Event -> Prop) (r : result A) : emits P (lift r).
Proof. intros w. constructor. Qed.

Lemma emits_emit (P : Event -> Prop) (e : Event) : P e -> emits P (emit e).
Proof. intros H w. repeat constructor. exact H. Qed.

Lemma emits_get_world (P : Event -> Prop) : emits P get_world.
Proof. intros w. constructor. Qed.

Lemma emits_bind {A B} (P : Event -> Prop) (m : M A) (k : A -> M B) :
  emits P m -> (forall a, emits P (k a)) -> emits P (bind m k).
Proof.
  intros Hm Hk w. rewrite bind_eq.
  destruct (res (m w)); cbn [events].
  - apply Forall_app. split; [apply Hm | apply Hk].
  - apply Hm.
Qed.

Lemma emits_retry_loop {A} (P : Event -> Prop) (ep : Endpoint)
    (net : nat -> Outcome A) (wait_time : Z -> Z)
    (timeout_text error_text failed_text : string)
    (max_retries remaining : nat) :
  P (Get ep) -> (forall s, P (Sleep s)) -> (forall l m, P (Log l m)) ->
  emits P (DexscannerAPI.retry_loop ep net wait_time timeout_text
             error_text failed_text max_retries remaining).
Proof.
  intros Hg Hs Hl. induction remaining as [| r IH]; simpl.
  - apply emits_bind; [apply emits_emit, Hl | intros; apply emits_ret].
  - apply emits_bind.
    + intros w. repeat constructor. exact Hg.
    + intros [body | |].
      * apply emits_ret.
      * apply emits_bind; [apply emits_emit, Hl | intros _].
        apply emits_bind; [apply emits_emit, Hs | intros _; exact IH].
      * apply emits_bind; [apply emits_emit, Hl | intros; apply emits_ret].
Qed.

Lemma emits_send (P : Event -> Prop) (E : Env) (t : option string)
    (a : Alert) :
  P (Send t a) -> (forall l m, P (Log l m)) ->
  emits P (TelegramNotifier.send_message E t a).
Proof.
  intros Hs Hl w. simpl. constructor; [exact Hs |].
  destruct (telegram_net E (posts w)); repeat constructor. apply Hl.
Qed.

Ltac run_store_write :=
  unfold bind, datetime_now, get_world, lift, DexscannerMonitor.set_store,
    emit, set_db;
  cbn [res world events db processed_tokens].

Lemma emits_db_add_token (P : Event -> Prop) (E : Env)
    (t : option string) (td : TokenData) :
  P (AddToken t (id td)) -> emits P (DexscannerMonitor.db_add_token E t td).
Proof.
  intros H w. unfold DexscannerMonitor.db_add_token. run_store_write.
  destruct (Database.add_token (clock E (ticks w)) td (db w));
    cbn [res world events app]; repeat constructor. exact H.
Qed.

Lemma emits_db_update_token_performance (P : Event -> Prop) (E : Env)
    (t : option string) (pd : PerformanceData) :
  P (AppendPerformance t) ->
  emits P (DexscannerMonitor.db_update_token_performance E t pd).
Proof.
  intros H w. unfold DexscannerMonitor.db_update_token_performance.
  run_store_write.
  destruct (Database.update_token_performance (clock E (ticks w)) t pd
              (db w));
    cbn [res world events app]; repeat constructor. exact H.
Qed.

Lemma emits_db_update_security_check (P : Event -> Prop) (E : Env)
    (t : option string) (sd : SecurityData) :
  P (UpsertSecurity t) ->
  emits P (DexscannerMonitor.db_update_security_check E t sd).
Proof.
  intros H w. unfold DexscannerMonitor.db_update_security_check.
  run_store_write. repeat constructor. exact H.
Qed.

(** The events of the handling of one candidate carry its id. *)
Lemma process_listing_owned (E : Env) (token : Listing) :
  emits (owned_by (l_id token)) (DexscannerMonitor.process_listing E token).
Proof.
  unfold DexscannerMonitor.process_listing.
  apply emits_bind; [apply emits_get_world | intros w0].
  destruct (_ || _); [apply emits_ret |].
  apply emits_bind.
  { apply emits_retry_loop; simpl; auto. }
  intros token_details.
  apply emits_bind; [apply emits_lift | intros data].
  destruct data as [data |]; [| apply emits_ret].
  apply emits_bind; [apply emits_lift | intros parsed].
  destruct parsed as [[[td pd] sd] |]; [| apply emits_ret].
  apply emits_bind; [intros w; constructor | intros _].
  apply emits_bind; [now apply emits_db_add_token | intros _].
  apply emits_bind;
    [now apply emits_db_update_token_performance | intros _].
  apply emits_bind; [now apply emits_db_update_security_check | intros _].
  apply emits_bind; [| intros; apply emits_ret].
  apply emits_send; simpl; auto.
Qed.

Lemma token_exists_add_token (now : Z) (t : option string)
    (td : TokenData) (s s' : Store) :
  Database.add_token now td s = Ok s' ->
  Database.token_exists t s = true -> Database.token_exists t s' = true.
Proof.
  unfold Database.add_token. intros H Ht.
  repeat match type of H with
         | rbind ?r _ = _ => destruct r; simpl in H; [| discriminate H]
         end.
  destruct (Database.token_exists (Some (id td)) s); [discriminate H |].
  injection H as <-. unfold Database.token_exists in *. simpl.
  rewrite existsb_app, Ht. reflexivity.
Qed.

Lemma tokens_update_token_performance (now : Z) (t : option string)
    (pd : PerformanceData) (s s' : Store) :
  Database.update_token_performance now t pd s = Ok s' ->
  tokens s' = tokens s.
Proof.
  unfold Database.update_token_performance. intros H.
  repeat match type of H with
         | rbind ?r _ = _ => destruct r; simpl in H; [| discriminate H]
         end.
  destruct (existsb _ _); [discriminate H |].
  now injection H as <-.
Qed.

Lemma known_transfer (tid : option string) (w w' : World) :
  processed_tokens w ⊆ processed_tokens w' ->
  (Database.token_exists tid (db w) = true ->
   Database.token_exists tid (db w') = true) ->
  known tid w -> known tid w'.
Proof.
  intros Hp Hd [H | H]; [left | right]; auto.
Qed.

Lemma keeps_bind {A B} (I : World -> Prop) (m : M A) (k : A -> M B) :
  keeps I m -> (forall a, keeps I (k a)) -> keeps I (bind m k).
Proof.
  intros Hm Hk w Hw. rewrite bind_eq.
  destruct (res (m w)); cbn [world]; [apply Hk |]; now apply Hm.
Qed.

Lemma keeps_same {A} (tid : option string) (m : M A) :
  (forall w, db (world (m w)) = db w
             /\ processed_tokens (world (m w)) = processed_tokens w) ->
  keeps (known tid) m.
Proof.
  intros H w Hw. destruct (H w) as [Hd Hp].
  eapply known_transfer; [| | exact Hw].
  - now rewrite Hp.
  - now rewrite Hd.
Qed.

Lemma keeps_retry_loop {A} (tid : option string) (ep : Endpoint)
    (net : nat -> Outcome A) (wait_time : Z -> Z)
    (timeout_text error_text failed_text : string)
    (max_retries remaining : nat) :
  keeps (known tid)
    (DexscannerAPI.retry_loop ep net wait_time timeout_text error_text
       failed_text max_retries remaining).
Proof.
  apply keeps_same. intros w.
  destruct (retry_loop_trace ep net wait_time timeout_text error_text
              failed_text max_retries remaining w) as (_ & _ & _ & Hd & Hp).
  now split.
Qed.

Lemma keeps_db_add_token (tid : option string) (E : Env)
    (t : option string) (td : TokenData) :
  keeps (known tid) (DexscannerMonitor.db_add_token E t td).
Proof.
  intros w Hw. unfold DexscannerMonitor.db_add_token. run_store_write.
  destruct (Database.add_token (clock E (ticks w)) td (db w))
    as [s |] eqn:Ea; cbn [res world events];
    (eapply known_transfer; [| | exact Hw]); cbn; auto.
  now apply (token_exists_add_token _ _ _ _ _ Ea).
Qed.

Lemma keeps_db_update_token_performance (tid : option string) (E : Env)
    (t : option string) (pd : PerformanceData) :
  keeps (known tid) (DexscannerMonitor.db_update_token_performance E t pd).
Proof.
  intros w Hw. unfold DexscannerMonitor.db_update_token_performance.
  run_store_write.
  destruct (Database.update_token_performance (clock E (ticks w)) t pd
              (db w)) as [s |] eqn:Ea; cbn [res world events];
    (eapply known_transfer; [| | exact Hw]); cbn; auto.
  unfold Database.token_exists.
  now rewrite (tokens_update_token_performance _ _ _ _ _ Ea).
Qed.

Lemma keeps_db_update_security_check (tid : option string) (E : Env)
    (t : option string) (sd : SecurityData) :
  keeps (known tid) (DexscannerMonitor.db_update_security_check E t sd).
Proof.
  intros w Hw. unfold DexscannerMonitor.db_update_security_check.
  run_store_write.
  (eapply known_transfer; [| | exact Hw]); cbn [db processed_tokens world].
  - reflexivity.
  - now rewrite token_exists_update_security.
Qed.

Lemma keeps_add_processed (tid t : option string) :
  keeps (known tid) (DexscannerMonitor.add_processed t).
Proof.
  intros w Hw. eapply known_transfer; [| | exact Hw]; cbn; [| auto].
  set_solver.
Qed.

Lemma process_listing_keeps_known (tid : option string) (E : Env)
    (token : Listing) :
  keeps (known tid) (DexscannerMonitor.process_listing E token).
Proof.
  unfold DexscannerMonitor.process_listing.
  apply keeps_bind; [now apply keeps_same | intros w0].
  destruct (_ || _); [now apply keeps_same |].
  apply keeps_bind; [apply keeps_retry_loop | intros token_details].
  apply keeps_bind; [now apply keeps_same | intros data].
  destruct data as [data |]; [| now apply keeps_same].
  apply keeps_bind; [now apply keeps_same | intros parsed].
  destruct parsed as [[[td pd] sd] |]; [| now apply keeps_same].
  apply keeps_bind; [apply keeps_add_processed | intros _].
  apply keeps_bind; [apply keeps_db_add_token | intros _].
  apply keeps_bind; [apply keeps_db_update_token_performance | intros _].
  apply keeps_bind; [apply keeps_db_update_security_check | intros _].
  apply keeps_bind; [now apply keeps_same | intros; now apply keeps_same].
Qed.

(** A candidate whose id is known is skipped at the guard of line 515. *)
Lemma process_listing_skips_known (E : Env) (token : Listing) (w : World) :
  known (l_id token) w ->
  DexscannerMonitor.process_listing E token w
  = {| res := Ok tt; world := w; events := [] |}.
Proof.
  intros Hk. unfold DexscannerMonitor.process_listing.
  rewrite bind_eq. cbn [get_world res world events].
  assert (bool_decide (l_id token ∈ processed_tokens w)
          || Database.token_exists (l_id token) (db w) = true) as ->.
  { destruct Hk as [H | H].
    - now rewrite (bool_decide_eq_true_2 _ H).
    - rewrite H. apply orb_true_r. }
  reflexivity.
Qed.

Lemma owned_not_about (tid t : option string) (e : Event) :
  t <> tid -> owned_by t e -> about tid e = false.
Proof.
  intros Hne Ho.
  destruct e as [[| t'] | | t' ? | t' | t' | t' ? | ]; simpl in *;
    try reflexivity; try contradiction;
    subst t'; now apply bool_decide_eq_false_2.
Qed.

Lemma for_each_known (tid : option string) (E : Env) (data : list Listing)
    (w : World) :
  known tid w ->
  let o := for_each data (DexscannerMonitor.process_listing E) w in
  Forall (fun e => about tid e = false) (events o) /\ known tid (world o).
Proof.
  revert w. induction data as [| token data IH]; intros w Hk.
  - split; [constructor | exact Hk].
  - cbn zeta. cbn [for_each]. rewrite bind_eq.
    destruct (option_eq_dec (A := string) (l_id token) tid) as [He | Hne].
    + rewrite process_listing_skips_known by (now rewrite He).
      cbn [res world events app]. destruct (IH w Hk) as [Hev Hw].
      split; assumption.
    + pose proof (process_listing_owned E token w) as Hown.
      pose proof (process_listing_keeps_known tid E token w Hk) as Hkeep.
      assert (Forall (fun e => about tid e = false)
                (events (DexscannerMonitor.process_listing E token w)))
        as Hquiet.
      { eapply List.Forall_impl; [| exact Hown].
        intros e. now apply owned_not_about. }
      destruct (res (DexscannerMonitor.process_listing E token w));
        cbn [res world events].
      * destruct (IH _ Hkeep) as [Hev Hw].
        split; [apply Forall_app; now split | exact Hw].
      * now split.
Qed.

(** C2: in every discovery cycle, a candidate whose id is already in the
    processed set or in the store is skipped before anything is done for
    it: its handling changes nothing and emits nothing, and the whole
    cycle makes no details request, no store write and no alert for that
    id; the id stays known. *)
Theorem known_ids_are_skipped :
  forall (E : Env) (w : World) (token_id : option string),
    known token_id w ->
    (forall token : Listing,
        l_id token = token_id ->
        DexscannerMonitor.process_listing E token w
        = {| res := Ok tt; world := w; events := [] |})
    /\ Forall (fun e => about token_id e = false)
         (events (DexscannerMonitor.check_new_listings E w))
    /\ known token_id (world (DexscannerMonitor.check_new_listings E w)).
Proof.
  intros E w tid Hk. split.
  { intros token <-. now apply process_listing_skips_known. }
  unfold DexscannerMonitor.check_new_listings, DexscannerAPI.get_new_listings.
  rewrite bind_eq.
  set (fetch := DexscannerAPI.retry_loop _ _ _ _ _ _ _ _).
  assert (Forall (fun e => about tid e = false) (events (fetch w))) as Hf.
  { apply emits_retry_loop; reflexivity. }
  assert (known tid (world (fetch w))) as Hw.
  { now apply keeps_retry_loop. }
  destruct (res (fetch w)) as [[[data |] |] |]; cbn [res world events].
  - destruct (for_each_known tid E data _ Hw) as [Hev Hk'].
    split; [apply Forall_app; now split | exact Hk'].
  - split; [apply Forall_app; split; [exact Hf | repeat constructor] |].
    exact Hw.
  - split; [apply Forall_app; split; [exact Hf | repeat constructor] |].
    exact Hw.
  - now split.
Qed.

Lemma known_ids_are_skipped_witness :
  Forall (fun e => about (Some "moon") e = false)
    (events (DexscannerMonitor.check_new_listings
               (market_env [moon; star; moon] (fun _ => plain_details))
               {| db := Database.empty;
                  processed_tokens := {[ Some "moon" ]};
                  ticks := 0; requests := 0; posts := 0 |})).
Proof.
  refine (proj1 (proj2 (known_ids_are_skipped _ _ (Some "moon") _))).
  left. cbn. apply elem_of_singleton. reflexivity.
Defined.

(** ** Failure of one candidate *)

Lemma for_each_aborts {A} (body : A -> M unit) (x : A) (rest : list A)
    (w : World) (e : exn) :
  res (body x w) = Raise e ->
  for_each (x :: rest) body w
  = {| res := Raise e; world := world (body x w);
       events := events (body x w) |}.
Proof. intros H. cbn [for_each]. rewrite bind_eq. now rewrite H. Qed.

Lemma run_turn_catches (E : Env) (w : World) (e : exn) :
  res (DexscannerMonitor.check_new_listings E w) = Raise e ->
  DexscannerMonitor.run_turn E w
  = {| res := Ok tt;
       world := world (DexscannerMonitor.check_new_listings E w);
       events :=
         (events (DexscannerMonitor.check_new_listings E w)
          ++ [Log Error "Error in monitoring loop"; Sleep 30])%list |}.
Proof.
  intros H. unfold DexscannerMonitor.run_turn, DexscannerMonitor.try_except.
  rewrite bind_eq, H. reflexivity.
Qed.

Lemma run_turn_passes (E : Env) (w : World) :
  res (DexscannerMonitor.check_new_listings E w) = Ok tt ->
  DexscannerMonitor.run_turn E w
  = {| res := Ok tt;
       world := world (DexscannerMonitor.check_new_listings E w);
       events :=
         (events (DexscannerMonitor.check_new_listings E w)
          ++ [Sleep 15])%list |}.
Proof.
  intros H. unfold DexscannerMonitor.run_turn, DexscannerMonitor.try_except.
  rewrite bind_eq, H. reflexivity.
Qed.

Lemma listing_requests_app (a b : list Event) :
  listing_requests (a ++ b)
  = (listing_requests a + listing_requests b)%nat.
Proof.
  unfold listing_requests. now rewrite gets_app, List.filter_app, List.length_app.
Qed.

(** Every cycle opens with a listing request. *)
Lemma check_new_listings_requests (E : Env) (w : World) :
  (1 <= listing_requests
          (events (DexscannerMonitor.check_new_listings E w)))%nat.
Proof.
  unfold DexscannerMonitor.check_new_listings, DexscannerAPI.get_new_listings.
  rewrite bind_eq.
  destruct (retry_loop_trace NewListings (listings_net E)
              (fun retries => 3 + retries * 3)
              "Timeout fetching new listings" "Error fetching new listings"
              "Failed to fetch new listings" 5 5 w) as (Hg & _).
  cbn zeta in Hg.
  set (fetch := DexscannerAPI.retry_loop _ _ _ _ _ _ _ _ w) in *.
  assert (1 <= listing_requests (events fetch))%nat as H1.
  { unfold listing_requests. rewrite Hg. cbn. lia. }
  destruct (res fetch); cbn [events]; [| exact H1].
  rewrite listing_requests_app. lia.
Qed.

Lemma run_turn_total (E : Env) (w : World) :
  res (DexscannerMonitor.run_turn E w) = Ok tt
  /\ (1 <= listing_requests (events (DexscannerMonitor.run_turn E w)))%nat.
Proof.
  pose proof (check_new_listings_requests E w) as H1.
  destruct (res (DexscannerMonitor.check_new_listings E w)) as [[] | e] eqn:Er.
  - rewrite (run_turn_passes E w Er). cbn [res events].
    rewrite listing_requests_app. split; [reflexivity | lia].
  - rewrite (run_turn_catches E w e Er). cbn [res events].
    rewrite listing_requests_app. split; [reflexivity | lia].
Qed.

Lemma run_total (E : Env) (turns : nat) (w : World) :
  res (DexscannerMonitor.run E turns w) = Ok tt
  /\ (turns <= listing_requests
                 (events (DexscannerMonitor.run E turns w)))%nat.
Proof.
  revert w. induction turns as [| n IH]; intros w.
  - split; [reflexivity | cbn; lia].
  - cbn [DexscannerMonitor.run]. rewrite bind_eq.
    destruct (run_turn_total E w) as [Hr H1]. rewrite Hr.
    cbn [res events]. destruct (IH (world (DexscannerMonitor.run_turn E w)))
      as [Hr' Hn].
    rewrite listing_requests_app. split; [exact Hr' | lia].
Qed.

(** C3, as the code has it: an exception raised while one candidate is
    handled ends the cycle there, so the candidates after it are not
    handled in that cycle; it does not end the loop: the guard of [run]
    catches it, logs it, waits twice the check interval, and every turn of
    the loop, after a failure too, opens a new cycle with a listing
    request. *)
Theorem failure_ends_cycle_not_loop :
  forall (E : Env) (w : World),
    (forall (token : Listing) (rest : list Listing) (e : exn),
        res (DexscannerMonitor.process_listing E token w) = Raise e ->
        for_each (token :: rest) (DexscannerMonitor.process_listing E) w
        = {| res := Raise e;
             world := world (DexscannerMonitor.process_listing E token w);
             events :=
               events (DexscannerMonitor.process_listing E token w) |})
    /\ (forall e : exn,
           res (DexscannerMonitor.check_new_listings E w) = Raise e ->
           DexscannerMonitor.run_turn E w
           = {| res := Ok tt;
                world := world (DexscannerMonitor.check_new_listings E w);
                events :=
                  (events (DexscannerMonitor.check_new_listings E w)
                   ++ [Log Error "Error in monitoring loop";
                       Sleep (CHECK_INTERVAL * 2)])%list |})
    /\ (forall turns : nat,
           res (DexscannerMonitor.run E turns w) = Ok tt
           /\ (turns <= listing_requests
                          (events (DexscannerMonitor.run E turns w)))%nat).
Proof.
  intros E w. split; [| split].
  - intros token rest e. apply for_each_aborts.
  - intros e. apply run_turn_catches.
  - intros turns. apply run_total.
Qed.

Lemma failure_ends_cycle_not_loop_witness :
  res (DexscannerMonitor.run (market_env [moon; star] odd_details) 2
         fresh_world) = Ok tt
  /\ (2 <= listing_requests
             (events (DexscannerMonitor.run
                        (market_env [moon; star] odd_details) 2
                        fresh_world)))%nat.
Proof.
  exact (proj2 (proj2 (failure_ends_cycle_not_loop
                         (market_env [moon; star] odd_details)
                         fresh_world))
           2%nat).
Defined.

(** One failing candidate takes the rest of the cycle with it. [star]
    alone is fetched and stored; behind [moon], whose details make the
    holder test raise, it is neither fetched nor stored. The same holds
    behind a second insert of the empty id, which the existence check let
    through, and behind [comet], whose record is inserted and whose sample
    cannot be appended. *)
Lemma failure_skips_remaining_tokens :
  ids_in_store
    (world (DexscannerMonitor.check_new_listings
              (market_env [star] odd_details) fresh_world)) = ["star"]
  /\ (let o := DexscannerMonitor.check_new_listings
                 (market_env [moon; star] odd_details) fresh_world in
      res o = Raise AttributeError
      /\ gets (events o) = [NewListings; PairDetails (Some "moon")]
      /\ ids_in_store (world o) = [])
  /\ (let o := DexscannerMonitor.check_new_listings
                 (market_env [blank_id; no_id; star] odd_details)
                 fresh_world in
      res o = Raise IntegrityError
      /\ gets (events o)
         = [NewListings; PairDetails (Some ""); PairDetails None]
      /\ ids_in_store (world o) = [""])
  /\ (let o := DexscannerMonitor.check_new_listings
                 (market_env [comet; star] odd_details) fresh_world in
      res o = Raise InterfaceError
      /\ gets (events o) = [NewListings; PairDetails (Some "comet")]
      /\ ids_in_store (world o) = ["comet"]
      /\ token_performance (db (world o)) = []).
Proof. repeat split; vm_compute; reflexivity. Qed.

(** ** Performance loop *)

Lemma silent_sends (evs : list Event) : Forall silent evs -> sends evs = [].
Proof.
  induction 1 as [| e l He _ IH]; [reflexivity |].
  destruct e; try contradiction; exact IH.
Qed.

Lemma sample_token_silent (E : Env) (token : Tracked) :
  emits silent (DexscannerMonitor.sample_token E token).
Proof.
  unfold DexscannerMonitor.sample_token.
  apply emits_bind.
  { apply emits_retry_loop; simpl; auto. }
  intros token_details.
  apply emits_bind; [apply emits_lift | intros data].
  destruct data as [data |]; [| apply emits_ret].
  apply emits_bind; [apply emits_lift | intros parsed].
  destruct parsed as [[[td pd] sd] |]; [| apply emits_ret].
  apply emits_bind; [| intros; apply emits_ret].
  now apply emits_db_update_token_performance.
Qed.

(** When the message of an update can be built: the first and the last
    sample of the history must have a price. *)
Lemma format_performance_update_cases (token : Tracked) (r : PerfRow)
    (l : list PerfRow) :
  match r_price r, r_price (List.last (r :: l) r) with
  | Some _, Some _ =>
      exists text,
        TelegramNotifier.format_performance_update token (r :: l) = Ok text
  | _, _ =>
      TelegramNotifier.format_performance_update token (r :: l)
      = Raise TypeError
  end.
Proof.
  unfold TelegramNotifier.format_performance_update. cbv zeta.
  destruct (r_price r) as [first |]; [| reflexivity].
  destruct (r_price (List.last (r :: l) r)) as [current |];
    cbn [TelegramNotifier.number rbind].
  - destruct (0 <? first)%float; cbn [rbind]; eexists; reflexivity.
  - destruct (0 <? first)%float; reflexivity.
Qed.

(** The interval test: the first interval in the window decides, by the
    length of its history and by the message, which has to be built
    before it is posted. *)
Lemma check_intervals_out (E : Env) (token : Tracked) (h : float)
    (intervals : list Z) (w : World) :
  let o := DexscannerMonitor.check_intervals E token h intervals w in
  match first_match h intervals with
  | None => res o = Ok tt /\ sends (events o) = []
  | Some interval =>
      let history :=
        Database.get_token_performance_history (clock E (ticks w))
          (Some (k_id token)) interval (db w) in
      if (2 <=? history_length history)%nat
      then match TelegramNotifier.format_performance_update token
                   (rows history) with
           | Ok _ =>
               res o = Ok tt
               /\ sends (events o)
                  = [PerformanceUpdate token interval (rows history)]
           | Raise e => res o = Raise e /\ sends (events o) = []
           end
      else res o = Ok tt /\ sends (events o) = []
  end.
Proof.
  induction intervals as [| interval rest IH]; [split; reflexivity |].
  cbn [DexscannerMonitor.check_intervals first_match find].
  fold (first_match h rest).
  destruct (DexscannerMonitor.in_window h interval); [| exact IH].
  cbv zeta. rewrite bind_eq. cbn [datetime_now res world events].
  rewrite bind_eq. cbn [get_world res world events db ticks app].
  destruct (Database.get_token_performance_history _ _ _ _) as [l |];
    cbn [history_length rows]; [| split; reflexivity].
  destruct (2 <=? length l)%nat; [| split; reflexivity].
  rewrite bind_eq. cbn [lift res world events app].
  destruct (TelegramNotifier.format_performance_update token l);
    [| split; reflexivity].
  rewrite bind_eq.
  cbn [TelegramNotifier.send_message ret res world events app sends
       flat_map].
  split; [reflexivity |].
  destruct (telegram_net E _); reflexivity.
Qed.

(** C1, as the code has it: a tracked token gets at most one performance
    alert in a cycle; when its details were fetched, its record built and
    its sample appended in this cycle, and the elapsed time since
    detection lies in the window of some checkpoint of 1, 6, 24 hours,
    only the first such checkpoint is tested and the alert is emitted
    exactly when the history of that checkpoint's lookback window, read
    after the append, has at least two samples and the message of the
    update can be built; the message cannot be built, and [TypeError]
    ends the cycle, exactly when the first or the last sample of that
    history has no price (a price that was NaN or null is stored as
    NULL); when no checkpoint matches, or the token was skipped, no alert
    is emitted. *)
Theorem checkpoint_alert :
  forall (E : Env) (now : Z) (token : Tracked) (w : World) (h : float),
    DexscannerMonitor.hours_since now (k_detected_at token) = Ok h ->
    let o := DexscannerMonitor.monitor_token E now token w in
    let s := DexscannerMonitor.sample_token E token w in
    (length (sends (events o)) <= 1)%nat
    /\ (res s = Ok true ->
        (first_match h PERFORMANCE_INTERVALS = None ->
         sends (events o) = [])
        /\ (forall interval : Z,
               first_match h PERFORMANCE_INTERVALS = Some interval ->
               let history :=
                 Database.get_token_performance_history
                   (clock E (ticks (world s))) (Some (k_id token)) interval
                   (db (world s)) in
               ((2 <= history_length history)%nat ->
                (forall text : TelegramNotifier.PerformanceText,
                    TelegramNotifier.format_performance_update token
                      (rows history) = Ok text ->
                    res o = Ok tt
                    /\ sends (events o)
                       = [PerformanceUpdate token interval (rows history)])
                /\ (forall e : exn,
                       TelegramNotifier.format_performance_update token
                         (rows history) = Raise e ->
                       res o = Raise e /\ sends (events o) = []))
               /\ ((history_length history < 2)%nat ->
                   sends (events o) = [])))
    /\ (res s = Ok false -> sends (events o) = [])
    /\ (forall e : exn, res s = Raise e -> sends (events o) = [])
    /\ (forall (first : PerfRow) (later : list PerfRow),
           match r_price first,
                 r_price (List.last (first :: later) first) with
           | Some _, Some _ =>
               exists text : TelegramNotifier.PerformanceText,
                 TelegramNotifier.format_performance_update token
                   (first :: later) = Ok text
           | _, _ =>
               TelegramNotifier.format_performance_update token
                 (first :: later) = Raise TypeError
           end).
Proof.
  intros E now token w h Hh o s.
  assert (sends (events s) = []) as Hs.
  { apply silent_sends, sample_token_silent. }
  assert (o = match res s with
              | Ok true =>
                  let c := DexscannerMonitor.check_intervals E token h
                             PERFORMANCE_INTERVALS (world s) in
                  {| res := res c; world := world c;
                     events := (events s ++ events c)%list |}
              | Ok false =>
                  {| res := Ok tt; world := world s;
                     events := (events s ++ [])%list |}
              | Raise e =>
                  {| res := Raise e; world := world s; events := events s |}
              end) as Ho.
  { unfold o, DexscannerMonitor.monitor_token. rewrite Hh, bind_eq.
    cbn [lift res world events app]. rewrite bind_eq. fold s.
    destruct (res s) as [[|] |]; reflexivity. }
  pose proof (check_intervals_out E token h PERFORMANCE_INTERVALS (world s))
    as Hc.
  cbv zeta in Hc.
  set (c := DexscannerMonitor.check_intervals E token h
              PERFORMANCE_INTERVALS (world s)) in *.
  split; [| split; [| split; [| split]]].
  - rewrite Ho. destruct (res s) as [[|] |]; cbv zeta;
      cbn [events]; rewrite ?sends_app, ?Hs;
      change (sends []) with (@nil Alert); cbn [app length]; try lia.
    destruct (first_match h PERFORMANCE_INTERVALS);
      [| destruct Hc as [_ ->]; cbn; lia].
    destruct (2 <=? _)%nat; [| destruct Hc as [_ ->]; cbn; lia].
    destruct (TelegramNotifier.format_performance_update _ _);
      destruct Hc as [_ ->]; cbn; lia.
  - intros Hr. rewrite Ho, Hr. cbv zeta. cbn [res events].
    rewrite sends_app, Hs. cbn [app].
    split.
    + intros Hn. rewrite Hn in Hc. now destruct Hc.
    + intros interval Hi. rewrite Hi in Hc. cbv zeta. split.
      * intros Hl. rewrite (proj2 (Nat.leb_le _ _) Hl) in Hc. split.
        -- intros text Ht. now rewrite Ht in Hc.
        -- intros e He. now rewrite He in Hc.
      * intros Hl.
        replace (2 <=? _)%nat with false in Hc; [now destruct Hc |].
        symmetry. apply Nat.leb_gt. exact Hl.
  - intros Hr. rewrite Ho, Hr. cbn [events]. now rewrite app_nil_r.
  - intros e Hr. now rewrite Ho, Hr.
  - intros first later. apply format_performance_update_cases.
Qed.

Lemma checkpoint_alert_witness :
  DexscannerMonitor.hours_since hour_us 0 = Ok 1%float
  /\ first_match 1 PERFORMANCE_INTERVALS = Some 1
  /\ length (sends (events (DexscannerMonitor.monitor_token
                              hour_later_online hour_us moon_tracked
                              moon_world))) = 1%nat.
Proof.
  split; [reflexivity | split; [reflexivity |]].
  destruct (checkpoint_alert hour_later_online hour_us moon_tracked
              moon_world 1%float eq_refl) as (_ & H & _).
  destruct (H eq_refl) as (_ & Hm).
  destruct (Hm 1 eq_refl) as (Hsend & _).
  destruct (Hsend ltac:(vm_compute; lia)) as (Hok & _).
  destruct (Hok {| TelegramNotifier.current_price_text := "0.00000000";
                   TelegramNotifier.price_change_text := "0.00" |}
              ltac:(vm_compute; reflexivity)) as [_ ->].
  reflexivity.
Defined.

(** A tracked token one hour after its detection, with two samples in the
    last hour, gets no alert in a cycle whose details request fails: the
    token is skipped before the checkpoints are looked at. It gets none
    either when the first sample of the hour came from a listing whose
    price was NaN: the store kept NULL, the message of the update cannot
    be built, and [TypeError] ends the cycle. *)
Lemma no_alert_despite_two_samples :
  DexscannerMonitor.hours_since hour_us 0 = Ok 1%float
  /\ DexscannerMonitor.in_window 1 1 = true
  /\ history_length
       (Database.get_token_performance_history hour_us (Some "moon") 1
          (db moon_world)) = 2%nat
  /\ (let o := DexscannerMonitor.monitor_performance hour_later_offline
                 moon_world in
      res o = Ok tt
      /\ gets (events o) = [PairDetails (Some "moon")]
      /\ sends (events o) = [])
  /\ Database.real_cell (PFloat nan) = None
  /\ history_length
       (Database.get_token_performance_history hour_us (Some "moon") 1
          (db (moon_world_of [unpriced_sample 600000000;
                              moon_sample 1200000000]))) = 2%nat
  /\ (let o := DexscannerMonitor.monitor_performance hour_later_online
                 (moon_world_of [unpriced_sample 600000000;
                                 moon_sample 1200000000]) in
      res o = Raise TypeError
      /\ length (token_performance (db (world o))) = 3%nat
      /\ sends (events o) = []).
Proof. repeat split; vm_compute; reflexivity. Qed.

(** The sample appended in the cycle counts for the checkpoint: with one
    earlier sample in the last hour the alert is sent, with none it is
    not. *)
Lemma fresh_sample_counts :
  length (sends (events (DexscannerMonitor.monitor_performance
                           hour_later_online
                           (moon_world_of [moon_sample 600000000]))))
  = 1%nat
  /\ sends (events (DexscannerMonitor.monitor_performance
                      hour_later_online (moon_world_of []))) = [].
Proof. split; vm_compute; reflexivity. Qed.

(** The window of a checkpoint is 0.17 h wide on either side, a little
    over ten minutes: 50 and 70 minutes after detection are in the window
    of the first checkpoint, 49 and 71 minutes are not, and the windows of
    the later checkpoints are apart from it. *)
Lemma window_is_about_ten_minutes :
  first_match (3000 / 3600)%float PERFORMANCE_INTERVALS = Some 1
  /\ first_match (4200 / 3600)%float PERFORMANCE_INTERVALS = Some 1
  /\ first_match (2940 / 3600)%float PERFORMANCE_INTERVALS = None
  /\ first_match (4260 / 3600)%float PERFORMANCE_INTERVALS = None
  /\ first_match (21600 / 3600)%float PERFORMANCE_INTERVALS = Some 6
  /\ first_match (86400 / 3600)%float PERFORMANCE_INTERVALS = Some 24.
Proof. repeat split; vm_compute; reflexivity. Qed.

(** * Further properties of the code *)

(** ** Store: tokens *)

Lemma add_token_inv (now : Z) (td : TokenData) (s s' : Store) :
  Database.add_token now td s = Ok s' ->
  Database.token_exists (Some (id td)) s = false
  /\ exists row,
       tokens s' = (tokens s ++ [row])%list
       /\ t_id row = id td /\ t_pair_name row = pair_name td
       /\ t_detected_at row = now /\ t_is_safe row = 0
       /\ token_performance s' = token_performance s
       /\ security_checks s' = security_checks s.
Proof.
  unfold Database.add_token. intros H.
  repeat match type of H with
         | rbind ?r _ = _ => destruct r; simpl in H; [| discriminate H]
         end.
  destruct (Database.token_exists (Some (id td)) s) eqn:Ex;
    [discriminate H |].
  injection H as <-. split; [reflexivity |].
  eexists. split; [reflexivity |]. repeat split.
Qed.

Lemma token_exists_ids (i : string) (s : Store) :
  Database.token_exists (Some i) s = true <-> In i (ids s).
Proof.
  unfold Database.token_exists, ids. rewrite existsb_exists, in_map_iff.
  simpl. split.
  - intros (r & Hr & He). apply String.eqb_eq in He. eauto.
  - intros (r & He & Hr). exists r. split; [exact Hr |].
    now apply String.eqb_eq.
Qed.

Lemma add_token_unique (now : Z) (td : TokenData) (s s' : Store) :
  Database.add_token now td s = Ok s' -> NoDup (ids s) -> NoDup (ids s').
Proof.
  intros H Hnd.
  destruct (add_token_inv now td s s' H) as (Hnew & row & Ht & Hid & _).
  unfold ids in *. rewrite Ht, map_app. simpl.
  apply NoDup_app. split; [exact Hnd |]. split.
  - intros x Hx Hy. apply list_elem_of_singleton in Hy. subst x.
    apply list_elem_of_In in Hx. rewrite Hid in Hx.
    apply (proj2 (token_exists_ids (id td) s)) in Hx. congruence.
  - apply NoDup_singleton.
Qed.

(** X1: a successful [add_token] is the insert of a new id. The id was
    not in the store and is in it afterwards; the rows that were there are
    kept as they were, in their order, and the new row comes last, with
    the reading of the clock as [detected_at] and [is_safe = 0]; the other
    two tables are not touched, and ids that were unique stay unique. So
    [add_token] of an id that is in the store never succeeds. *)
Theorem add_token_inserts_new_id :
  forall (now : Z) (td : TokenData) (s s' : Store),
    Database.add_token now td s = Ok s' ->
    Database.token_exists (Some (id td)) s = false
    /\ Database.token_exists (Some (id td)) s' = true
    /\ (exists row : TokenRow,
           tokens s' = (tokens s ++ [row])%list
           /\ t_id row = id td /\ t_pair_name row = pair_name td
           /\ t_detected_at row = now /\ t_is_safe row = 0)
    /\ token_performance s' = token_performance s
    /\ security_checks s' = security_checks s
    /\ (NoDup (ids s) -> NoDup (ids s')).
Proof.
  intros now td s s' H.
  destruct (add_token_inv now td s s' H)
    as (Hnew & row & Ht & Hid & Hn & Hd & Hs & Hp & Hc).
  split; [exact Hnew |]. split; [| split; [| split; [| split]]].
  - apply token_exists_ids. unfold ids. rewrite Ht, map_app.
    apply in_or_app. right. left. exact Hid.
  - exists row. auto.
  - exact Hp.
  - exact Hc.
  - now apply add_token_unique with (now := now) (td := td).
Qed.

Lemma add_token_inserts_new_id_witness :
  exists s' : Store,
    Database.add_token 5 star_data (db moon_world) = Ok s'
    /\ ids s' = ["moon"; "star"].
Proof.
  eexists. split; [vm_compute; reflexivity |].
  match goal with
  | |- ids ?s' = _ =>
      destruct (add_token_inserts_new_id 5 star_data
                  (db moon_world) s'
                  ltac:(vm_compute; reflexivity))
        as (_ & _ & (row & Ht & Hid & _) & _)
  end.
  unfold ids. rewrite Ht, map_app. simpl. rewrite Hid. reflexivity.
Defined.

(** ** Store: samples *)

Lemma insert_by_time_perm (r : PerfRow) (l : list PerfRow) :
  Permutation (Database.insert_by_time r l) (r :: l).
Proof.
  induction l as [| x l IH]; simpl; [reflexivity |].
  destruct (r_timestamp r <? r_timestamp x); [reflexivity |].
  rewrite IH. apply perm_swap.
Qed.

Lemma insert_by_time_sorted (r : PerfRow) (l : list PerfRow) :
  oldest_first l -> oldest_first (Database.insert_by_time r l).
Proof.
  unfold oldest_first. induction 1 as [| x l Hs IH Hx]; simpl.
  - repeat constructor.
  - destruct (r_timestamp r <? r_timestamp x) eqn:Hlt.
    + apply Z.ltb_lt in Hlt. constructor; [now constructor |].
      constructor; [lia |].
      eapply List.Forall_impl; [| exact Hx]. simpl. intros; lia.
    + apply Z.ltb_ge in Hlt. constructor; [exact IH |].
      rewrite (insert_by_time_perm r l). constructor; assumption.
Qed.

Lemma order_from (l acc : list PerfRow) :
  oldest_first acc ->
  oldest_first (fold_left (fun a r => Database.insert_by_time r a) l acc)
  /\ Permutation (fold_left (fun a r => Database.insert_by_time r a) l acc)
       (acc ++ l).
Proof.
  revert acc. induction l as [| r l IH]; intros acc Hacc; simpl.
  - rewrite app_nil_r. split; [exact Hacc | reflexivity].
  - destruct (IH (Database.insert_by_time r acc)
                (insert_by_time_sorted r acc Hacc)) as [Hs Hp].
    split; [exact Hs |].
    rewrite Hp, (insert_by_time_perm r acc).
    change (r :: acc)%list with ([r] ++ acc)%list.
    rewrite (Permutation_app_comm [r] acc), <- app_assoc. reflexivity.
Qed.

Lemma order_by_time_spec (l : list PerfRow) :
  oldest_first (Database.order_by_time l)
  /\ Permutation (Database.order_by_time l) l.
Proof.
  apply (order_from l []). constructor.
Qed.

Lemma history_rows (now : Z) (token_id : option string) (hours : Z)
    (s : Store) :
  rows (Database.get_token_performance_history now token_id hours s)
  = Database.order_by_time
      (List.filter (in_lookback token_id (now - hours * hour_us))
         (token_performance s)).
Proof.
  unfold Database.get_token_performance_history. cbv zeta.
  fold (in_lookback token_id (now - hours * hour_us)).
  destruct (Database.order_by_time _); reflexivity.
Qed.

Lemma history_none (now : Z) (token_id : option string) (hours : Z)
    (s : Store) :
  Database.get_token_performance_history now token_id hours s = None
  <-> rows (Database.get_token_performance_history now token_id hours s)
      = [].
Proof.
  unfold Database.get_token_performance_history. cbv zeta.
  destruct (Database.order_by_time _); simpl; split; congruence.
Qed.

Lemma history_window (now : Z) (token_id : option string) (hours : Z)
    (s : Store) :
  let h := Database.get_token_performance_history now token_id hours s in
  let window :=
    List.filter (in_lookback token_id (now - hours * hour_us))
      (token_performance s) in
  oldest_first (rows h)
  /\ Permutation (rows h) window
  /\ (h = None -> window = []).
Proof.
  intros h window.
  pose proof (history_rows now token_id hours s) as Hr.
  fold h window in Hr.
  destruct (order_by_time_spec window) as [Hs Hp].
  rewrite Hr. split; [exact Hs | split; [exact Hp |]].
  intros Hn. unfold h in Hn. apply history_none in Hn. fold h in Hn.
  rewrite Hr in Hn. rewrite Hn in Hp. now apply Permutation_nil in Hp.
Qed.

(** X2: the history of a token is the set of its samples no older than
    [hours] hours, each one once, oldest first; it is [None], never an
    empty list, exactly when there is no such sample, and it is [None] for
    a NULL id. *)
Theorem history_is_the_sorted_window :
  forall (now : Z) (token_id : option string) (hours : Z) (s : Store),
    let h := Database.get_token_performance_history now token_id hours s in
    let window :=
      List.filter (in_lookback token_id (now - hours * hour_us))
        (token_performance s) in
    oldest_first (rows h)
    /\ Permutation (rows h) window
    /\ (h = None <-> window = [])
    /\ h <> Some []
    /\ (token_id = None -> h = None).
Proof.
  intros now token_id hours s h window.
  destruct (history_window now token_id hours s) as (Hs & Hp & Hn0).
  fold h window in Hs, Hp, Hn0.
  assert (h = None <-> window = []) as Hn.
  { split; [exact Hn0 |]. intros He. unfold h. apply history_none.
    fold h. rewrite He in Hp. now apply Permutation_nil, Permutation_sym. }
  split; [exact Hs | split; [exact Hp | split; [exact Hn |]]].
  split.
  - unfold h, Database.get_token_performance_history. cbv zeta.
    destruct (Database.order_by_time _); congruence.
  - intros ->. apply Hn. unfold window. clear.
    induction (token_performance s) as [| r l IH]; [reflexivity |].
    simpl. unfold in_lookback at 1, Database.same_id.
    destruct (r_id r); exact IH.
Qed.

Lemma update_token_performance_inv (now : Z) (token_id : option string)
    (pd : PerformanceData) (s s' : Store) :
  Database.update_token_performance now token_id pd s = Ok s' ->
  existsb (fun r => Database.same_id (r_id r) token_id
                    && (r_timestamp r =? now)) (token_performance s) = false
  /\ s' = {| tokens := tokens s;
             token_performance :=
               (token_performance s ++ [sample_row token_id now pd])%list;
             security_checks := security_checks s |}.
Proof.
  unfold Database.update_token_performance. intros H.
  repeat match type of H with
         | rbind ?r _ = _ => destruct r; simpl in H; [| discriminate H]
         end.
  destruct (existsb _ _); [discriminate H |].
  injection H as <-. split; reflexivity.
Qed.

Lemma same_id_refl (i : string) : Database.same_id (Some i) (Some i) = true.
Proof. apply String.eqb_refl. Qed.

(** X3: a sample stored for a token is read back, as its columns keep
    it. After a successful [update_token_performance] at instant [now],
    every history of the token whose window reaches back to [now] holds a
    row of the token at [now] whose price, market cap and volume are the
    numbers given as a REAL column keeps them (an int as the nearest
    float, a NaN or a null as NULL, a negative zero as zero), and is one
    row longer than the history read before the append; the histories of
    the other tokens are what they were. *)
Theorem appended_sample_is_read_back :
  forall (now : Z) (i : string) (pd : PerformanceData) (s s' : Store)
         (now' hours : Z),
    Database.update_token_performance now (Some i) pd s = Ok s' ->
    now' - hours * hour_us <= now ->
    (exists h : list PerfRow,
        Database.get_token_performance_history now' (Some i) hours s'
        = Some h
        /\ (exists r : PerfRow,
               In r h
               /\ r_id r = Some i /\ r_timestamp r = now
               /\ r_price r = Database.real_cell (p_price pd)
               /\ r_market_cap r = Database.real_cell (p_market_cap pd)
               /\ r_volume_24h r = Database.real_cell (p_volume_24h pd))
        /\ length h
           = S (history_length
                  (Database.get_token_performance_history now' (Some i)
                     hours s)))
    /\ (forall j : string,
           j <> i ->
           Database.get_token_performance_history now' (Some j) hours s'
           = Database.get_token_performance_history now' (Some j) hours s).
Proof.
  intros now i pd s s' now' hours H Hw.
  destruct (update_token_performance_inv now (Some i) pd s s' H)
    as [_ ->].
  split.
  - destruct (history_window now' (Some i) hours
                {| tokens := tokens s;
                   token_performance :=
                     (token_performance s
                      ++ [sample_row (Some i) now pd])%list;
                   security_checks := security_checks s |})
      as (_ & Hp & Hn).
    destruct (history_window now' (Some i) hours s)
      as (_ & Hp0 & _).
    cbv zeta in Hp, Hn, Hp0. cbn [token_performance] in Hp, Hn.
    rewrite List.filter_app in Hp, Hn.
    assert (List.filter (in_lookback (Some i) (now' - hours * hour_us))
              [sample_row (Some i) now pd]
            = [sample_row (Some i) now pd]) as Hrow.
    { simpl. unfold in_lookback. cbn [sample_row r_id r_timestamp].
      rewrite same_id_refl. simpl.
      now rewrite (proj2 (Z.leb_le _ _) Hw). }
    rewrite Hrow in Hp, Hn.
    destruct (Database.get_token_performance_history now' (Some i) hours
                {| tokens := tokens s;
                   token_performance :=
                     (token_performance s
                      ++ [sample_row (Some i) now pd])%list;
                   security_checks := security_checks s |}) as [h |].
    + exists h. split; [reflexivity |]. cbn [rows] in Hp. split.
      * exists (sample_row (Some i) now pd).
        split; [| repeat split].
        apply (Permutation_in _ (Permutation_sym Hp)).
        apply in_or_app. right. left. reflexivity.
      * rewrite (Permutation_length Hp), List.length_app. simpl.
        rewrite <- (Permutation_length Hp0).
        destruct (Database.get_token_performance_history now' (Some i)
                    hours s); simpl; lia.
    + pose proof (Hn eq_refl) as Hx.
      destruct (List.filter _ (token_performance s)); discriminate Hx.
  - intros j Hj. unfold Database.get_token_performance_history.
    cbv zeta. cbn [token_performance]. rewrite List.filter_app.
    simpl. replace (String.eqb i j) with false; [now rewrite app_nil_r |].
    symmetry. apply String.eqb_neq. congruence.
Qed.

Lemma appended_sample_is_read_back_witness :
  exists (h : list PerfRow) (r : PerfRow),
    Database.get_token_performance_history hour_us (Some "moon") 1
      {| tokens := [moon_row];
         token_performance :=
           [moon_sample 600000000; moon_sample 1200000000;
            sample_row (Some "moon") 1800000000 rough_sample];
         security_checks := [] |}
    = Some h
    /\ length h = 3%nat
    /\ In r h
    /\ r_timestamp r = 1800000000
    /\ r_price r = Some 9007199254740992%float
    /\ r_market_cap r = None
    /\ r_volume_24h r = None.
Proof.
  destruct (appended_sample_is_read_back 1800000000 "moon" rough_sample
              (db moon_world) _ hour_us 1 eq_refl
              ltac:(vm_compute; discriminate))
    as ((h & Hh & (r & Hin & _ & Ht & Hp & Hm & Hv) & Hl) & _).
  exists h, r.
  split; [exact Hh |]. split; [exact Hl |]. split; [exact Hin |].
  split; [exact Ht |]. split; [exact Hp |]. split; [exact Hm | exact Hv].
Defined.

Lemma binds_again (now : Z) (token_id : option string)
    (pd : PerformanceData) (s s' : Store) :
  Database.update_token_performance now token_id pd s = Ok s' ->
  forall s2 : Store,
    Database.update_token_performance now token_id pd s2
    = if existsb (fun r => Database.same_id (r_id r) token_id
                           && (r_timestamp r =? now)) (token_performance s2)
      then Raise IntegrityError
      else Ok {| tokens := tokens s2;
                 token_performance :=
                   (token_performance s2
                    ++ [sample_row token_id now pd])%list;
                 security_checks := security_checks s2 |}.
Proof.
  unfold Database.update_token_performance. intros H s2.
  repeat match type of H with
         | rbind ?r _ = _ => destruct r; simpl in H; [| discriminate H]
         end.
  reflexivity.
Qed.

(** X4: a token has one sample per instant. Once a sample of a token is
    stored at an instant, no other sample of that token can be stored at
    the same instant: the same values raise [IntegrityError], and no
    values at all are accepted. A NULL id collides with nothing: the same
    sample is stored a second time. *)
Theorem one_sample_per_instant :
  forall (now : Z) (token_id : option string) (pd : PerformanceData)
         (s s' : Store),
    Database.update_token_performance now token_id pd s = Ok s' ->
    match token_id with
    | Some i =>
        Database.update_token_performance now (Some i) pd s'
        = Raise IntegrityError
        /\ (forall pd' : PerformanceData,
               exists e : exn,
                 Database.update_token_performance now (Some i) pd' s'
                 = Raise e)
    | None =>
        exists s2 : Store,
          Database.update_token_performance now None pd s' = Ok s2
          /\ token_performance s2
             = (token_performance s ++ [sample_row None now pd;
                                        sample_row None now pd])%list
    end.
Proof.
  intros now token_id pd s s' H.
  pose proof (binds_again now token_id pd s s' H s') as H2.
  destruct (update_token_performance_inv now token_id pd s s' H)
    as [Hfree ->].
  cbn [token_performance] in H2. rewrite existsb_app in H2.
  destruct token_id as [i |].
  - assert (existsb
              (fun r => Database.same_id (r_id r) (Some i)
                        && (r_timestamp r =? now))
              [sample_row (Some i) now pd] = true) as Hhit.
    { simpl. rewrite String.eqb_refl, Z.eqb_refl. reflexivity. }
    rewrite Hhit, orb_true_r in H2. split; [exact H2 |].
    intros pd'. unfold Database.update_token_performance.
    repeat match goal with
           | |- exists e, rbind ?r _ = _ =>
               destruct r as [[] | e0]; simpl; [| now exists e0]
           end.
    cbn [token_performance]. rewrite existsb_app, Hhit, orb_true_r.
    now exists IntegrityError.
  - rewrite Hfree in H2. simpl in H2. eexists. split; [exact H2 |].
    cbn [token_performance]. now rewrite <- app_assoc.
Qed.

Lemma one_sample_per_instant_witness :
  Database.update_token_performance 1800000000 (Some "moon") no_sample
    {| tokens := [moon_row];
       token_performance :=
         [moon_sample 600000000; moon_sample 1200000000;
          sample_row (Some "moon") 1800000000 no_sample];
       security_checks := [] |}
  = Raise IntegrityError.
Proof.
  exact (proj1 (one_sample_per_instant 1800000000 (Some "moon") no_sample
                  (db moon_world) _ eq_refl)).
Defined.

(** ** Store: security checks *)

Lemma filter_none {T} (f : T -> bool) (l : list T) :
  List.filter f (List.filter (fun x => negb (f x)) l) = [].
Proof.
  induction l as [| x l IH]; [reflexivity |]. simpl.
  destruct (f x) eqn:Hf; simpl; [exact IH |]. now rewrite Hf.
Qed.

Lemma filter_twice {T} (f : T -> bool) (l : list T) :
  List.filter f (List.filter f l) = List.filter f l.
Proof.
  induction l as [| x l IH]; [reflexivity |]. simpl.
  destruct (f x) eqn:Hf; simpl; [rewrite Hf |]; now rewrite IH.
Qed.

(** X5: the store keeps the latest security check of a token and no
    other. After [update_security_check] for an id, the security rows of
    that id are the one row of this check, with its flags and the reading
    of the clock, whatever was stored for the id before; the rows of the
    other ids are kept, in their order; the samples are not touched, and
    of a token row nothing but [is_safe] can differ. *)
Theorem security_check_is_replaced :
  forall (now : Z) (i : string) (check : SecurityData) (s : Store),
    let s' := Database.update_security_check now (Some i) check s in
    checks_of (Some i) s'
    = [{| s_id := Some i; s_flags := check; s_check_time := now |}]
    /\ checks_but (Some i) s' = checks_but (Some i) s
    /\ token_performance s' = token_performance s
    /\ map (Database.set_is_safe 0) (tokens s')
       = map (Database.set_is_safe 0) (tokens s).
Proof.
  intros now i check s s'. unfold s', checks_of, checks_but,
    Database.update_security_check.
  cbn [security_checks token_performance tokens].
  rewrite !List.filter_app. simpl. rewrite String.eqb_refl. simpl.
  split; [| split; [| split]].
  - now rewrite (filter_none (fun r => Database.same_id (s_id r) (Some i))).
  - rewrite app_nil_r. apply filter_twice.
  - reflexivity.
  - rewrite map_map. apply map_ext. intros r.
    destruct (String.eqb (t_id r) i); reflexivity.
Qed.

(** ** Store: the tokens of the performance loop *)

(** X6: a token is offered to the performance loop for seven days. After
    a successful [add_token] at instant [t], the tokens to check at
    instant [now] are the ones there were, in their order, followed by the
    new token, with its id, name and detection instant, when [now] is at
    most seven days after [t], and by nothing when it is later. *)
Theorem tracked_for_seven_days :
  forall (t : Z) (td : TokenData) (s s' : Store) (now : Z),
    Database.add_token t td s = Ok s' ->
    Database.get_tokens_for_performance_check now s'
    = (Database.get_tokens_for_performance_check now s
       ++ (if now - week_us <=? t
           then [{| k_id := id td; k_pair_name := pair_name td;
                    k_detected_at := t |}]
           else []))%list.
Proof.
  intros t td s s' now H.
  destruct (add_token_inv t td s s' H)
    as (_ & row & Ht & Hid & Hn & Hd & _).
  unfold Database.get_tokens_for_performance_check. cbv zeta.
  rewrite Ht, List.filter_app, map_app. f_equal.
  cbn [List.filter]. rewrite Hd. fold week_us.
  destruct (now - week_us <=? t); [| reflexivity].
  cbn [map]. now rewrite Hid, Hn, Hd.
Qed.

Lemma tracked_for_seven_days_witness :
  exists s' : Store,
    Database.add_token 5 star_data (db moon_world) = Ok s'
    /\ map k_id (Database.get_tokens_for_performance_check week_us s')
       = ["moon"; "star"]
    /\ map k_id (Database.get_tokens_for_performance_check (week_us + 5) s')
       = ["star"]
    /\ map k_id (Database.get_tokens_for_performance_check (week_us + 6) s')
       = [].
Proof.
  eexists. split; [vm_compute; reflexivity |].
  match goal with
  | |- map k_id (_ _ ?s') = _ /\ _ =>
      assert (Database.add_token 5 star_data (db moon_world) = Ok s')
        as Hadd by (vm_compute; reflexivity);
      pose proof (fun now =>
                    tracked_for_seven_days 5 star_data (db moon_world) s'
                      now Hadd) as H
  end.
  rewrite !H. vm_compute. repeat split.
Defined.

(** ** Builder and validator *)

Lemma parse_inv (age_text : string -> option string) (token : Listing)
    (details : json) (td : TokenData) (pd : PerformanceData)
    (sd : SecurityData) :
  parse_token_details age_text token details = Ok (Some (td, pd, sd)) ->
  exists (d : list (string * json)) (source : string) (susp : bool),
    detect_source (l_name token) = Ok (Some source)
    /\ td = with_warnings (build_token_data age_text token d source)
              (warnings_of sd)
    /\ pd = {| p_price := num_or (l_price token) 0;
               p_market_cap := num_or (l_marketCap token) 0;
               p_volume_24h := num_or (l_volume24h token) 0;
               p_holders := Py.get "holdersCount" (JInt 0) d |}
    /\ sd = {| has_honey_pot := false;
               has_mint_function := SecurityValidator.mint_words (JObj d);
               has_proxy := false; has_suspicious_holders := susp |}.
Proof.
  unfold parse_token_details. cbv zeta.
  destruct (detect_source (l_name token)) as [[source |] |];
    cbn [rbind]; try discriminate.
  destruct (if Py.truthy details then details else JObj [])
    as [| | | | | | d]; try discriminate.
  unfold SecurityValidator.validate_token.
  destruct (SecurityValidator.suspicious_holders (JObj d)) as [susp |];
    simpl; [| discriminate].
  intros H. injection H as <- <- <-.
  exists d, source, susp. repeat split; reflexivity.
Qed.

Lemma parsed_id (age_text : string -> option string) (token : Listing)
    (details : json) (td : TokenData) (pd : PerformanceData)
    (sd : SecurityData) :
  parse_token_details age_text token details = Ok (Some (td, pd, sd)) ->
  id td = str_or (l_id token) "".
Proof.
  intros H.
  destruct (parse_inv _ _ _ _ _ _ H) as (d & src & susp & _ & -> & _).
  reflexivity.
Qed.

Lemma warnings_iff_safe (age_text : string -> option string)
    (token : Listing) (details : json) (td : TokenData)
    (pd : PerformanceData) (sd : SecurityData) :
  parse_token_details age_text token details = Ok (Some (td, pd, sd)) ->
  security_warnings td = None <-> Database.is_safe sd = true.
Proof.
  intros H.
  destruct (parse_inv _ _ _ _ _ _ H) as (d & src & susp & _ & -> & _ & ->).
  cbn [with_warnings security_warnings].
  unfold warnings_of, Database.is_safe.
  cbn [has_honey_pot has_proxy has_mint_function has_suspicious_holders].
  destruct (SecurityValidator.mint_words (JObj d)), susp; simpl;
    split; congruence.
Qed.

(** X7: of the four warnings the builder can attach, two are never
    attached. Whenever [parse_token_details] returns a record, the
    honeypot and the proxy flag are false, the warnings are absent when
    neither the mint nor the holder flag is set and otherwise are the mint
    warning, the holder warning, or both in that order; so the record
    carries no warning exactly when the check makes the token safe. *)
Theorem warnings_follow_flags :
  forall (age_text : string -> option string) (token : Listing)
         (details : json) (td : TokenData) (pd : PerformanceData)
         (sd : SecurityData),
    parse_token_details age_text token details = Ok (Some (td, pd, sd)) ->
    has_honey_pot sd = false
    /\ has_proxy sd = false
    /\ security_warnings td
       = (if has_mint_function sd || has_suspicious_holders sd
          then Some ((if has_mint_function sd
                      then ["Token has mint function enabled"] else [])
                     ++ (if has_suspicious_holders sd
                         then ["Suspicious holder concentration detected"]
                         else []))%list
          else None)
    /\ (security_warnings td = None <-> Database.is_safe sd = true).
Proof.
  intros age_text token details td pd sd H.
  destruct (parse_inv age_text token details td pd sd H)
    as (d & source & susp & _ & -> & _ & ->).
  cbn [with_warnings security_warnings has_honey_pot has_proxy
       has_mint_function has_suspicious_holders].
  unfold warnings_of, Database.is_safe.
  cbn [has_honey_pot has_proxy has_mint_function has_suspicious_holders].
  destruct (SecurityValidator.mint_words (JObj d)), susp; simpl;
    repeat split; congruence.
Qed.

Lemma warnings_follow_flags_witness :
  exists (td : TokenData) (pd : PerformanceData) (sd : SecurityData),
    parse_token_details no_age moon flagged_details
    = Ok (Some (td, pd, sd))
    /\ security_warnings td
       = Some ["Token has mint function enabled";
               "Suspicious holder concentration detected"].
Proof.
  do 3 eexists. split; [vm_compute; reflexivity |].
  match goal with
  | |- security_warnings ?td = _ =>
      rewrite (proj1 (proj2 (proj2
                 (warnings_follow_flags no_age moon flagged_details
                    td _ _ ltac:(vm_compute; reflexivity)))))
  end.
  vm_compute. reflexivity.
Defined.

Lemma whole_percentages :
  forallb (fun k =>
             match Py.to_float
                     (JStr (PyStr.remove_char "%"
                              (PyNum.dec (Z.of_nat k) +:+ "%"))) with
             | Ok x => Bool.eqb (PrimFloat.ltb 80 x) (80 <? Z.of_nat k)
             | Raise _ => false
             end) (seq 0 101) = true.
Proof. vm_compute. reflexivity. Qed.

(** X8: the holder test is strict. When the details have a [holders]
    dict whose [top10] is the text of a whole percentage from 0 to 100
    followed by a percent sign, the holder concentration is suspicious
    exactly when the percentage is above 80: 80% is not. *)
Theorem holder_flag_is_strict :
  forall (d h : list (string * json)) (n : Z),
    Py.lookup "holders" d = Some (JObj h) ->
    Py.lookup "top10" h = Some (JStr (PyNum.dec n +:+ "%")) ->
    0 <= n <= 100 ->
    SecurityValidator.suspicious_holders (JObj d) = Ok (80 <? n).
Proof.
  intros d h n Hd Hh Hn.
  unfold SecurityValidator.suspicious_holders.
  cbn [Py.contains Py.getitem rbind]. rewrite Hd. cbn [negb rbind Py.contains].
  rewrite Hh. cbn [negb rbind Py.getitem]. rewrite Hh.
  cbn [rbind Py.replace_percent].
  pose proof whole_percentages as Hall.
  rewrite forallb_forall in Hall.
  specialize (Hall (Z.to_nat n)).
  rewrite Z2Nat.id in Hall by lia.
  assert (In (Z.to_nat n) (seq 0 101)) as Hin by (apply in_seq; lia).
  specialize (Hall Hin).
  destruct (Py.to_float _) as [x |]; [| discriminate Hall].
  cbn [rbind]. f_equal. now apply Bool.eqb_prop.
Qed.

Lemma holder_flag_is_strict_witness :
  SecurityValidator.suspicious_holders (top10_details "81%") = Ok true
  /\ SecurityValidator.suspicious_holders (top10_details "80%") = Ok false.
Proof.
  split.
  - exact (holder_flag_is_strict
             [("holders", JObj [("top10", JStr "81%")])]
             [("top10", JStr "81%")] 81 eq_refl eq_refl
             ltac:(lia)).
  - exact (holder_flag_is_strict
             [("holders", JObj [("top10", JStr "80%")])]
             [("top10", JStr "80%")] 80 eq_refl eq_refl
             ltac:(lia)).
Defined.

(** ** Traces of the loops *)

Lemma same_state_refl (w : World) : same_state w w.
Proof. split; reflexivity. Qed.

Lemma retry_loop_quiet {A} (ep : Endpoint) (net : nat -> Outcome A)
    (wait_time : Z -> Z) (timeout_text error_text failed_text : string)
    (max_retries remaining : nat) (w : World) :
  let o := DexscannerAPI.retry_loop ep net wait_time timeout_text
             error_text failed_text max_retries remaining w in
  same_state w (world o) /\ Forall quiet (events o)
  /\ is_ok (res o) = true.
Proof.
  cbv zeta.
  destruct (retry_loop_trace ep net wait_time timeout_text error_text
              failed_text max_retries remaining w)
    as (_ & _ & Hr & Hd & Hp).
  split; [split; assumption |]. split.
  - apply emits_retry_loop; simpl; auto.
  - cbv zeta in Hr. now rewrite Hr.
Qed.

Section Traces.

Variable R : bool -> World -> World -> list Event -> Prop.

Hypothesis R_quiet :
  forall b w w' evs, same_state w w' -> Forall quiet evs -> R b w w' evs.
Hypothesis R_app :
  forall b w w1 w2 e1 e2,
    R true w w1 e1 -> R b w1 w2 e2 -> R b w w2 (e1 ++ e2)%list.
Hypothesis R_catch :
  forall b w w1 w2 e1 e2,
    R false w w1 e1 -> R b w1 w2 e2 -> R b w w2 (e1 ++ e2)%list.

Lemma traces_bind {A B} (m : M A) (k : A -> M B) :
  traces R m -> (forall a, traces R (k a)) -> traces R (bind m k).
Proof.
  intros Hm Hk w. rewrite bind_eq. specialize (Hm w).
  destruct (res (m w)) as [a | e]; cbn [res world events is_ok] in *.
  - eapply R_app; [exact Hm | apply Hk].
  - exact Hm.
Qed.

Lemma traces_quiet {A} (m : M A) :
  (forall w, same_state w (world (m w)) /\ Forall quiet (events (m w))) ->
  traces R m.
Proof. intros H w. destruct (H w). now apply R_quiet. Qed.

Lemma traces_ret {A} (a : A) : traces R (ret a).
Proof.
  apply traces_quiet. intros w. split; [apply same_state_refl | constructor].
Qed.

Lemma traces_for_each {A} (l : list A) (body : A -> M unit) :
  (forall x, traces R (body x)) -> traces R (for_each l body).
Proof.
  intros Hb. induction l as [| x l IH]; [apply traces_ret |].
  cbn [for_each]. apply traces_bind; [apply Hb | intros _; exact IH].
Qed.

Lemma traces_sleep (s : Z) : traces R (sleep s).
Proof.
  apply traces_quiet. intros w. split; [apply same_state_refl |].
  repeat constructor.
Qed.

Lemma traces_log (l : Level) (text : string) : traces R (emit (Log l text)).
Proof.
  apply traces_quiet. intros w. split; [apply same_state_refl |].
  repeat constructor.
Qed.

Lemma traces_try_except (m handler : M unit) :
  traces R m -> traces R handler ->
  traces R (DexscannerMonitor.try_except m (fun _ => handler)).
Proof.
  intros Hm Hh w. unfold DexscannerMonitor.try_except. cbv zeta.
  specialize (Hm w).
  destruct (res (m w)) as [a | e] eqn:Er; cbn [res world events is_ok] in *.
  - now rewrite Er.
  - eapply R_catch; [exact Hm | apply Hh].
Qed.

(** The discovery loop, from its body. *)
Hypothesis R_listing :
  forall E token, traces R (DexscannerMonitor.process_listing E token).

Lemma traces_check_new_listings (E : Env) :
  traces R (DexscannerMonitor.check_new_listings E).
Proof.
  unfold DexscannerMonitor.check_new_listings. apply traces_bind.
  - apply traces_quiet. intros w.
    destruct (retry_loop_quiet NewListings (listings_net E)
                (fun retries => 3 + retries * 3)
                "Timeout fetching new listings"
                "Error fetching new listings"
                "Failed to fetch new listings" 5 5 w) as (H1 & H2 & _).
    split; assumption.
  - intros [[data |] |]; try apply traces_log.
    apply traces_for_each, R_listing.
Qed.

Lemma traces_run (E : Env) (turns : nat) :
  traces R (DexscannerMonitor.run E turns).
Proof.
  induction turns as [| n IH]; [apply traces_ret |].
  cbn [DexscannerMonitor.run]. apply traces_bind; [| intros _; exact IH].
  unfold DexscannerMonitor.run_turn. apply traces_try_except.
  - apply traces_bind; [apply traces_check_new_listings |].
    intros _. apply traces_sleep.
  - apply traces_bind; [apply traces_log | intros _; apply traces_sleep].
Qed.

End Traces.

Lemma bind_step {A B} (m : M A) (k : A -> M B) (w : World) :
  bind m k w
  = match res (m w) with
    | Ok a => behind (events (m w)) (k a (world (m w)))
    | Raise e =>
        {| res := Raise e; world := world (m w); events := events (m w) |}
    end.
Proof. reflexivity. Qed.

Lemma db_add_token_out (E : Env) (t : option string) (td : TokenData)
    (w : World) :
  let o := DexscannerMonitor.db_add_token E t td w in
  processed_tokens (world o) = processed_tokens w
  /\ ticks (world o) = S (ticks w)
  /\ posts (world o) = posts w
  /\ match Database.add_token (clock E (ticks w)) td (db w) with
     | Ok s =>
         res o = Ok tt /\ db (world o) = s
         /\ events o = [AddToken t (id td)]
     | Raise e => res o = Raise e /\ db (world o) = db w /\ events o = []
     end.
Proof.
  cbv zeta. unfold DexscannerMonitor.db_add_token. run_store_write.
  destruct (Database.add_token (clock E (ticks w)) td (db w));
    cbn [res world events app db processed_tokens ticks posts];
    repeat split.
Qed.

Lemma db_update_token_performance_out (E : Env) (t : option string)
    (pd : PerformanceData) (w : World) :
  let o := DexscannerMonitor.db_update_token_performance E t pd w in
  processed_tokens (world o) = processed_tokens w
  /\ ticks (world o) = S (ticks w)
  /\ posts (world o) = posts w
  /\ match Database.update_token_performance (clock E (ticks w)) t pd
             (db w) with
     | Ok s =>
         res o = Ok tt /\ db (world o) = s
         /\ events o = [AppendPerformance t]
     | Raise e => res o = Raise e /\ db (world o) = db w /\ events o = []
     end.
Proof.
  cbv zeta. unfold DexscannerMonitor.db_update_token_performance.
  run_store_write.
  destruct (Database.update_token_performance (clock E (ticks w)) t pd
              (db w));
    cbn [res world events app db processed_tokens ticks posts];
    repeat split.
Qed.

Lemma db_update_security_check_out (E : Env) (t : option string)
    (sd : SecurityData) (w : World) :
  let o := DexscannerMonitor.db_update_security_check E t sd w in
  processed_tokens (world o) = processed_tokens w
  /\ posts (world o) = posts w
  /\ res o = Ok tt
  /\ db (world o)
     = Database.update_security_check (clock E (ticks w)) t sd (db w)
  /\ events o = [UpsertSecurity t].
Proof.
  cbv zeta. unfold DexscannerMonitor.db_update_security_check.
  run_store_write. repeat split.
Qed.

Lemma send_message_out (E : Env) (t : option string) (a : Alert)
    (w : World) :
  let o := TelegramNotifier.send_message E t a w in
  same_state w (world o)
  /\ (exists b, res o = Ok b)
  /\ exists lg, Forall quiet lg /\ events o = Send t a :: lg.
Proof.
  cbv zeta. unfold TelegramNotifier.send_message. cbn [res world events].
  split; [split; reflexivity |]. split; [eauto |].
  destruct (telegram_net E (posts w)); eexists; split; try reflexivity;
    repeat constructor.
Qed.


(** What the handling of one candidate comes to: nothing but requests,
    waits and log records, or the candidate is marked processed and then
    the insert fails, or the insert is made and the append fails, or the
    three writes are made and the alert is posted. *)
Lemma process_listing_cases (E : Env) (token : Listing) (w : World) :
  let o := DexscannerMonitor.process_listing E token w in
  (same_state w (world o) /\ Forall quiet (events o))
  \/ exists (td : TokenData) (pd : PerformanceData) (sd : SecurityData)
            (q : list Event),
       Forall quiet q
       /\ (exists data : json,
              parse_token_details (age_text E) token data
              = Ok (Some (td, pd, sd)))
       /\ processed_tokens (world o)
          = processed_tokens w ∪ {[ l_id token ]}
       /\ ((is_ok (res o) = false /\ db (world o) = db w /\ events o = q)
           \/ (exists (t1 : Z),
                  is_ok (res o) = false
                  /\ Database.add_token t1 td (db w) = Ok (db (world o))
                  /\ events o
                     = (q ++ [AddToken (l_id token) (id td)])%list)
           \/ (exists (t1 t2 t3 : Z) (s1 s2 : Store) (lg : list Event),
                  res o = Ok tt
                  /\ Database.add_token t1 td (db w) = Ok s1
                  /\ Database.update_token_performance t2 (l_id token) pd s1
                     = Ok s2
                  /\ db (world o)
                     = Database.update_security_check t3 (l_id token) sd s2
                  /\ Forall quiet lg
                  /\ events o
                     = (q ++ [AddToken (l_id token) (id td);
                              AppendPerformance (l_id token);
                              UpsertSecurity (l_id token);
                              Send (l_id token) (NewToken td)] ++ lg)%list)).
Proof.
  cbv zeta.
  remember (DexscannerMonitor.process_listing E token w) as o eqn:Ho.
  unfold DexscannerMonitor.process_listing in Ho. cbv zeta in Ho.
  rewrite bind_step in Ho. cbn [get_world res world events] in Ho.
  destruct (bool_decide (l_id token ∈ processed_tokens w)
            || Database.token_exists (l_id token) (db w)).
  { subst o. left. split; [apply same_state_refl | constructor]. }
  rewrite bind_step in Ho. unfold DexscannerAPI.get_token_details in Ho.
  destruct (retry_loop_quiet (PairDetails (l_id token))
              (fun n => details_net E n (l_id token))
              (fun retries => 2 ^ retries)
              "Timeout fetching token details"
              "Error fetching token details"
              "Failed to fetch token details" 3 3 w)
    as ([Hd Hp] & Hq & Hok).
  set (fetch := DexscannerAPI.retry_loop _ _ _ _ _ _ _ _ w) in *.
  clearbody fetch.
  destruct (res fetch) as [token_details |]; [| discriminate Hok].
  rewrite bind_step in Ho. cbn [lift res world events] in Ho.
  destruct (DexscannerMonitor.details_data token_details) as [[data |] |].
  2, 3: subst o; left; cbn [behind ret res world events];
    rewrite ?app_nil_r; split; [split; assumption | assumption].
  rewrite bind_step in Ho. cbn [lift res world events] in Ho.
  destruct (parse_token_details (age_text E) token data)
    as [[[[td pd] sd] |] |] eqn:Hparse.
  2, 3: subst o; left; cbn [behind ret res world events];
    rewrite ?app_nil_r; split; [split; assumption | assumption].
  right. exists td, pd, sd, (events fetch).
  split; [exact Hq |]. split; [now exists data |].
  rewrite bind_step in Ho.
  cbn [DexscannerMonitor.add_processed res world events] in Ho.
  set (w1 := {| db := db (world fetch);
                processed_tokens :=
                  processed_tokens (world fetch) ∪ {[ l_id token ]};
                ticks := ticks (world fetch);
                requests := requests (world fetch);
                posts := posts (world fetch) |}) in Ho.
  assert (db w1 = db w) as Hd1 by exact Hd.
  assert (processed_tokens w1 = processed_tokens w ∪ {[ l_id token ]})
    as Hp1 by (unfold w1; cbn [processed_tokens]; now rewrite Hp).
  clearbody w1.
  rewrite bind_step in Ho.
  destruct (db_add_token_out E (l_id token) td w1) as (Ha1 & _ & _ & Ha).
  set (o2 := DexscannerMonitor.db_add_token E (l_id token) td w1) in *.
  clearbody o2. rewrite Hd1 in Ha.
  destruct (Database.add_token (clock E (ticks w1)) td (db w))
    as [s1 |] eqn:Hadd.
  2:{ destruct Ha as (Hr & Hdb & He). rewrite Hr in Ho. subst o.
      cbn [behind res world events app]. rewrite Ha1, Hp1, He, !app_nil_r.
      split; [reflexivity |]. left. rewrite Hdb. repeat split. }
  destruct Ha as (Hr & Hdb & He). rewrite Hr in Ho.
  rewrite bind_step in Ho.
  destruct (db_update_token_performance_out E (l_id token) pd (world o2))
    as (Hb1 & _ & _ & Hb).
  set (o3 := DexscannerMonitor.db_update_token_performance E (l_id token)
               pd (world o2)) in *.
  clearbody o3. rewrite Hdb in Hb.
  destruct (Database.update_token_performance (clock E (ticks (world o2)))
              (l_id token) pd s1) as [s2 |] eqn:Hperf.
  2:{ destruct Hb as (Hr3 & Hdb3 & He3). rewrite Hr3 in Ho. subst o.
      cbn [behind res world events app].
      rewrite Hb1, Ha1, Hp1, He, He3, !app_nil_r.
      split; [reflexivity |]. right. left.
      exists (clock E (ticks w1)). rewrite Hdb3.
      split; [reflexivity |]. split; [exact Hadd | reflexivity]. }
  destruct Hb as (Hr3 & Hdb3 & He3). rewrite Hr3 in Ho.
  rewrite bind_step in Ho.
  destruct (db_update_security_check_out E (l_id token) sd (world o3))
    as (Hc1 & _ & Hr4 & Hdb4 & He4).
  set (o4 := DexscannerMonitor.db_update_security_check E (l_id token) sd
               (world o3)) in *.
  clearbody o4. rewrite Hr4 in Ho.
  rewrite bind_step in Ho.
  destruct (send_message_out E (l_id token) (NewToken td) (world o4))
    as ([Hd5 Hp5] & (b & Hr5) & lg & Hlg & He5).
  set (o5 := TelegramNotifier.send_message E (l_id token) (NewToken td)
               (world o4)) in *.
  clearbody o5. rewrite Hr5 in Ho. subst o.
  cbn [behind ret res world events app].
  rewrite Hp5, Hc1, Hb1, Ha1, Hp1. split; [reflexivity |].
  right. right.
  exists (clock E (ticks w1)), (clock E (ticks (world o2))),
    (clock E (ticks (world o3))), s1, s2, lg.
  split; [reflexivity |]. split; [exact Hadd |]. split; [exact Hperf |].
  split; [rewrite Hd5, Hdb4, Hdb3; reflexivity |].
  split; [exact Hlg |].
  rewrite He, He3, He4, He5, !app_nil_r. reflexivity.
Qed.

(** ** Discovery *)

Lemma inserts_app (a b : list Event) :
  inserts (a ++ b) = (inserts a ++ inserts b)%list.
Proof. apply flat_map_app. Qed.

Lemma discovery_alerts_app (a b : list Event) :
  discovery_alerts (a ++ b)
  = (discovery_alerts a ++ discovery_alerts b)%list.
Proof. apply flat_map_app. Qed.

Lemma quiet_inserts (evs : list Event) :
  Forall quiet evs -> inserts evs = [] /\ discovery_alerts evs = [].
Proof.
  induction 1 as [| e l He _ IH]; [split; reflexivity |].
  destruct e; try contradiction; exact IH.
Qed.

Lemma security_on_fresh (now : Z) (token_id : option string)
    (sd : SecurityData) (s : Store) (l : list TokenRow) (row : TokenRow) :
  tokens s = (l ++ [row])%list ->
  existsb (fun r => Database.id_is token_id (t_id r)) l = false ->
  exists row' : TokenRow,
    tokens (Database.update_security_check now token_id sd s)
    = (l ++ [row'])%list
    /\ t_id row' = t_id row.
Proof.
  intros Ht Hf. unfold Database.update_security_check. cbn [tokens].
  rewrite Ht, map_app.
  exists (if Database.id_is token_id (t_id row)
          then Database.set_is_safe
                 (if Database.is_safe sd then 1 else 0) row
          else row).
  split.
  - f_equal. clear Ht. induction l as [| r l IH]; [reflexivity |].
    simpl in Hf |- *. apply orb_false_iff in Hf as [Hr Hl].
    rewrite Hr. f_equal. now apply IH.
  - destruct (Database.id_is token_id (t_id row)); reflexivity.
Qed.

Lemma fresh_for_listing (token : Listing) (td : TokenData) (s : Store) :
  id td = str_or (l_id token) "" ->
  Database.token_exists (Some (id td)) s = false ->
  existsb (fun r => Database.id_is (l_id token) (t_id r)) (tokens s)
  = false.
Proof.
  intros Hid Hf. destruct (l_id token) as [i |]; simpl in Hid.
  - rewrite Hid in Hf. exact Hf.
  - clear. induction (tokens s) as [| r l IH]; [reflexivity | exact IH].
Qed.

Lemma grows_quiet (w w' : World) (evs : list Event) :
  same_state w w' -> Forall quiet evs -> grows w w' evs.
Proof.
  intros [Hd Hp] Hq. destruct (quiet_inserts evs Hq) as [Hi _].
  unfold grows. rewrite Hi, Hd, Hp.
  split; [exists []; now rewrite app_nil_r |].
  split; [exists []; now rewrite app_nil_r | reflexivity].
Qed.

Lemma grows_app (w w1 w2 : World) (e1 e2 : list Event) :
  grows w w1 e1 -> grows w1 w2 e2 -> grows w w2 (e1 ++ e2).
Proof.
  intros ((l1 & Ht1 & Hi1) & (p1 & Hp1) & Hs1)
         ((l2 & Ht2 & Hi2) & (p2 & Hp2) & Hs2).
  split; [| split].
  - exists (l1 ++ l2)%list. rewrite Ht2, Ht1, <- app_assoc, map_app,
      inserts_app, Hi1, Hi2. split; reflexivity.
  - exists (p1 ++ p2)%list. now rewrite Hp2, Hp1, <- app_assoc.
  - etransitivity; eassumption.
Qed.

Lemma grows_listing (E : Env) (token : Listing) :
  traces (fun _ => grows) (DexscannerMonitor.process_listing E token).
Proof.
  intros w.
  destruct (process_listing_cases E token w)
    as [[Hs Hq] | (td & pd & sd & q & Hq & (data & Hparse) & Hp & Hc)].
  { now apply grows_quiet. }
  pose proof (parsed_id _ _ _ _ _ _ Hparse) as Hid.
  set (o := DexscannerMonitor.process_listing E token w) in *.
  destruct (quiet_inserts q Hq) as [Hqi _].
  assert (processed_tokens w ⊆ processed_tokens (world o)) as Hsub.
  { rewrite Hp. apply union_subseteq_l. }
  destruct Hc as [(_ & Hd & He)
                 | [(t1 & _ & Hadd & He)
                   | (t1 & t2 & t3 & s1 & s2 & lg & _ & Hadd & Hperf & Hd
                      & Hlg & He)]].
  - unfold grows. rewrite He, Hqi, Hd.
    split; [exists []; now rewrite app_nil_r |].
    split; [exists []; now rewrite app_nil_r | exact Hsub].
  - destruct (add_token_inv _ _ _ _ Hadd)
      as (_ & row & Ht & Hrow & _ & _ & _ & Hperf & _).
    unfold grows. rewrite He, inserts_app, Hqi. split; [| split].
    + exists [row]. split; [exact Ht |]. simpl. now rewrite Hrow.
    + exists []. now rewrite app_nil_r.
    + exact Hsub.
  - destruct (add_token_inv _ _ _ _ Hadd)
      as (Hfresh & row & Ht & Hrow & _ & _ & _ & Hp1 & _).
    destruct (update_token_performance_inv _ _ _ _ _ Hperf) as [_ Hs2].
    assert (tokens s2 = (tokens (db w) ++ [row])%list) as Ht2.
    { rewrite Hs2. exact Ht. }
    destruct (security_on_fresh t3 (l_id token) sd s2 (tokens (db w)) row
                Ht2 (fresh_for_listing token td (db w) Hid Hfresh))
      as (row' & Ht3 & Hrow').
    destruct (quiet_inserts lg Hlg) as [Hlgi _].
    unfold grows. rewrite He, !inserts_app, Hqi, Hlgi. split; [| split].
    + exists [row']. rewrite Hd. split; [exact Ht3 |].
      simpl. now rewrite Hrow', Hrow.
    + rewrite Hd. cbn [Database.update_security_check token_performance].
      rewrite Hs2. cbn [token_performance]. rewrite Hp1. eauto.
    + exact Hsub.
Qed.

Lemma unique_listing (E : Env) (token : Listing) :
  traces (fun _ w w' _ => stays_unique w w')
    (DexscannerMonitor.process_listing E token).
Proof.
  intros w Hnd.
  destruct (grows_listing E token w) as ((l & Ht & Hi) & _).
  destruct (process_listing_cases E token w)
    as [[[Hd _] _] | (td & pd & sd & q & Hq & Hid & Hp & Hc)].
  { now rewrite Hd. }
  set (o := DexscannerMonitor.process_listing E token w) in *.
  destruct Hc as [(_ & Hd & _)
                 | [(t1 & _ & Hadd & _)
                   | (t1 & t2 & t3 & s1 & s2 & lg & _ & Hadd & Hperf & Hd
                      & _)]].
  - now rewrite Hd.
  - now apply (add_token_unique _ _ _ _ Hadd).
  - pose proof (add_token_unique _ _ _ _ Hadd Hnd) as H1.
    destruct (update_token_performance_inv _ _ _ _ _ Hperf) as [_ Hs2].
    rewrite Hd. unfold ids, Database.update_security_check. cbn [tokens].
    rewrite map_map.
    replace (map _ (tokens s2)) with (ids s1); [exact H1 |].
    rewrite Hs2. cbn [tokens]. unfold ids. apply map_ext. intros r.
    destruct (Database.id_is (l_id token) (t_id r)); reflexivity.
Qed.

(** X9: discovery only adds to the store. Over one discovery cycle, and
    over any number of turns of the main loop with the failures it
    catches, the token rows that were in the store are kept as they were,
    [is_safe] included, the rows behind them are those of the inserts of
    the cycle in their order, samples are only appended, the processed
    set loses no id, and ids that were unique stay unique. *)
Theorem discovery_only_adds :
  forall (E : Env) (turns : nat) (w : World),
    let c := DexscannerMonitor.check_new_listings E w in
    let o := DexscannerMonitor.run E turns w in
    grows w (world c) (events c)
    /\ stays_unique w (world c)
    /\ grows w (world o) (events o)
    /\ stays_unique w (world o).
Proof.
  intros E turns w c o.
  assert (forall b w w' evs,
             same_state w w' -> Forall quiet evs ->
             (fun _ : bool => grows) b w w' evs) as Gq.
  { intros _ ? ? ?. apply grows_quiet. }
  assert (forall b w w1 w2 e1 e2,
             (fun _ : bool => grows) true w w1 e1 ->
             (fun _ : bool => grows) b w1 w2 e2 ->
             (fun _ : bool => grows) b w w2 (e1 ++ e2)%list) as Ga.
  { intros _ ? ? ? ? ?. apply grows_app. }
  assert (forall b w w1 w2 e1 e2,
             (fun _ : bool => grows) false w w1 e1 ->
             (fun _ : bool => grows) b w1 w2 e2 ->
             (fun _ : bool => grows) b w w2 (e1 ++ e2)%list) as Gc.
  { intros _ ? ? ? ? ?. apply grows_app. }
  assert (forall b w w' (evs : list Event),
             same_state w w' -> Forall quiet evs ->
             (fun (_ : bool) w w' (_ : list Event) => stays_unique w w')
               b w w' evs) as Uq.
  { intros _ ? ? ? [Hd _] _ Hn. now rewrite Hd. }
  assert (forall (b : bool) w w1 w2 (e1 e2 : list Event),
             stays_unique w w1 -> stays_unique w1 w2 -> stays_unique w w2)
    as Ut.
  { unfold stays_unique. auto. }
  split; [| split; [| split]].
  - exact (traces_check_new_listings (fun _ => grows) Gq Ga
             grows_listing E w).
  - exact (traces_check_new_listings
             (fun _ w w' _ => stays_unique w w') Uq
             (fun b w w1 w2 e1 e2 => Ut b w w1 w2 e1 e2)
             unique_listing E w).
  - exact (traces_run (fun _ => grows) Gq Ga Gc grows_listing E turns w).
  - exact (traces_run (fun _ w w' _ => stays_unique w w') Uq
             (fun b w w1 w2 e1 e2 => Ut b w w1 w2 e1 e2)
             (fun b w w1 w2 e1 e2 => Ut b w w1 w2 e1 e2)
             unique_listing E turns w).
Qed.

Lemma alerted_quiet (b : bool) (evs : list Event) :
  Forall quiet evs -> alerted b evs.
Proof.
  intros Hq. destruct (quiet_inserts evs Hq) as [Hi Ha].
  unfold alerted. rewrite Hi, Ha.
  destruct b; [reflexivity | exists []; split; [reflexivity | simpl; lia]].
Qed.

Lemma alerted_app (b : bool) (e1 e2 : list Event) :
  alerted true e1 -> alerted b e2 -> alerted b (e1 ++ e2).
Proof.
  unfold alerted. intros H1 H2. rewrite inserts_app, discovery_alerts_app.
  destruct b.
  - now rewrite H1, H2.
  - destruct H2 as (l & H2 & Hl). exists l.
    rewrite H1, H2, app_assoc. split; [reflexivity | exact Hl].
Qed.

Lemma alerted_listing (E : Env) (token : Listing) :
  traces (fun b _ _ evs => alerted b evs)
    (DexscannerMonitor.process_listing E token).
Proof.
  intros w.
  destruct (process_listing_cases E token w)
    as [[_ Hq] | (td & pd & sd & q & Hq & _ & _ & Hc)].
  { now apply alerted_quiet. }
  set (o := DexscannerMonitor.process_listing E token w) in *.
  destruct (quiet_inserts q Hq) as [Hqi Hqa].
  destruct Hc as [(Hr & _ & He)
                 | [(t1 & Hr & _ & He)
                   | (t1 & t2 & t3 & s1 & s2 & lg & Hr & _ & _ & _
                      & Hlg & He)]].
  - rewrite He. now apply alerted_quiet.
  - rewrite Hr, He. unfold alerted.
    rewrite inserts_app, discovery_alerts_app, Hqi, Hqa.
    exists [id td]. split; [reflexivity | simpl; lia].
  - destruct (quiet_inserts lg Hlg) as [Hli Hla].
    rewrite Hr, He. unfold alerted. cbn [is_ok].
    rewrite !inserts_app, !discovery_alerts_app, Hqi, Hqa, Hli, Hla.
    reflexivity.
Qed.

(** X10: every insert of a discovery cycle is followed by its alert. In
    a cycle that returns, the alerts posted are those of the tokens
    inserted, one each and in the same order, whether or not the posts
    succeed; in a cycle that an exception ends, at most the last inserted
    token has no alert posted. *)
Theorem inserts_are_alerted :
  forall (E : Env) (w : World),
    let o := DexscannerMonitor.check_new_listings E w in
    alerted (is_ok (res o)) (events o)
    /\ (length (discovery_alerts (events o))
        <= length (inserts (events o))
        <= S (length (discovery_alerts (events o))))%nat.
Proof.
  intros E w o.
  assert (alerted (is_ok (res o)) (events o)) as H.
  { apply (traces_check_new_listings (fun b _ _ evs => alerted b evs)).
    - intros b _ _ evs _. apply alerted_quiet.
    - intros b _ _ _ e1 e2. apply alerted_app.
    - apply alerted_listing. }
  split; [exact H |].
  unfold alerted in H. destruct (is_ok (res o)).
  - rewrite H. lia.
  - destruct H as (l & -> & Hl). rewrite List.length_app. lia.
Qed.

(** ** Performance loop *)

Section PerformanceTraces.

Variable R : bool -> World -> World -> list Event -> Prop.

Hypothesis R_quiet :
  forall b w w' evs, same_state w w' -> Forall quiet evs -> R b w w' evs.
Hypothesis R_app :
  forall b w w1 w2 e1 e2,
    R true w w1 e1 -> R b w1 w2 e2 -> R b w w2 (e1 ++ e2)%list.
Hypothesis R_catch :
  forall b w w1 w2 e1 e2,
    R false w w1 e1 -> R b w1 w2 e2 -> R b w w2 (e1 ++ e2)%list.
Hypothesis R_token :
  forall E now token, traces R (DexscannerMonitor.monitor_token E now token).

Lemma traces_datetime_now (E : Env) : traces R (datetime_now E).
Proof.
  apply traces_quiet; [exact R_quiet |]. intros w.
  split; [split; reflexivity | constructor].
Qed.

Lemma traces_monitor_performance (E : Env) :
  traces R (DexscannerMonitor.monitor_performance E).
Proof.
  unfold DexscannerMonitor.monitor_performance.
  apply traces_bind; [exact R_app | apply traces_datetime_now |].
  intros read. apply traces_bind; [exact R_app | |].
  { apply traces_quiet; [exact R_quiet |]. intros w.
    split; [apply same_state_refl | constructor]. }
  intros w0. cbv zeta.
  apply traces_bind; [exact R_app | apply traces_datetime_now |].
  intros now. apply traces_for_each; [exact R_quiet | exact R_app |].
  intros token. apply R_token.
Qed.

Lemma traces_performance_monitor_loop (E : Env) (turns : nat) :
  traces R (DexscannerMonitor._performance_monitor_loop E turns).
Proof.
  induction turns as [| n IH]; [now apply traces_ret |].
  cbn [DexscannerMonitor._performance_monitor_loop].
  apply traces_bind; [exact R_app | | intros _; exact IH].
  unfold DexscannerMonitor._performance_monitor_turn.
  apply traces_try_except; [exact R_catch | |].
  - apply traces_bind;
      [exact R_app | apply traces_monitor_performance |].
    intros _. now apply traces_sleep.
  - apply traces_bind; [exact R_app | now apply traces_log |].
    intros _. now apply traces_sleep.
Qed.

End PerformanceTraces.

Lemma appends_of_app (a b : list Event) :
  appends_of (a ++ b) = (appends_of a + appends_of b)%nat.
Proof.
  unfold appends_of. now rewrite List.filter_app, List.length_app.
Qed.

Lemma quiet_sampling (evs : list Event) :
  Forall quiet evs -> Forall sampling evs /\ appends_of evs = O.
Proof.
  induction 1 as [| e l He _ [IH1 IH2]]; [split; [constructor | reflexivity] |].
  destruct e; try contradiction; (split; [constructor; [exact I | exact IH1] |]);
    exact IH2.
Qed.

Lemma samples_steady (w w' : World) (evs : list Event) :
  same_state w w' -> Forall sampling evs -> appends_of evs = O ->
  samples w w' evs.
Proof.
  intros [Hd Hp] Hs Ha. unfold samples. rewrite Hd, Hp, Ha.
  repeat split; try reflexivity; [| exact Hs].
  exists []. rewrite app_nil_r. repeat split. constructor.
Qed.

Lemma samples_quiet (w w' : World) (evs : list Event) :
  same_state w w' -> Forall quiet evs -> samples w w' evs.
Proof.
  intros Hs Hq. destruct (quiet_sampling evs Hq).
  now apply samples_steady.
Qed.

Lemma samples_app (w w1 w2 : World) (e1 e2 : list Event) :
  samples w w1 e1 -> samples w1 w2 e2 -> samples w w2 (e1 ++ e2).
Proof.
  intros (Ht1 & Hc1 & Hp1 & (l1 & Hl1 & Hz1 & Hn1) & Hs1)
         (Ht2 & Hc2 & Hp2 & (l2 & Hl2 & Hz2 & Hn2) & Hs2).
  unfold samples. rewrite Ht2, Hc2, Hp2.
  split; [exact Ht1 |]. split; [exact Hc1 |]. split; [exact Hp1 |]. split.
  - exists (l1 ++ l2)%list. rewrite Hl2, Hl1, <- app_assoc.
    split; [reflexivity |]. split; [now apply Forall_app |].
    rewrite List.length_app, appends_of_app. lia.
  - now apply Forall_app.
Qed.

Lemma traces_lift_bind {A B} (R : bool -> World -> World -> list Event -> Prop)
    (r : result A) (k : A -> M B) :
  (forall b w, R b w w []) ->
  (forall a, r = Ok a -> traces R (k a)) ->
  traces R (bind (lift r) k).
Proof.
  intros Hnil Hk w. rewrite bind_step. cbn [lift res world events].
  destruct r as [a | e]; cbn [behind res world events app is_ok].
  - now apply Hk.
  - apply Hnil.
Qed.

Lemma samples_sample_token (E : Env) (token : Tracked) :
  traces (fun _ => samples) (DexscannerMonitor.sample_token E token).
Proof.
  unfold DexscannerMonitor.sample_token. cbv zeta.
  apply traces_bind; [intros _ ? ? ? ? ?; apply samples_app | |].
  { intros w.
    destruct (retry_loop_quiet (PairDetails (Some (k_id token)))
                (fun n => details_net E n (Some (k_id token)))
                (fun retries => 2 ^ retries)
                "Timeout fetching token details"
                "Error fetching token details"
                "Failed to fetch token details" 3 3 w) as (H1 & H2 & _).
    now apply samples_quiet. }
  intros token_details.
  apply traces_lift_bind.
  { intros _ w. apply samples_quiet; [apply same_state_refl | constructor]. }
  intros [data |] _.
  2:{ intros w. apply samples_quiet; [apply same_state_refl | constructor]. }
  apply traces_lift_bind.
  { intros _ w. apply samples_quiet; [apply same_state_refl | constructor]. }
  intros [[[td pd] sd] |] Hparse.
  2:{ intros w. apply samples_quiet; [apply same_state_refl | constructor]. }
  destruct (parse_inv _ _ _ _ _ _ Hparse)
    as (d & source & susp & _ & _ & Hpd & _).
  cbn [l_price l_marketCap l_volume24h num_or] in Hpd.
  intros w. rewrite bind_step.
  destruct (db_update_token_performance_out E (Some (k_id token)) pd w)
    as (Hp & _ & _ & Hb).
  set (o := DexscannerMonitor.db_update_token_performance E
              (Some (k_id token)) pd w) in *.
  clearbody o.
  destruct (Database.update_token_performance (clock E (ticks w))
              (Some (k_id token)) pd (db w)) as [s |] eqn:Hup.
  - destruct Hb as (Hr & Hdb & He). rewrite Hr.
    cbn [behind ret res world events is_ok]. rewrite app_nil_r, He.
    destruct (update_token_performance_inv _ _ _ _ _ Hup) as [_ Hs].
    unfold samples. rewrite Hdb, Hp, Hs. cbn [tokens security_checks
      token_performance].
    repeat split; try reflexivity.
    + eexists. split; [reflexivity |]. split; [| reflexivity].
      repeat constructor; rewrite Hpd; reflexivity.
    + repeat constructor.
  - destruct Hb as (Hr & Hdb & He). rewrite Hr.
    cbn [res world events is_ok]. rewrite He.
    apply samples_quiet; [split; assumption | constructor].
Qed.

Lemma samples_check_intervals (E : Env) (token : Tracked) (h : float)
    (intervals : list Z) :
  traces (fun _ => samples)
    (DexscannerMonitor.check_intervals E token h intervals).
Proof.
  induction intervals as [| interval rest IH].
  { intros w. apply samples_quiet; [apply same_state_refl | constructor]. }
  cbn [DexscannerMonitor.check_intervals].
  destruct (DexscannerMonitor.in_window h interval); [| exact IH].
  intros w. unfold bind, datetime_now, get_world.
  cbn [res world events db ticks app].
  destruct (Database.get_token_performance_history _ _ _ _) as [l |].
  2:{ apply samples_quiet; [split; reflexivity | constructor]. }
  destruct (2 <=? length l)%nat.
  2:{ apply samples_quiet; [split; reflexivity | constructor]. }
  cbn [lift res world events app].
  destruct (TelegramNotifier.format_performance_update token l).
  2:{ apply samples_quiet; [split; reflexivity | constructor]. }
  cbn [TelegramNotifier.send_message ret res world events app is_ok].
  apply samples_steady; [split; reflexivity | |].
  - rewrite app_nil_r. constructor; [exact I |].
    destruct (telegram_net E _); repeat constructor.
  - rewrite app_nil_r. destruct (telegram_net E _); reflexivity.
Qed.

Lemma samples_monitor_token (E : Env) (now : Z) (token : Tracked) :
  traces (fun _ => samples) (DexscannerMonitor.monitor_token E now token).
Proof.
  unfold DexscannerMonitor.monitor_token.
  apply traces_lift_bind.
  { intros _ w. apply samples_quiet; [apply same_state_refl | constructor]. }
  intros h _.
  apply traces_bind; [intros _ ? ? ? ? ?; apply samples_app | |].
  { apply samples_sample_token. }
  intros [|]; [apply samples_check_intervals |].
  intros w. apply samples_quiet; [apply same_state_refl | constructor].
Qed.

Lemma try_except_total (m handler : M unit) (w : World) :
  (forall w', res (handler w') = Ok tt) ->
  res (DexscannerMonitor.try_except m (fun _ => handler) w) = Ok tt.
Proof.
  intros Hh. unfold DexscannerMonitor.try_except. cbv zeta.
  destruct (res (m w)) as [[] | e] eqn:Er; [exact Er |].
  cbn [res]. apply Hh.
Qed.

Lemma performance_monitor_loop_total (E : Env) (turns : nat) (w : World) :
  res (DexscannerMonitor._performance_monitor_loop E turns w) = Ok tt.
Proof.
  revert w. induction turns as [| n IH]; intros w; [reflexivity |].
  cbn [DexscannerMonitor._performance_monitor_loop]. rewrite bind_step.
  unfold DexscannerMonitor._performance_monitor_turn.
  rewrite try_except_total; [| intros w'; reflexivity].
  cbn [behind res]. apply IH.
Qed.

(** X11: the performance loop only samples. Over one performance cycle,
    and over any number of turns of the performance loop with the
    failures it catches, the token rows, the security rows and the
    processed set are what they were; the samples that were stored are
    kept and one sample is appended per append among the events, each
    with price, market cap and volume 0, whatever the details say,
    because the listing handed to the builder has an id and a name only;
    and there is no insert, no security write and no discovery alert. *)
Theorem performance_loop_only_samples :
  forall (E : Env) (turns : nat) (w : World),
    let c := DexscannerMonitor.monitor_performance E w in
    let o := DexscannerMonitor._performance_monitor_loop E turns w in
    samples w (world c) (events c) /\ samples w (world o) (events o).
Proof.
  intros E turns w c o.
  assert (forall b w w' evs,
             same_state w w' -> Forall quiet evs ->
             (fun _ : bool => samples) b w w' evs) as Sq.
  { intros _ ? ? ?. apply samples_quiet. }
  assert (forall b b' w w1 w2 e1 e2,
             (fun _ : bool => samples) b' w w1 e1 ->
             (fun _ : bool => samples) b w1 w2 e2 ->
             (fun _ : bool => samples) b w w2 (e1 ++ e2)%list) as Sa.
  { intros _ _ ? ? ? ? ?. apply samples_app. }
  split.
  - exact (traces_monitor_performance (fun _ => samples) Sq
             (fun b => Sa b true) samples_monitor_token E w).
  - exact (traces_performance_monitor_loop (fun _ => samples) Sq
             (fun b => Sa b true) (fun b => Sa b false)
             samples_monitor_token E turns w).
Qed.

(** X12: the performance loop outlives its failures. An exception raised
    while one tracked token is handled ends the cycle there, so the
    tokens after it are not sampled in that cycle; the guard of the loop
    catches it, logs it and waits 30 minutes, where a cycle that returns
    is followed by a wait of 15 minutes; the loop itself never raises. *)
Theorem performance_loop_guard :
  forall (E : Env) (w : World),
    let c := DexscannerMonitor.monitor_performance E w in
    let o := DexscannerMonitor._performance_monitor_turn E w in
    (forall (now : Z) (token : Tracked) (rest : list Tracked) (e : exn),
        res (DexscannerMonitor.monitor_token E now token w) = Raise e ->
        for_each (token :: rest) (DexscannerMonitor.monitor_token E now) w
        = {| res := Raise e;
             world := world (DexscannerMonitor.monitor_token E now token w);
             events :=
               events (DexscannerMonitor.monitor_token E now token w) |})
    /\ res o = Ok tt
    /\ world o = world c
    /\ events o
       = (events c
          ++ (if is_ok (res c) then [Sleep 900]
              else [Log Error "Error in performance monitoring loop";
                    Sleep 1800]))%list
    /\ (forall turns : nat,
           res (DexscannerMonitor._performance_monitor_loop E turns w)
           = Ok tt).
Proof.
  intros E w c o. split; [| split; [| split; [| split]]].
  - intros now token rest e H. cbn [for_each]. rewrite bind_step.
    now rewrite H.
  - apply try_except_total. reflexivity.
  - unfold o, DexscannerMonitor._performance_monitor_turn,
      DexscannerMonitor.try_except. cbv zeta. rewrite bind_step. fold c.
    destruct (res c); reflexivity.
  - unfold o, DexscannerMonitor._performance_monitor_turn,
      DexscannerMonitor.try_except. cbv zeta. rewrite bind_step. fold c.
    destruct (res c); reflexivity.
  - intros turns. apply performance_monitor_loop_total.
Qed.

(** ** Fetches *)

Lemma timeouts_until_answer {A} (net : nat -> Outcome A)
    (start remaining k : nat) (body : A) :
  (k < remaining)%nat ->
  (forall j, (j < k)%nat -> net (start + j)%nat = Timeout) ->
  net (start + k)%nat = Response body ->
  timeouts net start remaining = k.
Proof.
  revert start k. induction remaining as [| r IH]; intros start k Hk H He.
  - lia.
  - simpl. destruct k as [| k].
    + rewrite Nat.add_0_r in He. now rewrite He.
    + rewrite <- (Nat.add_0_r start) at 1. rewrite (H 0%nat) by lia.
      f_equal. apply IH.
      * lia.
      * intros j Hj. replace (S start + j)%nat with (start + S j)%nat by lia.
        apply H. lia.
      * replace (S start + k)%nat with (start + S k)%nat by lia. exact He.
Qed.

Lemma retry_loop_answers {A} (ep : Endpoint) (net : nat -> Outcome A)
    (wait_time : Z -> Z) (timeout_text error_text failed_text : string)
    (n : nat) (waits : list Z) (w : World) :
  (forall k, (k <= n)%nat ->
             map (wait_of wait_time n n) (seq 0 k) = firstn k waits) ->
  answers ep net n waits w
    (DexscannerAPI.retry_loop ep net wait_time timeout_text error_text
       failed_text n n w).
Proof.
  intros Hwaits k body Hk Hbefore Hbody.
  destruct (retry_loop_trace ep net wait_time timeout_text error_text
              failed_text n n w) as (Hg & Hs & Hr & Hd & Hp).
  cbn zeta in Hg, Hs, Hr.
  rewrite (timeouts_until_answer net (requests w) n k body Hk Hbefore Hbody)
    in Hg, Hs, Hr.
  rewrite Hwaits in Hs by lia.
  rewrite Hbody in Hr.
  replace (k =? n)%nat with false in Hr
    by (symmetry; apply Nat.eqb_neq; lia).
  replace (Nat.min (S k) n) with (S k) in Hg by lia.
  repeat split; assumption.
Qed.

(** X13: a fetch returns the first answer it gets. When the first [k]
    requests of a fetch time out and the next one is answered, with [k]
    below the 5 attempts of a listing fetch or the 3 attempts of a details
    fetch, the fetch returns that answer after [k + 1] requests and the
    first [k] waits of its schedule, and the store and the processed set
    are not touched. *)
Theorem fetch_returns_first_answer :
  forall (E : Env) (w : World) (token_id : option string),
    answers NewListings (listings_net E) 5 [6; 9; 12; 15; 18] w
      (DexscannerAPI.get_new_listings E 5 w)
    /\ answers (PairDetails token_id) (fun n => details_net E n token_id) 3
         [2; 4; 8] w
         (DexscannerAPI.get_token_details E token_id 3 w).
Proof.
  intros E w token_id. split.
  - apply retry_loop_answers. exact listing_waits.
  - apply retry_loop_answers. exact detail_waits.
Qed.

Lemma fetch_returns_first_answer_witness :
  res (DexscannerAPI.get_new_listings (slow_market [moon]) 5 fresh_world)
  = Ok (Some (Some [moon]))
  /\ sleeps (events (DexscannerAPI.get_new_listings (slow_market [moon]) 5
                       fresh_world)) = [6].
Proof.
  destruct (proj1 (fetch_returns_first_answer (slow_market [moon])
                     fresh_world None)
              1%nat (Some [moon]) ltac:(lia)) as (Hr & _ & Hs & _).
  - intros j Hj. assert (j = O) as -> by lia. reflexivity.
  - reflexivity.
  - split; [exact Hr | exact Hs].
Defined.

(** ** Cycles with nothing to do *)

(** X14: a discovery cycle whose listing fetch fails ends at once. When
    the fetch returns [None], because it gave up after its timeouts or
    because a request failed, the cycle returns after the requests of
    that fetch and a warning in the log: it makes no details request, no
    store write and no alert, and the store and the processed set are
    what they were. *)
Theorem cycle_without_listings :
  forall (E : Env) (w : World),
    let f := DexscannerAPI.get_new_listings E 5 w in
    let o := DexscannerMonitor.check_new_listings E w in
    res f = Ok None ->
    res o = Ok tt
    /\ same_state w (world o)
    /\ events o
       = (events f
          ++ [Log Warning
                "No data received from API or invalid response"])%list
    /\ Forall quiet (events o)
    /\ Forall (fun ep => ep = NewListings) (gets (events o)).
Proof.
  intros E w f o Hno.
  destruct (retry_loop_quiet NewListings (listings_net E)
              (fun retries => 3 + retries * 3)
              "Timeout fetching new listings"
              "Error fetching new listings"
              "Failed to fetch new listings" 5 5 w) as (Hs & Hq & Hok).
  destruct (retry_loop_trace NewListings (listings_net E)
              (fun retries => 3 + retries * 3)
              "Timeout fetching new listings"
              "Error fetching new listings"
              "Failed to fetch new listings" 5 5 w) as (Hg & _).
  cbn zeta in Hg.
  change (DexscannerAPI.retry_loop NewListings (listings_net E)
            (fun retries => 3 + retries * 3)
            "Timeout fetching new listings" "Error fetching new listings"
            "Failed to fetch new listings" 5 5 w) with f in *.
  assert (o = behind (events f)
                {| res := Ok tt; world := world f;
                   events := [Log Warning
                                "No data received from API or invalid response"]
                |}) as ->.
  { unfold o, DexscannerMonitor.check_new_listings. rewrite bind_step.
    fold f. now rewrite Hno. }
  cbn [behind res world events].
  split; [reflexivity |]. split; [exact Hs |]. split; [reflexivity |].
  split.
  - apply Forall_app. split; [exact Hq | repeat constructor].
  - rewrite gets_app, Hg. cbn [gets flat_map app]. rewrite app_nil_r.
    apply List.Forall_forall. intros ep Hin.
    now apply repeat_spec in Hin.
Qed.

Lemma cycle_without_listings_witness :
  res (DexscannerMonitor.check_new_listings silent_env fresh_world) = Ok tt
  /\ Forall quiet
       (events (DexscannerMonitor.check_new_listings silent_env
                  fresh_world)).
Proof.
  destruct (cycle_without_listings silent_env fresh_world)
    as (Hr & _ & _ & Hq & _).
  - vm_compute. reflexivity.
  - split; [exact Hr | exact Hq].
Defined.

(** ** Candidates that were handled *)

(** X15: a candidate that reached the store writes is handled once. The
    handling of a candidate either leaves the store and the processed set
    as they were, or leaves the candidate's id in the processed set, so
    that handling the same candidate again, in whatever environment, does
    nothing; this holds when a write raised, too, and then no alert was
    posted for the candidate: it is neither alerted nor retried. *)
Theorem handled_candidate_is_not_retried :
  forall (E E' : Env) (token : Listing) (w : World),
    let o := DexscannerMonitor.process_listing E token w in
    (same_state w (world o)
     \/ (l_id token ∈ processed_tokens (world o)
         /\ DexscannerMonitor.process_listing E' token (world o)
            = {| res := Ok tt; world := world o; events := [] |}))
    /\ (if is_ok (res o) then True
        else discovery_alerts (events o) = []).
Proof.
  intros E E' token w o.
  pose proof (process_listing_cases E token w) as Hcases.
  cbv zeta in Hcases. fold o in Hcases. split.
  - destruct Hcases as [[Hs _] | (td & pd & sd & q & _ & _ & Hp & _)];
      [now left | right].
    assert (l_id token ∈ processed_tokens (world o)) as Hin.
    { rewrite Hp. apply elem_of_union_r, elem_of_singleton. reflexivity. }
    split; [exact Hin |].
    apply process_listing_skips_known. now left.
  - destruct Hcases as [[_ Hq] | (td & pd & sd & q & Hq & _ & _ & Hc)].
    + destruct (quiet_inserts _ Hq) as [_ Ha]. rewrite Ha.
      now destruct (is_ok (res o)).
    + destruct (quiet_inserts q Hq) as [_ Hqa].
      destruct Hc as [(Hr & _ & He)
                     | [(t1 & Hr & _ & He)
                       | (t1 & t2 & t3 & s1 & s2 & lg & Hr & _)]].
      * now rewrite Hr, He.
      * rewrite Hr, He, discovery_alerts_app, Hqa. reflexivity.
      * now rewrite Hr.
Qed.

(** ** Entry point *)

(** X16: the first discovery cycle of the process is outside every
    guard and before the check of the credentials. The entry point makes
    a monitor and runs one discovery cycle: an exception of that cycle
    ends the process, where the same exception in the loop would be
    caught; when the cycle returns and a credential is unset or empty,
    the process logs an error and exits with code 1, after the cycle has
    made its store writes and posted its alerts; otherwise a second
    monitor, with the same store and an empty processed set, runs the
    loop, which never raises. *)
Theorem first_cycle_is_unguarded :
  forall (E : Env) (token chat : option string) (turns : nat) (w : World),
    let c := DexscannerMonitor.check_new_listings E
               (world (EntryPoint.new_monitor E w)) in
    let w2 := world (EntryPoint.new_monitor E (world c)) in
    let o := EntryPoint.main E token chat turns w in
    match res c with
    | Raise e => res o = Raise e /\ world o = world c /\ events o = events c
    | Ok _ =>
        if EntryPoint.unset token || EntryPoint.unset chat then
          res o = Ok (Some 1)
          /\ world o = world c
          /\ events o
             = (events c
                ++ [Log Error
                      "TELEGRAM_BOT_TOKEN or TELEGRAM_CHAT_ID not set in environment variables"])%list
        else
          res o = Ok None
          /\ db w2 = db (world c)
          /\ processed_tokens w2 = ∅
          /\ world o = world (DexscannerMonitor.run E turns w2)
          /\ events o
             = (events c ++ events (DexscannerMonitor.run E turns w2))%list
    end.
Proof.
  intros E token chat turns w c w2 o.
  unfold o, EntryPoint.main. rewrite bind_step.
  cbn [EntryPoint.new_monitor res world events].
  rewrite bind_step.
  change (DexscannerMonitor.check_new_listings E _) with c.
  destruct (res c) as [[] | e]; [| repeat split].
  cbn [behind res world events app].
  destruct (EntryPoint.unset token || EntryPoint.unset chat).
  - rewrite bind_step. cbn [emit ret behind res world events app].
    repeat split.
  - rewrite bind_step.
    cbn [EntryPoint.new_monitor behind res world events app].
    rewrite bind_step.
    change {| db := db (world c); processed_tokens := ∅;
              ticks := S (ticks (world c)); requests := requests (world c);
              posts := posts (world c) |} with w2.
    destruct (run_total E turns w2) as [Hr _]. rewrite Hr.
    cbn [ret behind res world events app]. rewrite app_nil_r.
    repeat split.
Qed.

(** ** Tokens the performance loop leaves alone *)

Lemma emits_for_each_in {A} (P : Event -> Prop) (l : list A)
    (body : A -> M unit) :
  (forall x, In x l -> emits P (body x)) -> emits P (for_each l body).
Proof.
  induction l as [| x l IH]; intros H; [apply emits_ret |].
  cbn [for_each]. apply emits_bind.
  - apply H. now left.
  - intros _. apply IH. intros y Hy. apply H. now right.
Qed.

Lemma check_intervals_owned (E : Env) (token : Tracked) (h : float)
    (intervals : list Z) :
  emits (owned_by (Some (k_id token)))
    (DexscannerMonitor.check_intervals E token h intervals).
Proof.
  induction intervals as [| interval rest IH]; [apply emits_ret |].
  cbn [DexscannerMonitor.check_intervals].
  destruct (DexscannerMonitor.in_window h interval); [| exact IH].
  apply emits_bind; [intros w; constructor | intros now].
  apply emits_bind; [apply emits_get_world | intros w0].
  destruct (Database.get_token_performance_history _ _ _ _) as [l |];
    [| apply emits_ret].
  destruct (2 <=? length l)%nat; [| apply emits_ret].
  apply emits_bind; [apply emits_lift | intros _].
  apply emits_bind; [| intros; apply emits_ret].
  apply emits_send; simpl; auto.
Qed.

Lemma monitor_token_owned (E : Env) (now : Z) (token : Tracked) :
  emits (owned_by (Some (k_id token)))
    (DexscannerMonitor.monitor_token E now token).
Proof.
  unfold DexscannerMonitor.monitor_token.
  apply emits_bind; [apply emits_lift | intros h].
  apply emits_bind; [| intros [|]; [apply check_intervals_owned
                                   | apply emits_ret]].
  unfold DexscannerMonitor.sample_token. cbv zeta.
  apply emits_bind.
  { apply emits_retry_loop; simpl; auto. }
  intros token_details.
  apply emits_bind; [apply emits_lift | intros data].
  destruct data as [data |]; [| apply emits_ret].
  apply emits_bind; [apply emits_lift | intros parsed].
  destruct parsed as [[[td pd] sd] |]; [| apply emits_ret].
  apply emits_bind; [| intros; apply emits_ret].
  now apply emits_db_update_token_performance.
Qed.

(** X17: the performance loop handles the tokens of the last seven days
    and no other. An id that is not the id of a token row detected at
    most seven days before the cycle reads the clock gets no details
    request, no sample and no alert in that cycle. *)
Theorem stale_tokens_are_left_alone :
  forall (E : Env) (w : World) (token_id : option string),
    ~ In token_id (tracked_ids (clock E (ticks w)) (db w)) ->
    Forall (fun e => about token_id e = false)
      (events (DexscannerMonitor.monitor_performance E w)).
Proof.
  intros E w tid Hout.
  unfold DexscannerMonitor.monitor_performance.
  rewrite bind_step. cbn [datetime_now res world events].
  rewrite bind_step. cbn [get_world res world events db]. cbv zeta.
  rewrite bind_step. cbn [datetime_now res world events ticks].
  cbn [behind events app].
  apply (emits_for_each_in (fun e => about tid e = false)).
  intros token Hin w'.
  eapply List.Forall_impl; [| apply monitor_token_owned].
  intros e. apply owned_not_about. intros <-. apply Hout.
  unfold tracked_ids. apply in_map_iff. now exists token.
Qed.

Lemma stale_tokens_are_left_alone_witness :
  tracked_ids hour_us (db moon_world) = [Some "moon"]
  /\ tracked_ids (week_us + 1000000) (db moon_world) = []
  /\ Forall (fun e => about (Some "moon") e = false)
       (events (DexscannerMonitor.monitor_performance week_later_online
                  moon_world)).
Proof.
  split; [reflexivity | split; [reflexivity |]].
  apply stale_tokens_are_left_alone. intros H. exact H.
Defined.

(** ** What discovery stores for one candidate *)

Lemma quiet_sends (evs : list Event) : Forall quiet evs -> sends evs = [].
Proof.
  induction 1 as [| e l He _ IH]; [reflexivity |].
  destruct e; try contradiction; exact IH.
Qed.

Lemma security_on_new (now : Z) (i : string) (sd : SecurityData)
    (s : Store) (l : list TokenRow) (row : TokenRow) :
  tokens s = (l ++ [row])%list ->
  existsb (fun r => Database.id_is (Some i) (t_id r)) l = false ->
  t_id row = i ->
  tokens (Database.update_security_check now (Some i) sd s)
  = (l ++ [Database.set_is_safe
             (if Database.is_safe sd then 1 else 0) row])%list.
Proof.
  intros Ht Hf Hi. unfold Database.update_security_check. cbn [tokens].
  rewrite Ht, map_app. f_equal.
  - clear Ht. induction l as [| r l IH]; [reflexivity |].
    simpl in Hf |- *. apply orb_false_iff in Hf as [Hr Hl].
    rewrite Hr. f_equal. now apply IH.
  - simpl. now rewrite Hi, String.eqb_refl.
Qed.

Lemma filter_all {T} (f : T -> bool) (l : list T) :
  (forall x, f x = true) -> List.filter f l = l.
Proof.
  intros H. induction l as [| x l IH]; [reflexivity |].
  simpl. now rewrite H, IH.
Qed.

Lemma handled_inv (E : Env) (token : Listing) (w : World) :
  let o := DexscannerMonitor.process_listing E token w in
  res o = Ok tt -> inserts (events o) <> [] ->
  exists (td : TokenData) (pd : PerformanceData) (sd : SecurityData)
         (data : json) (t1 t2 t3 : Z) (s1 s2 : Store),
    parse_token_details (age_text E) token data = Ok (Some (td, pd, sd))
    /\ Database.add_token t1 td (db w) = Ok s1
    /\ Database.update_token_performance t2 (l_id token) pd s1 = Ok s2
    /\ db (world o)
       = Database.update_security_check t3 (l_id token) sd s2
    /\ sends (events o) = [NewToken td].
Proof.
  cbv zeta. intros Hok Hins.
  destruct (process_listing_cases E token w)
    as [[_ Hq] | (td & pd & sd & q & Hq & (data & Hparse) & _ & Hc)].
  { destruct (quiet_inserts _ Hq) as [Hi _]. now destruct Hins. }
  destruct Hc as [(Hr & _)
                 | [(t1 & Hr & _)
                   | (t1 & t2 & t3 & s1 & s2 & lg & _ & Hadd & Hperf & Hd
                      & Hlg & He)]].
  - rewrite Hok in Hr. discriminate Hr.
  - rewrite Hok in Hr. discriminate Hr.
  - exists td, pd, sd, data, t1, t2, t3, s1, s2.
    repeat (split; [assumption |]).
    rewrite He, !sends_app, (quiet_sends q Hq), (quiet_sends lg Hlg).
    reflexivity.
Qed.

(** X18: the safety stored for a discovered token is the one its alert
    shows. When the handling of a candidate with an id inserts it and
    returns, one alert is posted, for the record that was built, the row
    of the token is the last row of the store, and its [is_safe] is 1
    when the alerted record carries no warning and 0 when it carries
    one. *)
Theorem stored_safety_matches_alert :
  forall (E : Env) (token : Listing) (w : World) (i : string),
    l_id token = Some i ->
    let o := DexscannerMonitor.process_listing E token w in
    res o = Ok tt ->
    inserts (events o) <> [] ->
    exists (td : TokenData) (row : TokenRow),
      sends (events o) = [NewToken td]
      /\ id td = i
      /\ tokens (db (world o)) = (tokens (db w) ++ [row])%list
      /\ t_id row = i
      /\ t_is_safe row
         = match security_warnings td with
           | None => 1
           | Some _ => 0
           end.
Proof.
  intros E token w i Hi o Hok Hins.
  destruct (handled_inv E token w Hok Hins)
    as (td & pd & sd & data & t1 & t2 & t3 & s1 & s2 & Hparse & Hadd
        & Hperf & Hd & Hs).
  fold o in Hd, Hs.
  pose proof (parsed_id _ _ _ _ _ _ Hparse) as Hid.
  rewrite Hi in Hid, Hperf, Hd. cbn [str_or] in Hid.
  destruct (add_token_inv _ _ _ _ Hadd)
    as (Hfresh & row & Ht & Hrow & _).
  destruct (update_token_performance_inv _ _ _ _ _ Hperf) as [_ Hs2].
  assert (tokens s2 = (tokens (db w) ++ [row])%list) as Ht2.
  { rewrite Hs2. exact Ht. }
  rewrite Hid in Hfresh, Hrow.
  exists td, (Database.set_is_safe
                (if Database.is_safe sd then 1 else 0) row).
  split; [exact Hs |]. split; [exact Hid |]. split.
  { rewrite Hd. now apply security_on_new. }
  split; [exact Hrow |].
  cbn [Database.set_is_safe t_is_safe].
  pose proof (warnings_iff_safe _ _ _ _ _ _ Hparse) as Hw.
  destruct (security_warnings td) as [ws |], (Database.is_safe sd);
    try reflexivity.
  - destruct Hw as [_ Hw]. discriminate (Hw eq_refl).
  - destruct Hw as [Hw _]. discriminate (Hw eq_refl).
Qed.

Lemma stored_safety_matches_alert_witness :
  exists (td : TokenData) (row : TokenRow),
    sends (events (DexscannerMonitor.process_listing
                     (market_env [star] (fun _ => plain_details)) star
                     fresh_world)) = [NewToken td]
    /\ tokens (db (world (DexscannerMonitor.process_listing
                            (market_env [star] (fun _ => plain_details))
                            star fresh_world))) = [row]
    /\ security_warnings td
       = Some ["Token has mint function enabled"]
    /\ t_is_safe row = 0.
Proof.
  destruct (stored_safety_matches_alert
              (market_env [star] (fun _ => plain_details)) star fresh_world
              "star" eq_refl ltac:(vm_compute; reflexivity)
              ltac:(vm_compute; discriminate))
    as (td & row & Hs & _ & Ht & _ & Hsafe).
  exists td, row. split; [exact Hs |]. split; [exact Ht |].
  assert (security_warnings td = Some ["Token has mint function enabled"])
    as Hw.
  { assert (sends (events (DexscannerMonitor.process_listing
                             (market_env [star] (fun _ => plain_details))
                             star fresh_world))
            = [NewToken
                 (with_warnings
                    (build_token_data no_age star
                       [("mintEnabled", JBool false)] "pump.swap")
                    (Some ["Token has mint function enabled"]))]) as Hc
      by (vm_compute; reflexivity).
    rewrite Hs in Hc. injection Hc as ->. reflexivity. }
  split; [exact Hw |]. rewrite Hsafe, Hw. reflexivity.
Defined.

(** X19: a listing without an id is stored where nothing reads it. When
    the handling of a candidate that has no [id] inserts it and returns,
    the token row is stored under the empty id with [is_safe = 0],
    whatever the check found, while its sample and its security check are
    stored under NULL: the history and the security rows of every id, the
    empty one included, are what they were. *)
Theorem listing_without_id_is_stored_blind :
  forall (E : Env) (token : Listing) (w : World),
    l_id token = None ->
    let o := DexscannerMonitor.process_listing E token w in
    res o = Ok tt ->
    inserts (events o) <> [] ->
    (exists row : TokenRow,
        tokens (db (world o)) = (tokens (db w) ++ [row])%list
        /\ t_id row = "" /\ t_is_safe row = 0)
    /\ (forall (now : Z) (i : string) (hours : Z),
           Database.get_token_performance_history now (Some i) hours
             (db (world o))
           = Database.get_token_performance_history now (Some i) hours
               (db w))
    /\ (forall i : string,
           checks_of (Some i) (db (world o)) = checks_of (Some i) (db w)).
Proof.
  intros E token w Hi o Hok Hins.
  destruct (handled_inv E token w Hok Hins)
    as (td & pd & sd & data & t1 & t2 & t3 & s1 & s2 & Hparse & Hadd
        & Hperf & Hd & _).
  fold o in Hd.
  pose proof (parsed_id _ _ _ _ _ _ Hparse) as Hid.
  rewrite Hi in Hid, Hperf, Hd. cbn [str_or] in Hid.
  destruct (add_token_inv _ _ _ _ Hadd)
    as (_ & row & Ht & Hrow & _ & _ & Hsafe & Hp1 & Hc1).
  destruct (update_token_performance_inv _ _ _ _ _ Hperf) as [_ Hs2].
  rewrite Hd, Hs2. split; [| split].
  - exists row. split; [| split; [congruence | exact Hsafe]].
    unfold Database.update_security_check. cbn [tokens].
    rewrite <- Ht. clear. induction (tokens s1) as [| r l IH];
      [reflexivity |]. cbn [map Database.id_is]. f_equal. exact IH.
  - intros now i hours.
    unfold Database.get_token_performance_history,
      Database.update_security_check.
    cbv zeta. cbn [token_performance]. rewrite Hp1, List.filter_app.
    simpl. now rewrite app_nil_r.
  - intros i. unfold checks_of, Database.update_security_check.
    cbn [security_checks]. rewrite Hc1, List.filter_app. simpl.
    rewrite app_nil_r. f_equal. apply filter_all.
    intros r. now destruct (s_id r).
Qed.

Lemma listing_without_id_is_stored_blind_witness :
  exists row : TokenRow,
    tokens (db (world (DexscannerMonitor.process_listing
                         (market_env [no_id] (fun _ => plain_details))
                         no_id fresh_world))) = [row]
    /\ t_id row = "" /\ t_is_safe row = 0.
Proof.
  exact (proj1 (listing_without_id_is_stored_blind
                  (market_env [no_id] (fun _ => plain_details)) no_id
                  fresh_world eq_refl ltac:(vm_compute; reflexivity)
                  ltac:(vm_compute; discriminate))).
Defined.
